(** * Exa / OpenRouter pipes: the orchestration loop, the citation
      accumulator and the source formatter

    A shallow embedding of [functions/exa_openrouter_direct.py],
    [functions/exa_crewai_answer.py],
    [functions/open_webui/utils/misc.py] and of the loop of
    [functions/test_valve.py] that consumes a pipe.

    - JSON-like Python values are the inductive [value]; a Python [dict]
      with string keys is a [gmap string value].  What the program builds
      itself (the messages, a text it yields, a formatted source) has the
      type the source annotates; what a dict holds, and what the program
      takes from a reply of Exa without checking it (the answer, the
      citations, and so the items of [all_citations]), is a [value], and
      an operation on a value of the wrong type raises as it does in
      Python.
    - Python [str] is Rocq's [string]; a character is a code point below 256.
    - The network, the JSON decoder and the interpreter's rendering of
      values and exceptions are the fields of [Env]: every theorem holds
      for every environment.
    - Code that mutates [messages] and [all_citations] and may raise is
      written in the monad [M], whose state survives an exception, as the
      mutated Python lists do.
    - A run is known by its events, in order: calls of the model, tool
      invocations, texts yielded, sources emitted. *)

From stdpp Require Import gmap strings list fin_maps pretty.

#[local] Set Warnings "-register-all".

(** * The program *)

(** ** Values *)

Inductive value :=
| VNone
| VBool (b : bool)
| VInt (n : Z)
| VStr (s : string)
| VList (l : list value)
| VDict (d : gmap string value).

Abbreviation dict := (gmap string value).

(** Exceptions.  [HTTPStatusError] is httpx's; [TransportError] stands for
    every other failure of an HTTP exchange (connection, timeout, a reply
    of an unexpected shape), identified by its message. *)
Inductive exn :=
| HTTPStatusError (status_code : Z) (text : string)
| TransportError (message : string)
| PipeExceptionError (message : string)
| ValueError (message : string)
| JSONDecodeError (message : string)
| KeyError (key : string)
| TypeError (operation : string) (operand : value)
| AttributeError (operand : value) (attribute : string).

Abbreviation result A := (exn + A)%type.

Definition nl : string := String (Ascii.ascii_of_nat 10) "".

(** ** Python primitives *)

(** [bool(v)] *)
Definition truthy (v : value) : bool :=
  match v with
  | VNone => false
  | VBool b => b
  | VInt n => negb (n =? 0)%Z
  | VStr s => negb (String.eqb s "")
  | VList l => negb (bool_decide (l = []))
  | VDict d => negb (bool_decide (d = ∅))
  end.

(** [d.get(k, default)] *)
Definition dict_get (d : dict) (k : string) (dflt : value) : value :=
  default dflt (d !! k).

(** [v.get(k, default)] on any value *)
Definition py_get (v : value) (k : string) (dflt : value) : result value :=
  match v with
  | VDict d => inr (dict_get d k dflt)
  | _ => inl (AttributeError v "get")
  end.

(** [v == "literal"] *)
Definition eq_str (v : value) (s : string) : bool :=
  match v with
  | VStr s' => String.eqb s' s
  | _ => false
  end.

(** [v[k]] for a string key [k] *)
Definition getitem (v : value) (k : string) : result value :=
  match v with
  | VDict d =>
      match d !! k with
      | Some x => inr x
      | None => inl (KeyError k)
      end
  | _ => inl (TypeError "subscript" v)
  end.

(** [iter(v)]: the items a [for] loop or [list.extend] visits (for a dict
    its keys, whose order is of no consequence here: the loop over the
    tool calls and the formatter raise on the first one) *)
Fixpoint chars (s : string) : list value :=
  match s with
  | "" => []
  | String c s' => VStr (String c "") :: chars s'
  end.

Definition iterate (v : value) : result (list value) :=
  match v with
  | VList l => inr l
  | VStr s => inr (chars s)
  | VDict d => inr (VStr <$> (map_to_list d).*1)
  | _ => inl (TypeError "iter" v)
  end.

(** [len(v)] *)
Definition py_len (v : value) : result nat :=
  match v with
  | VStr s => inr (String.length s)
  | VList l => inr (length l)
  | VDict d => inr (size d)
  | _ => inl (TypeError "len" v)
  end.

(** [v[:n]].  Slicing a dict raises (TypeError before CPython 3.12,
    KeyError from 3.12 on: both are [Exception]s and no handler of this
    program tells them apart). *)
Definition slice_to (n : nat) (v : value) : result value :=
  match v with
  | VStr s => inr (VStr (String.substring 0 n s))
  | VList l => inr (VList (take n l))
  | _ => inl (TypeError "slice" v)
  end.

(** [str.isspace] on the code points below 256 *)
Definition is_space (c : Ascii.ascii) : bool :=
  let n := Ascii.nat_of_ascii c in
  (((9 <=? n) && (n <=? 13)) || ((28 <=? n) && (n <=? 32))
   || (n =? 133) || (n =? 160))%nat.

Fixpoint lstrip (s : string) : string :=
  match s with
  | "" => ""
  | String c s' => if is_space c then lstrip s' else s
  end.

Definition rstrip (s : string) : string := String.rev (lstrip (String.rev s)).

(** [s.strip()] *)
Definition strip (s : string) : string := rstrip (lstrip s).

(** [v.strip()] *)
Definition py_strip (v : value) : result string :=
  match v with
  | VStr s => inr (strip s)
  | _ => inl (AttributeError v "strip")
  end.

(** [not v or not v.strip()] *)
Definition is_blank (v : value) : result bool :=
  if negb (truthy v) then inr true
  else match py_strip v with
       | inl e => inl e
       | inr s => inr (negb (truthy (VStr s)))
       end.

(** ** The environment of a run *)

Inductive tool := exa_answer | exa_context.

Definition tool_name (t : tool) : string :=
  match t with
  | exa_answer => "exa_answer_search"
  | exa_context => "exa_context_search"
  end.

(** What a run does to the outside, in order.  A network event carries the
    request and the reply it got. *)
Inductive event :=
| EvChat (model : string) (messages : list dict) (with_tools : bool)
         (reply : result dict)
| EvTool (t : tool) (query : value) (answer : value) (citations : value)
| EvYield (text : string)
| EvEmit (sources : list dict).

(** - [json_loads]: [json.loads] on a string: the decoded value, or the
      message of the [JSONDecodeError].
    - [repr_other]: [str(v)] for a [v] that is neither a string, [None], a
      bool nor an int.
    - [exc_text]: [str(e)] for the exceptions whose text the interpreter or
      a library composes.
    - [openrouter log model messages with_tools]: the reply to a POST on
      [/chat/completions] after the events [log]: the exchange up to
      [data["choices"][0]["message"]], so either that message or what was
      raised on the way.
    - [exa log t query]: the POST of [exa_answer_search] on [/answer], or
      of [exa_context_search] on [/context], after the events [log]: the
      exchange up to [response.json()], so either the decoded body, which
      these functions read without checking it, or what was raised on the
      way. *)
Record Env := {
  json_loads : string → string + value;
  repr_other : value → string;
  exc_text : exn → string;
  openrouter : list event → string → list dict → bool → result dict;
  exa : list event → tool → value → result value
}.

(** [str(v)], also what an f-string prints for [{v}] *)
Definition py_str (env : Env) (v : value) : string :=
  match v with
  | VStr s => s
  | VNone => "None"
  | VBool true => "True"
  | VBool false => "False"
  | VInt n => pretty n
  | _ => repr_other env v
  end.

(** [str(e)] *)
Definition str_exn (env : Env) (e : exn) : string :=
  match e with
  | TransportError m | PipeExceptionError m | ValueError m
  | JSONDecodeError m => m
  | KeyError k => "'" +:+ k +:+ "'"
  | _ => exc_text env e
  end.

(** [json.loads(v)]: anything but a string is a [TypeError]. *)
Definition py_json_loads (env : Env) (v : value) : result value :=
  match v with
  | VStr s =>
      match json_loads env s with
      | inl message => inl (JSONDecodeError message)
      | inr x => inr x
      end
  | _ => inl (TypeError "json.loads" v)
  end.

Record Valves := {
  EXA_API_KEY : option string;
  EXA_API_BASE_URL : string;
  EXA_TEXT_PARAMETER : bool;
  EXA_CONTEXT_TOKENS_NUM : Z;
  OPENROUTER_API_KEY : option string;
  OPENROUTER_API_BASE_URL : string;
  OPENROUTER_MODEL : string;
  EMIT_SOURCES : bool;
  TIMEOUT : Z
}.

(** [bool(key)] for a key of type [str | None] *)
Definition key_set (k : option string) : bool :=
  match k with
  | Some s => negb (String.eqb s "")
  | None => false
  end.

(** ** open_webui/utils/misc.py

    The two pipes import [pop_system_message] from this module; the
    definition they fall back on when the import fails is
    [pop_system_message_fallback], further down. *)

Definition is_system (message : dict) : bool :=
  eq_str (dict_get message "role" VNone) "system".

(** The body of [for message in messages]. *)
Definition pop_step (acc : option dict * list dict) (message : dict)
  : option dict * list dict :=
  let '(system_message, remaining_messages) := acc in
  if is_system message then
    (match system_message with
     | None => Some message
     | Some _ => system_message
     end, remaining_messages)
  else (system_message, remaining_messages ++ [message]).

Definition pop_system_message (messages : list dict)
  : option dict * list dict :=
  if bool_decide (messages = []) then (None, messages)
  else fold_left pop_step messages (None, []).

(** ** The source formatter *)

Definition fallback_preview : string := "Click the link to view the content.".

(** The lines under [# Build metadata]. *)
Definition build_metadata (url author published_date : value) : dict :=
  let metadata : dict := {[ "source" := url ]} in
  let metadata := if truthy author then <["author" := author]> metadata
                  else metadata in
  if truthy published_date
  then <["publishedDate" := published_date]> metadata
  else metadata.

(** The body of the loop, for the citation at index [i]. *)
Definition format_citation (env : Env) (i : nat) (citation : dict)
  : result dict :=
  let url := dict_get citation "url" (VStr "") in
  let title := dict_get citation "title" (VStr ("Source " +:+ pretty (i + 1))) in
  let author := dict_get citation "author" (VStr "") in
  let published_date := dict_get citation "publishedDate" (VStr "") in
  let metadata := build_metadata url author published_date in
  let text_content := dict_get citation "text" (VStr "") in
  match (if truthy text_content then slice_to 500 text_content
         else inr (VStr fallback_preview)) with
  | inl e => inl e
  | inr preview =>
      inr (<["source" := VDict (<["name" := VStr ("[" +:+ pretty (i + 1) +:+ "] "
                                                   +:+ py_str env title)]>
                               (<["type" := VStr "web_search_results"]>
                               {[ "urls" := VList [url] ]}))]>
          (<["document" := VList [preview]]>
          {[ "metadata" := VList [VDict metadata] ]}))
  end.

(** The body of the loop for the item at index [i] of [citations]:
    [citation.get] raises on an item that is not a dict. *)
Definition format_item (env : Env) (i : nat) (citation : value)
  : result dict :=
  match citation with
  | VDict d => format_citation env i d
  | _ => inl (AttributeError citation "get")
  end.

(** The loop over [enumerate(citations)], [i] being the index of the head
    of [citations]. *)
Fixpoint format_from (env : Env) (i : nat) (citations : list value)
  : result (list dict) :=
  match citations with
  | [] => inr []
  | citation :: rest =>
      match format_item env i citation with
      | inl e => inl e
      | inr source =>
          match format_from env (S i) rest with
          | inl e => inl e
          | inr sources => inr (source :: sources)
          end
      end
  end.

Definition _format_citations_as_sources (env : Env) (citations : list value)
  : result (list dict) :=
  format_from env 0 citations.

(** ** State and exceptions *)

(** The two lists the loop mutates, and the events so far. *)
Record State := {
  st_messages : list dict;
  st_citations : list value;
  st_log : list event
}.

Definition M (A : Type) : Type := State → result A * State.

Definition ret {A} (x : A) : M A := λ st, (inr x, st).

Definition bind {A B} (c : M A) (k : A → M B) : M B :=
  λ st, match c st with
        | (inl e, st') => (inl e, st')
        | (inr x, st') => k x st'
        end.

Definition lift {A} (r : result A) : M A := λ st, (r, st).

(** [try: c  except Exception as e: h e] *)
Definition try_except {A} (c : M A) (h : exn → M A) : M A :=
  λ st, match c st with
        | (inl e, st') => h e st'
        | (inr x, st') => (inr x, st')
        end.

Declare Scope py_scope.
Delimit Scope py_scope with py.
Notation "x ← c ; k" := (bind c (λ x, k))
  (at level 20, c at level 100, k at level 200, only parsing) : py_scope.
Notation "c ;; k" := (bind c (λ _, k))
  (at level 100, k at level 200, only parsing, right associativity) : py_scope.
#[local] Open Scope py_scope.

Fixpoint for_each {A} (l : list A) (body : A → M unit) : M unit :=
  match l with
  | [] => ret ()
  | x :: l' => body x ;; for_each l' body
  end.

(** [messages.append(m)] *)
Definition append_message (m : dict) : M unit :=
  λ st, (inr (), {| st_messages := st_messages st ++ [m];
                    st_citations := st_citations st;
                    st_log := st_log st |}).

(** [all_citations.extend(cs)]: [cs] is iterated, which raises when it
    cannot be. *)
Definition extend_citations (cs : value) : M unit :=
  items ← lift (iterate cs);
  λ st, (inr (), {| st_messages := st_messages st;
                    st_citations := st_citations st ++ items;
                    st_log := st_log st |}).

Definition get_citations : M (list value) := λ st, (inr (st_citations st), st).

Definition record (ev : event) : M unit :=
  λ st, (inr (), {| st_messages := st_messages st;
                    st_citations := st_citations st;
                    st_log := st_log st ++ [ev] |}).

(** One POST on [/chat/completions] with the current [messages], with or
    without the tool catalog, up to the extraction of the reply's message. *)
Definition post_chat (env : Env) (valves : Valves) (with_tools : bool)
  : M dict :=
  λ st,
    let reply := openrouter env (st_log st) (OPENROUTER_MODEL valves)
                   (st_messages st) with_tools in
    (reply, {| st_messages := st_messages st;
               st_citations := st_citations st;
               st_log := st_log st ++ [EvChat (OPENROUTER_MODEL valves)
                                         (st_messages st) with_tools reply] |}).

(** ** The two searches: [exa_answer_search] and [exa_context_search] *)

Definition exa_error (status_code : Z) (text : string) : string :=
  "Exa API error: " +:+ pretty status_code +:+ " - " +:+ text.

(** The two [except] clauses of a search: a text that describes the
    error, and no citation. *)
Definition search_failed (env : Env) (e : exn) : value * value :=
  match e with
  | HTTPStatusError status_code text =>
      (VStr ("Error searching: " +:+ exa_error status_code text), VList [])
  | _ => (VStr ("Error searching: " +:+ str_exn env e), VList [])
  end.

(** [exa_answer_search]: the answer and the citations are what the body
    of the reply holds under these keys, whatever it is. *)
Definition exa_answer_search (env : Env) (log : list event) (query : value)
  : value * value :=
  match exa env log exa_answer query with
  | inl e => search_failed env e
  | inr data =>
      match py_get data "answer" (VStr "No answer provided.") with
      | inl e => search_failed env e
      | inr answer =>
          match py_get data "citations" (VList []) with
          | inl e => search_failed env e
          | inr citations => (answer, citations)
          end
      end
  end.

(** [exa_context_search]: it returns the empty list of citations on
    every path. *)
Definition exa_context_search (env : Env) (log : list event) (query : value)
  : value * value :=
  match exa env log exa_context query with
  | inl e => search_failed env e
  | inr data =>
      match py_get data "response" (VStr "No context provided.") with
      | inl e => search_failed env e
      | inr context_response =>
          match py_get data "resultsCount" (VInt 0) with
          | inl e => search_failed env e
          | inr results_count =>
              (VStr (py_str env context_response +:+ nl +:+ nl +:+ "Found "
                     +:+ py_str env results_count +:+ " relevant results."),
               VList [])
          end
      end
  end.

Definition search (env : Env) (log : list event) (t : tool) (query : value)
  : value * value :=
  match t with
  | exa_answer => exa_answer_search env log query
  | exa_context => exa_context_search env log query
  end.

(** One call of [exa_answer_search] or [exa_context_search]. *)
Definition invoke (env : Env) (t : tool) (query : value)
  : M (value * value) :=
  λ st,
    let r := search env (st_log st) t query in
    (inr r, {| st_messages := st_messages st;
               st_citations := st_citations st;
               st_log := st_log st ++ [EvTool t query r.1 r.2] |}).

(** ** The orchestration loop: [_call_openrouter_with_tools] *)

Definition no_key_error : string := "Error: EXA_API_KEY not configured".

(** The branch of one declared tool. *)
Definition run_tool (env : Env) (valves : Valves) (t : tool)
    (function_args : value) : M value :=
  if negb (key_set (EXA_API_KEY valves)) then
    extend_citations (VList []) ;; ret (VStr no_key_error)
  else
    query ← lift (getitem function_args "query");
    r ← invoke env t query;
    extend_citations r.2 ;; ret r.1.

Definition tool_message (id content : value) : dict :=
  <["tool_call_id" := id]> (<["role" := VStr "tool"]>
  {[ "content" := content ]}).

(** The [if] / [elif] / [else] under [# Execute the appropriate tool]. *)
Definition dispatch (env : Env) (valves : Valves)
    (function_name function_args : value) : M value :=
  if eq_str function_name "exa_answer_search" then
    run_tool env valves exa_answer function_args
  else if eq_str function_name "exa_context_search" then
    run_tool env valves exa_context function_args
  else ret (VStr ("Unknown tool: " +:+ py_str env function_name)).

(** The body of [for tool_call in tool_calls]. *)
Definition handle_tool_call (env : Env) (valves : Valves) (tool_call : value)
  : M unit :=
  fn ← lift (getitem tool_call "function");
  function_name ← lift (getitem fn "name");
  fn ← lift (getitem tool_call "function");
  raw ← lift (getitem fn "arguments");
  function_args ← lift (py_json_loads env raw);
  result ← dispatch env valves function_name function_args;
  id ← lift (getitem tool_call "id");
  append_message (tool_message id result).

Definition loop_summary (n : nat) : string :=
  "Based on the search results I found, here's what I can tell you about your query. I found "
  +:+ pretty n +:+ " relevant sources that should help answer your question.".

Definition apology : string :=
  "I apologize, but I couldn't generate a response. Please try rephrasing your question.".

(** The [try] block. *)
Definition call_body (env : Env) (valves : Valves) : M value :=
  message ← post_chat env valves true;
  let tool_calls := dict_get message "tool_calls" (VList []) in
  if negb (truthy tool_calls) then
    ret (dict_get message "content" (VStr ""))
  else
    append_message message ;;
    items ← lift (iterate tool_calls);
    for_each items (handle_tool_call env valves) ;;
    final_message ← post_chat env valves false;
    let result_text := dict_get final_message "content" (VStr "") in
    blank ← lift (is_blank result_text);
    if blank : bool then
      all_citations ← get_citations;
      if negb (bool_decide (all_citations = [])) then
        ret (VStr (loop_summary (length all_citations)))
      else ret (VStr apology)
    else ret result_text.

Definition api_error (status_code : Z) (text : string) : string :=
  "OpenRouter API error: " +:+ pretty status_code +:+ " - " +:+ text.

(** The text the two [except] clauses return: the first is for
    [httpx.HTTPStatusError], the second for any other [Exception]. *)
Definition error_text (env : Env) (e : exn) : string :=
  match e with
  | HTTPStatusError status_code text => "Error: " +:+ api_error status_code text
  | _ => "Error: " +:+ str_exn env e
  end.

Definition call_handler (env : Env) (e : exn) : M value :=
  ret (VStr (error_text env e)).

(** [_call_openrouter_with_tools(messages, all_citations)]: the two
    arguments are the state's lists; the text is the value, the returned
    citations are the state's. *)
Definition _call_openrouter_with_tools (env : Env) (valves : Valves)
  : M value :=
  try_except (call_body env valves) (call_handler env).

(** ** The conversation composer *)

Definition _build_conversation_context (env : Env) (messages : list dict)
  : string :=
  fold_left
    (λ context msg,
       let role := dict_get msg "role" (VStr "user") in
       let content := dict_get msg "content" (VStr "") in
       if eq_str role "user" then
         context +:+ ("User: " +:+ py_str env content +:+ nl +:+ nl)
       else if eq_str role "assistant" then
         context +:+ ("Assistant: " +:+ py_str env content +:+ nl +:+ nl)
       else context)
    messages ("Previous conversation:" +:+ nl +:+ nl).

Definition tool_guidance : string :=
  "You have access to two search tools:" +:+ nl +:+
  "- exa_answer_search: for general web queries and current events" +:+ nl +:+
  "- exa_context_search: for coding questions, technical documentation, and code examples" +:+ nl +:+
  "Choose the appropriate tool based on the question type. You can call tools multiple times if needed.".

Definition context_message (conversation_context : string) : dict :=
  <["role" := VStr "system"]>
  {[ "content" := VStr (conversation_context +:+ nl +:+ nl +:+ tool_guidance) ]}.

(** [pipe], lines 465-481: what becomes of [messages] before the call. *)
Definition compose_messages (env : Env) (messages : list dict) : list dict :=
  if (1 <? length messages)%nat then
    let conversation_context :=
      _build_conversation_context env (take (length messages - 1) messages) in
    if truthy (VStr conversation_context) then
      [context_message conversation_context]
        ++ drop (length messages - 1) messages
    else messages
  else messages.

(** ** The output emitter and [pipe] *)

(** [_emit_sources]; [event_emitter] tells whether a callback was given
    (the callback itself does not raise). *)
Definition _emit_sources (env : Env) (valves : Valves) (citations : list value)
    (event_emitter : bool) : M unit :=
  if negb (bool_decide (citations = [])) && EMIT_SOURCES valves
     && event_emitter then
    sources ← lift (_format_citations_as_sources env citations);
    if negb (bool_decide (sources = [])) then record (EvEmit sources)
    else ret ()
  else ret ().

Definition pipe_summary (n : nat) : string :=
  "Based on my search, I found " +:+ pretty n
  +:+ " relevant sources that should help answer your question.".

(** [pipe], lines 487-514: from the result of the loop to the yield and
    the emission.  The f-strings of the [logger.info] calls are evaluated,
    so the [len] and the slices in them can raise. *)
Definition deliver (env : Env) (valves : Valves) (event_emitter : bool)
    (result_text : value) (citations : list value) : M unit :=
  _ ← lift (py_len result_text);
  _ ← lift (slice_to 200 result_text);
  blank ← lift (is_blank result_text);
  let result_text :=
    if blank : bool then
      if negb (bool_decide (citations = []))
      then VStr (pipe_summary (length citations))
      else VStr apology
    else result_text in
  _ ← lift (py_len result_text);
  _ ← lift (slice_to 100 result_text);
  record (EvYield (py_str env result_text)) ;;
  if negb (bool_decide (citations = [])) then
    _emit_sources env valves citations event_emitter
  else ret ().

(** [messages = ...] and the fresh [[]] passed as [all_citations] *)
Definition start (messages : list dict) : M unit :=
  λ st, (inr (), {| st_messages := messages; st_citations := [];
                    st_log := st_log st |}).

(** The [try] block of [pipe]; [body_messages] is [body.get("messages")]. *)
Definition pipe_body (env : Env) (valves : Valves)
    (body_messages : option (list dict)) (event_emitter : bool) : M unit :=
  let '(system_message, messages) :=
    pop_system_message (default [] body_messages) in
  let messages := compose_messages env messages in
  start messages ;;
  result_text ← _call_openrouter_with_tools env valves;
  citations ← get_citations;
  deliver env valves event_emitter result_text citations.

(** The [except] clause of [pipe]. *)
Definition pipe_handler (env : Env) (e : exn) : M unit :=
  record (EvYield ("Error: " +:+ str_exn env e)).

(** What the caller of the generator sees: what was raised to it, if
    anything, and the events in order. *)
Record Run := {
  raised : option exn;
  trace : list event
}.

Definition init_state : State :=
  {| st_messages := []; st_citations := []; st_log := [] |}.

Definition pipe (env : Env) (valves : Valves)
    (body_messages : option (list dict)) (event_emitter : bool) : Run :=
  if negb (key_set (EXA_API_KEY valves)) then
    {| raised := Some (PipeExceptionError "EXA_API_KEY not provided in the valves.");
       trace := [] |}
  else if negb (key_set (OPENROUTER_API_KEY valves)) then
    {| raised := Some (PipeExceptionError "OPENROUTER_API_KEY not provided in the valves.");
       trace := [] |}
  else
    let r :=
      try_except (pipe_body env valves body_messages event_emitter)
        (pipe_handler env) init_state in
    {| raised := match r.1 with inl e => Some e | inr _ => None end;
       trace := st_log r.2 |}.

(** ** exa_crewai_answer.py

    [_format_citations_as_sources], [_emit_sources],
    [_build_conversation_context] and the validation of the keys are the
    same text as in the direct pipe.  The agent framework is opaque: a
    kickoff is known by the tool invocations it made, in order, and by what
    it returned or raised. *)
Module CrewAI.

(** One [_arun] of a tool: the HTTP exchange gave citations, or failed
    (the tool then returns an error text and stores nothing). *)
Inductive invocation :=
| Replied (t : tool) (citations : list dict)
| Failed (t : tool).

(** [invocations]: the [_arun]s the kickoff made, in order.  [output]: the
    text of its result ([result.raw], or [str(result)]), or what the
    kickoff or the extraction of the text raised. *)
Record Kickoff := {
  invocations : list invocation;
  output : result string
}.

(** [_last_citations] of the two tool objects; [None] while the attribute
    is not set. *)
Record Tools := {
  answer_last : option (list dict);
  context_last : option (list dict)
}.

(** The assignment to [self._last_citations] in [_arun]: the answer tool
    stores the citations of the reply, the context tool the empty list. *)
Definition arun (tools : Tools) (i : invocation) : Tools :=
  match i with
  | Replied exa_answer citations =>
      {| answer_last := Some citations; context_last := context_last tools |}
  | Replied exa_context _ =>
      {| answer_last := answer_last tools; context_last := Some [] |}
  | Failed _ => tools
  end.

Definition after_kickoff (invs : list invocation) : Tools :=
  fold_left arun invs {| answer_last := None; context_last := None |}.

(** [pipe], lines 534-543 *)
Definition collect_citations (tools : Tools) : list dict :=
  let citations := [] in
  let answer_citations := default [] (answer_last tools) in
  let context_citations := default [] (context_last tools) in
  let citations :=
    if negb (bool_decide (answer_citations = []))
    then citations ++ answer_citations else citations in
  if negb (bool_decide (context_citations = []))
  then citations ++ context_citations else citations.

Definition task_instructions : string :=
  "Respond to the current query. Choose the appropriate search tool based on the question:" +:+ nl +:+
  "- Use exa_context_search for coding questions, technical documentation, or code examples" +:+ nl +:+
  "- Use exa_answer_search for general web queries, current events, or non-technical information" +:+ nl +:+
  "You can call tools multiple times if needed to gather sufficient information. Provide a comprehensive answer based on your findings.".

Definition task_description (env : Env) (conversation_context : string)
    (current_query : value) : string :=
  let task_description := "" in
  let task_description :=
    if truthy (VStr conversation_context)
    then task_description +:+ (conversation_context +:+ nl)
    else task_description in
  let task_description :=
    task_description +:+ ("Current query: " +:+ py_str env current_query
                          +:+ nl +:+ nl) in
  task_description +:+ task_instructions.

Definition crew_fallback (env : Env) (e : exn) : string :=
  "I apologize, but I encountered an error while processing your request: "
  +:+ str_exn env e +:+ ". Please try again or rephrase your question.".

(** The [try] block of [pipe].  [crew description] is the construction
    of the tools, the LLM, the agent, the task and the crew, which may
    raise, and then the kickoff. *)
Definition pipe_body (env : Env) (crew : string → result Kickoff)
    (valves : Valves) (body_messages : option (list dict))
    (event_emitter : bool) : M unit :=
  let '(system_message, messages) :=
    pop_system_message (default [] body_messages) in
  let conversation_context :=
    if (1 <? length messages)%nat
    then _build_conversation_context env (take (length messages - 1) messages)
    else "" in
  let current_query :=
    match last messages with
    | Some m => dict_get m "content" (VStr "")
    | None => VStr ""
    end in
  _ ← lift (slice_to 100 current_query);
  k ← lift (crew (task_description env conversation_context current_query));
  let result_text :=
    match output k with
    | inr raw =>
        if negb (truthy (VStr raw)) || String.eqb (strip raw) ""
        then crew_fallback env (ValueError "Empty result from CrewAI execution")
        else raw
    | inl e => crew_fallback env e
    end in
  let citations := collect_citations (after_kickoff (invocations k)) in
  record (EvYield result_text) ;;
  if negb (bool_decide (citations = [])) then
    _emit_sources env valves (VDict <$> citations) event_emitter
  else ret ().

Definition pipe (env : Env) (crew : string → result Kickoff)
    (valves : Valves) (body_messages : option (list dict))
    (event_emitter : bool) : Run :=
  if negb (key_set (EXA_API_KEY valves)) then
    {| raised := Some (PipeExceptionError "EXA_API_KEY not provided in the valves.");
       trace := [] |}
  else if negb (key_set (OPENROUTER_API_KEY valves)) then
    {| raised := Some (PipeExceptionError "OPENROUTER_API_KEY not provided in the valves.");
       trace := [] |}
  else
    let r :=
      try_except (pipe_body env crew valves body_messages event_emitter)
        (λ e, record (EvYield ("Error: " +:+ str_exn env e))) init_state in
    {| raised := match r.1 with inl e => Some e | inr _ => None end;
       trace := st_log r.2 |}.

End CrewAI.

(** ** The fallback of the two pipes for [pop_system_message]

    What [exa_openrouter_direct.py] and [exa_crewai_answer.py] define when
    [open_webui.utils.misc] cannot be imported. *)
Definition pop_system_message_fallback (messages : list dict)
  : option dict * list dict :=
  match messages with
  | m :: rest => if is_system m then (Some m, rest) else (None, messages)
  | [] => (None, messages)
  end.

(** ** test_valve.py

    The interactive harness.  The discovery of the pipes, the prompts for
    the valves and what is printed are outside the model; what is modelled
    is how [test_pipe] consumes the generator of a pipe and what the loop
    of [main] keeps of a turn.  The two pipes yield strings only, so the
    branch of [test_pipe] for chunks that are dicts is not reached, and
    [mock_event_emitter] prints the sources it is given without raising.

    [test_pipe] sees an exception only through its text ([f"Error: {e}"]):
    a computation of the harness ends with a value or with the text of
    what was raised. *)

Definition raise_text {A} (env : Env) (r : result A) : string + A :=
  match r with
  | inl e => inl (str_exn env e)
  | inr x => inr x
  end.

Definition and_then {A B} (r : string + A) (k : A → string + B)
  : string + B :=
  match r with
  | inl message => inl message
  | inr x => k x
  end.

(** [chunk.startswith(prefix)] *)
Definition startswith (prefix chunk : string) : bool :=
  String.prefix prefix chunk.

(** [s.find(c)] for a character [c]: the index of its first occurrence,
    or [-1]. *)
Fixpoint find (c : Ascii.ascii) (s : string) : Z :=
  match s with
  | "" => -1
  | String c' s' =>
      if Ascii.eqb c' c then 0
      else let i := find c s' in
           if (i =? -1)%Z then -1 else (i + 1)%Z
  end.

(** [s[i:]] *)
Definition slice_from (i : Z) (s : string) : string :=
  let n := Z.of_nat (String.length s) in
  let start := Z.to_nat (if (i <? 0)%Z then Z.max 0 (n + i) else i) in
  String.substring start (String.length s - start) s.

Definition brace : Ascii.ascii := Ascii.ascii_of_nat 123.

(** [k in v] for a string [k]: a key of a dict, an item of a list, a
    substring of a string. *)
Definition py_in (k : string) (v : value) : result bool :=
  match v with
  | VDict d => inr (bool_decide (is_Some (d !! k)))
  | VList l => inr (existsb (λ x, eq_str x k) l)
  | VStr s => inr (bool_decide (is_Some (String.index 0 k s)))
  | _ => inl (TypeError "in" v)
  end.

(** [v[0]].  The keys of a decoded JSON object are strings, so [0] is not
    among them and the text of the [KeyError] is [0]. *)
Definition first_item (env : Env) (v : value) : string + value :=
  match v with
  | VList (x :: _) => inr x
  | VList [] => inl "list index out of range"
  | VStr (String c _) => inr (VStr (String c ""))
  | VStr "" => inl "string index out of range"
  | VDict _ => inl "0"
  | _ => inl (str_exn env (TypeError "subscript" v))
  end.

(** [response_content += content] *)
Definition concat (response_content : string) (content : value)
  : result string :=
  match content with
  | VStr s => inr (response_content +:+ s)
  | _ => inl (TypeError "concatenate" content)
  end.

(** [test_pipe], lines 236-241: what a decoded payload adds. *)
Definition add_content (env : Env) (response_content : string) (data : value)
  : string + string :=
  and_then (raise_text env (py_in "choices" data)) (λ has_choices,
  and_then (if has_choices : bool
            then and_then (raise_text env (getitem data "choices"))
                   (λ choices,
                      and_then (raise_text env (py_len choices))
                        (λ n, inr (0 <? n)%nat))
            else inr false) (λ some_choice,
  if some_choice : bool then
    and_then (raise_text env (getitem data "choices")) (λ choices,
    and_then (first_item env choices) (λ choice,
    and_then (raise_text env (py_get choice "delta" (VDict ∅))) (λ delta,
    and_then (raise_text env (py_get delta "content" (VStr ""))) (λ content,
    if truthy content then raise_text env (concat response_content content)
    else inr response_content))))
  else inr response_content)).

(** [test_pipe], lines 229-243: the body of [async for chunk in ...] for
    a chunk that is a string. *)
Definition handle_chunk (env : Env) (response_content chunk : string)
  : string + string :=
  if startswith "data:" chunk then
    let json_start := find brace chunk in
    if negb (json_start =? -1)%Z then
      match json_loads env (slice_from json_start chunk) with
      | inl _ => inr response_content
      | inr data => add_content env response_content data
      end
    else inr response_content
  else inr response_content.

(** The loop of [test_pipe] over what the generator does, in order: a
    text is a chunk, an emission goes to [mock_event_emitter], the calls of
    the model and of the tools are not seen. *)
Fixpoint consume (env : Env) (response_content : string) (evs : list event)
  : string + string :=
  match evs with
  | [] => inr response_content
  | EvYield chunk :: evs' =>
      and_then (handle_chunk env response_content chunk)
        (λ response_content, consume env response_content evs')
  | _ :: evs' => consume env response_content evs'
  end.

(** [test_pipe(pipe_instance, pipe_id, messages)]: [pipe_instance] is the
    [pipe] method of the selected pipe, given [body.get("messages")] and
    whether an emitter is passed. *)
Definition test_pipe (env : Env)
    (pipe_instance : option (list dict) → bool → Run) (messages : list dict)
  : string :=
  let run := pipe_instance (Some messages) true in
  match consume env "" (trace run) with
  | inl message => "Error: " +:+ message
  | inr response_content =>
      match raised run with
      | Some e => "Error: " +:+ str_exn env e
      | None => response_content
      end
  end.

(** [main], lines 323-331: one turn of the conversation, after the test
    for [quit]. *)
Definition turn (env : Env) (pipe_instance : option (list dict) → bool → Run)
    (messages : list dict) (message : string) : list dict :=
  let messages :=
    messages ++ [<["role" := VStr "user"]> {[ "content" := VStr message ]}] in
  let response := test_pipe env pipe_instance messages in
  if truthy (VStr response)
  then messages ++ [<["role" := VStr "assistant"]>
                    {[ "content" := VStr response ]}]
  else messages.

(** * Vocabulary of the properties *)

(** ** Texts, messages, sources, events and requests *)

(** Empty or made of whitespace only. *)
Fixpoint whitespace_only (s : string) : bool :=
  match s with
  | "" => true
  | String c s' => is_space c && whitespace_only s'
  end.

(** The messages whose role is not [system], in their order. *)
Definition non_system (messages : list dict) : list dict :=
  List.filter (λ m, negb (is_system m)) messages.

(** The fields of a formatted source. *)
Definition displayName (source : dict) : option value :=
  match source !! "source" with
  | Some (VDict d) => d !! "name"
  | _ => None
  end.

Definition urls (source : dict) : option value :=
  match source !! "source" with
  | Some (VDict d) => d !! "urls"
  | _ => None
  end.

Definition documentPreview (source : dict) : option value :=
  source !! "document".

Definition metadata (source : dict) : option dict :=
  match source !! "metadata" with
  | Some (VList [VDict md]) => Some md
  | _ => None
  end.

(** A citation of the data model: its [text], when there is one, is a
    string (or null). *)
Definition text_ok (citation : dict) : bool :=
  match citation !! "text" with
  | None | Some VNone | Some (VStr _) => true
  | _ => false
  end.

(** An item of a citation list that is a citation of the data model. *)
Definition well_formed (citation : value) : bool :=
  match citation with
  | VDict d => text_ok d
  | _ => false
  end.

Definition preview_of (citation : dict) : string :=
  match citation !! "text" with
  | Some (VStr (String c s)) => String.substring 0 500 (String c s)
  | _ => fallback_preview
  end.

(** A metadata entry is there exactly when the citation has the field
    with a value that is not null, empty or zero. *)
Definition present (citation : dict) (k : string) : option value :=
  match citation !! k with
  | Some v => if truthy v then Some v else None
  | None => None
  end.

Definition is_chat (ev : event) : bool :=
  match ev with
  | EvChat _ _ _ _ => true
  | _ => false
  end.

Definition is_tool (ev : event) : bool :=
  match ev with
  | EvTool _ _ _ _ => true
  | _ => false
  end.

(** What [list.extend] adds for [citations]: its items, when it has
    some. *)
Definition items_of (citations : value) : list value :=
  match iterate citations with
  | inr items => items
  | inl _ => []
  end.

(** The citation lists the tool invocations among [evs] returned, one
    after the other. *)
Definition tool_citations (evs : list event) : list value :=
  flat_map (λ ev, match ev with
                  | EvTool _ _ _ citations => items_of citations
                  | _ => []
                  end) evs.

(** The citations of a tool invocation can be iterated. *)
Definition listed (ev : event) : bool :=
  match ev with
  | EvTool _ _ _ citations =>
      match iterate citations with
      | inr _ => true
      | inl _ => false
      end
  | _ => true
  end.

(** [reply] is a [tool] message that answers the request [item]. *)
Definition replies_to (item : value) (reply : dict) : Prop :=
  ∃ id content,
    getitem item "id" = inr id ∧ reply = tool_message id content.

(** The parts of a well-formed tool-call request: its id, the name of the
    tool and the raw arguments. *)
Definition request_parts (item : value) : option (value * value * string) :=
  match item with
  | VDict d =>
      match d !! "id", d !! "function" with
      | Some id, Some (VDict f) =>
          match f !! "name", f !! "arguments" with
          | Some name, Some (VStr raw) => Some (id, name, raw)
          | _, _ => None
          end
      | _, _ => None
      end
  | _ => None
  end.

Definition declared (name : value) : bool :=
  eq_str name "exa_answer_search" || eq_str name "exa_context_search".

(** What decoding the arguments of a request raises, if anything: the raw
    arguments are not JSON, or the tool is a declared one, about to be
    invoked, and the decoded value has no ["query"]. *)
Definition decode_error (env : Env) (valves : Valves) (item : value)
  : option exn :=
  match request_parts item with
  | Some (_, name, raw) =>
      match json_loads env raw with
      | inl message => Some (JSONDecodeError message)
      | inr function_args =>
          if declared name && key_set (EXA_API_KEY valves) then
            match getitem function_args "query" with
            | inl e => Some e
            | inr _ => None
            end
          else None
      end
  | None => None
  end.

(** A well-formed request whose arguments decode. *)
Definition decodes (env : Env) (valves : Valves) (item : value) : bool :=
  match request_parts item, decode_error env valves item with
  | Some _, None => true
  | _, _ => false
  end.

(** ** The runs of the loop *)

Definition with_reply (st : State) (reply : dict) : State :=
  {| st_messages := st_messages st ++ [reply];
     st_citations := st_citations st;
     st_log := st_log st |}.

(** The text of the reply the loop makes up for a request it cannot
    serve. *)
Definition refusal (env : Env) (name : value) : string :=
  if declared name then no_key_error
  else "Unknown tool: " +:+ py_str env name.

(** What the reply to the second call becomes. *)
Definition finish (env : Env) (all_citations : list value)
    (reply : result dict) : value :=
  match reply with
  | inl e => VStr (error_text env e)
  | inr final_message =>
      let result_text := dict_get final_message "content" (VStr "") in
      match is_blank result_text with
      | inl e => VStr (error_text env e)
      | inr true =>
          if negb (bool_decide (all_citations = []))
          then VStr (loop_summary (length all_citations))
          else VStr apology
      | inr false => result_text
      end
  end.

Definition logged (st : State) (ev : event) : State :=
  {| st_messages := st_messages st;
     st_citations := st_citations st;
     st_log := st_log st ++ [ev] |}.

(** The runs of the loop from the state [st], as the state machine
    [MODEL_CALL_1 → {DONE | TOOL_PHASE → MODEL_CALL_2 → DONE}] with its
    error exits: the text returned and the state left. *)
Inductive loop_run (env : Env) (valves : Valves) (st : State)
  : value → State → Prop :=
| first_call_fails e :
    openrouter env (st_log st) (OPENROUTER_MODEL valves) (st_messages st) true
      = inl e →
    loop_run env valves st (VStr (error_text env e))
      (logged st (EvChat (OPENROUTER_MODEL valves) (st_messages st) true (inl e)))
| done_without_tools message :
    openrouter env (st_log st) (OPENROUTER_MODEL valves) (st_messages st) true
      = inr message →
    truthy (dict_get message "tool_calls" (VList [])) = false →
    loop_run env valves st (dict_get message "content" (VStr ""))
      (logged st (EvChat (OPENROUTER_MODEL valves) (st_messages st) true
                    (inr message)))
| tool_phase_fails message evs replies e st3 :
    openrouter env (st_log st) (OPENROUTER_MODEL valves) (st_messages st) true
      = inr message →
    truthy (dict_get message "tool_calls" (VList [])) = true →
    st_log st3 = st_log st ++ EvChat (OPENROUTER_MODEL valves) (st_messages st)
                                true (inr message) :: evs →
    Forall (λ ev, is_tool ev = true) evs →
    st_citations st3 = st_citations st ++ tool_citations evs →
    st_messages st3 = st_messages st ++ [message] ++ replies →
    loop_run env valves st (VStr (error_text env e)) st3
| done_after_tools message items evs replies st3 reply2 :
    openrouter env (st_log st) (OPENROUTER_MODEL valves) (st_messages st) true
      = inr message →
    truthy (dict_get message "tool_calls" (VList [])) = true →
    iterate (dict_get message "tool_calls" (VList [])) = inr items →
    st_log st3 = st_log st ++ EvChat (OPENROUTER_MODEL valves) (st_messages st)
                                true (inr message) :: evs →
    Forall (λ ev, is_tool ev = true) evs →
    st_citations st3 = st_citations st ++ tool_citations evs →
    st_messages st3 = st_messages st ++ [message] ++ replies →
    Forall2 replies_to items replies →
    reply2 = openrouter env (st_log st3) (OPENROUTER_MODEL valves)
               (st_messages st3) false →
    loop_run env valves st (finish env (st_citations st3) reply2)
      (logged st3 (EvChat (OPENROUTER_MODEL valves) (st_messages st3) false
                     reply2)).

(** ** Examples *)

(** The double quote. *)
Definition dq : string := String (Ascii.ascii_of_nat 34) "".

(** The text of the JSON object with the one entry query: rocq. *)
Definition query_json : string :=
  "{" +:+ dq +:+ "query" +:+ dq +:+ ": " +:+ dq +:+ "rocq" +:+ dq +:+ "}".

(** A decoder that agrees with [json.loads] on the three strings of the
    examples: [query_json], the empty object and a text that is not
    JSON. *)
Definition example_loads (s : string) : string + value :=
  if String.eqb s query_json then inr (VDict {[ "query" := VStr "rocq" ]})
  else if String.eqb s "{}" then inr (VDict ∅)
  else inl "Expecting value: line 1 column 1 (char 0)".

Definition request (id name raw : string) : value :=
  VDict (<["id" := VStr id]> (<["type" := VStr "function"]>
        {[ "function" := VDict (<["name" := VStr name]>
                                {[ "arguments" := VStr raw ]}) ]})).

Definition example_citation (url title : string) : dict :=
  <["url" := VStr url]> {[ "title" := VStr title ]}.

Definition assistant_requests (tool_calls : list value) : dict :=
  <["role" := VStr "assistant"]> (<["content" := VNone]>
  {[ "tool_calls" := VList tool_calls ]}).

(** An environment in which the model replies [first] when it is given
    the catalog and the text [second] otherwise, and in which every reply
    of Exa has an answer and one citation. *)
Definition scripted_env (first : dict) (second : value) : Env := {|
  json_loads := example_loads;
  repr_other := λ _, "...";
  exc_text := λ _, "...";
  openrouter := λ _ _ _ with_tools,
    if with_tools then inr first
    else inr (<["role" := VStr "assistant"]> {[ "content" := second ]});
  exa := λ _ _ _,
    inr (VDict (<["answer" := VStr "It is sunny."]>
                {[ "citations" :=
                     VList [VDict (example_citation "https://x" "X")] ]}))
|}.

(** The model asks for [tool_calls], then answers in plain text. *)
Definition example_env (tool_calls : list value) : Env :=
  scripted_env (assistant_requests tool_calls) (VStr "It's sunny in Lisbon.").

(** The same model, with [body] as the body of every reply of Exa. *)
Definition replying_env (tool_calls : list value) (body : value) : Env := {|
  json_loads := example_loads;
  repr_other := λ _, "...";
  exc_text := λ _, "...";
  openrouter := λ _ _ _ with_tools,
    if with_tools then inr (assistant_requests tool_calls)
    else inr (<["role" := VStr "assistant"]>
              {[ "content" := VStr "It's sunny in Lisbon." ]});
  exa := λ _ _ _, inr body
|}.

(** A reply of Exa with an answer and [null] for its citations. *)
Definition null_citations : value :=
  VDict (<["answer" := VStr "It is sunny."]> {[ "citations" := VNone ]}).

(** The texts a run yields and the names of the sources it emits. *)
Definition yields (run : Run) : list string :=
  omap (λ ev, match ev with EvYield text => Some text | _ => None end)
    (trace run).

Definition emitted_names (run : Run) : list (option value) :=
  flat_map (λ ev, match ev with
                  | EvEmit sources => displayName <$> sources
                  | _ => []
                  end) (trace run).

Definition example_valves : Valves := {|
  EXA_API_KEY := Some "exa-key";
  EXA_API_BASE_URL := "https://api.exa.ai";
  EXA_TEXT_PARAMETER := false;
  EXA_CONTEXT_TOKENS_NUM := 5000;
  OPENROUTER_API_KEY := Some "openrouter-key";
  OPENROUTER_API_BASE_URL := "https://openrouter.ai/api/v1";
  OPENROUTER_MODEL := "moonshotai/kimi-k2-thinking";
  EMIT_SOURCES := true;
  TIMEOUT := 60
|}.

Definition user_message (content : string) : dict :=
  <["role" := VStr "user"]> {[ "content" := VStr content ]}.

Definition system_message (content : string) : dict :=
  <["role" := VStr "system"]> {[ "content" := VStr content ]}.

(** A crew that invokes no tool and answers in plain text. *)
Definition example_crew (description : string) : result CrewAI.Kickoff :=
  inr {| CrewAI.invocations := []; CrewAI.output := inr "It is sunny." |}.

(** Valves without the Exa key. *)
Definition valves_without_exa_key : Valves := {|
  EXA_API_KEY := None;
  EXA_API_BASE_URL := "https://api.exa.ai";
  EXA_TEXT_PARAMETER := false;
  EXA_CONTEXT_TOKENS_NUM := 5000;
  OPENROUTER_API_KEY := Some "openrouter-key";
  OPENROUTER_API_BASE_URL := "https://openrouter.ai/api/v1";
  OPENROUTER_MODEL := "moonshotai/kimi-k2-thinking";
  EMIT_SOURCES := true;
  TIMEOUT := 60
|}.

(** ** The properties *)

(** The reply contract, for the loop run from [st] when the first reply
    [message] carries the requests [items]: the messages grow by
    [message] and by one [tool] message per request, with the id of the
    request, in the order of the requests, and the last thing the loop does
    is the second call, on these messages. *)
Definition reply_contract (env : Env) (valves : Valves) (st : State)
    (message : dict) (items : list value) : Prop :=
  let st' := (_call_openrouter_with_tools env valves st).2 in
  ∃ replies reply2,
    st_messages st' = st_messages st ++ [message] ++ replies
    ∧ Forall2 replies_to items replies
    ∧ last (st_log st')
      = Some (EvChat (OPENROUTER_MODEL valves) (st_messages st') false reply2).

(** The request [item] is answered with an error text and is not fatal:
    the body of the loop appends the [tool] message with the id of the
    request and the text [refusal], adds no citation, invokes nothing, and
    the loop goes on with the requests that follow. *)
Definition answered_with_error (env : Env) (valves : Valves) (st : State)
    (item : value) (id name : value) : Prop :=
  handle_tool_call env valves item st
    = (inr (), with_reply st (tool_message id (VStr (refusal env name))))
  ∧ ∀ rest,
      for_each (item :: rest) (handle_tool_call env valves) st
      = for_each rest (handle_tool_call env valves)
          (with_reply st (tool_message id (VStr (refusal env name)))).

(** What may follow the first text of a run that accumulated
    [citations]: the emission of the sources of these citations or, when
    formatting them raised, a second text, which is not blank either. *)
Definition delivered (env : Env) (citations : list value) (ev : event)
  : Prop :=
  match ev with
  | EvYield text => whitespace_only text = false
  | EvEmit sources => _format_citations_as_sources env citations = inr sources
  | _ => False
  end.

(** The text the pipe yields for the string [s] the loop returned with the
    citations [citations]. *)
Definition final_text (s : string) (citations : list value) : string :=
  if whitespace_only s then
    if bool_decide (citations = []) then apology
    else pipe_summary (length citations)
  else s.

(** The text the loop substitutes for a blank answer of the model. *)
Definition substitute (citations : list value) : string :=
  if bool_decide (citations = []) then apology
  else loop_summary (length citations).

(** The code's own test for an empty text, [not v or not v.strip()],
    where it does not raise: [v] is null, false, zero or empty, or it is a
    string made of whitespace only. *)
Definition empty_text (v : value) : Prop :=
  truthy v = false ∨ ∃ s, v = VStr s ∧ whitespace_only s = true.

(** What P3 asks of a run, as far as the code gives it: the run raises
    nothing and yields a text first; no text it yields is empty or made of
    whitespace only; when the content of the second reply of the model is
    empty, the text yielded is [substitute]: the summary with the number
    of citations when the tools returned some, the apology otherwise; and
    when the first reply asks for no tool and its content is an empty or
    whitespace-only string, the text yielded is the apology. *)
Definition answers (run : Run) : Prop :=
  raised run = None
  ∧ (∃ pre text post,
       trace run = pre ++ EvYield text :: post
       ∧ Forall (λ ev, is_chat ev = true ∨ is_tool ev = true) pre)
  ∧ (∀ text, EvYield text ∈ trace run → whitespace_only text = false)
  ∧ (∀ pre model messages message post,
       trace run = pre ++ EvChat model messages false (inr message) :: post →
       Forall (λ ev, is_chat ev = false) post →
       empty_text (dict_get message "content" (VStr "")) →
       ∃ post', post = EvYield (substitute (tool_citations pre)) :: post')
  ∧ (∀ pre model messages message post s,
       trace run = pre ++ EvChat model messages true (inr message) :: post →
       Forall (λ ev, is_chat ev = false) post →
       truthy (dict_get message "tool_calls" (VList [])) = false →
       dict_get message "content" (VStr "") = VStr s →
       whitespace_only s = true →
       ∃ post', post = EvYield apology :: post').

(** A first reply of the model that asks for no tool and whose content is
    [null]. *)
Definition null_reply : dict :=
  <["role" := VStr "assistant"]> {[ "content" := VNone ]}.

Definition model_calls (evs : list event) : nat :=
  length (List.filter is_chat evs).

(** The citations an invocation of the agent's tools got: those of the
    reply for the answer tool, none for the context tool. *)
Definition returned (i : CrewAI.invocation) : list dict :=
  match i with
  | CrewAI.Replied exa_answer citations => citations
  | _ => []
  end.

Definition answer_of (i : CrewAI.invocation) : option (list dict) :=
  match i with
  | CrewAI.Replied exa_answer citations => Some citations
  | _ => None
  end.

(** The citations of the last invocation of the answer tool that got a
    reply. *)
Definition last_answer (invs : list CrewAI.invocation) : list dict :=
  default [] (last (omap answer_of invs)).

(** The block of the summary for one prior message: messages of the user
    (or without a role) and of the assistant have one, others none. *)
Definition summary_block (env : Env) (m : dict) : string :=
  let content := py_str env (dict_get m "content" (VStr "")) in
  if eq_str (dict_get m "role" (VStr "user")) "user" then
    "User: " +:+ content +:+ nl +:+ nl
  else if eq_str (dict_get m "role" (VStr "user")) "assistant" then
    "Assistant: " +:+ content +:+ nl +:+ nl
  else "".

(** The summary of the prior messages: their blocks, in their order. *)
Definition summary (env : Env) (prior : list dict) : string :=
  "Previous conversation:" +:+ nl +:+ nl
  +:+ foldr (λ m rest, summary_block env m +:+ rest) "" prior.

Definition synthetic_system_message (env : Env) (prior : list dict) : dict :=
  <["role" := VStr "system"]>
  {[ "content" := VStr (summary env prior +:+ nl +:+ nl +:+ tool_guidance) ]}.

(** What is submitted to the first call for the history [prior] and the
    current message. *)
Definition submitted (env : Env) (prior : list dict) (current : dict)
  : list dict :=
  match prior with
  | [] => [current]
  | _ => [synthetic_system_message env prior; current]
  end.

(** [source] is the source of the citation at index [i]. *)
Definition source_of (env : Env) (i : nat) (citation source : dict) : Prop :=
  ∃ md,
    displayName source
      = Some (VStr ("[" +:+ pretty (i + 1) +:+ "] "
                    +:+ py_str env (default (VStr ("Source " +:+ pretty (i + 1)))
                                      (citation !! "title"))))
    ∧ urls source = Some (VList [default (VStr "") (citation !! "url")])
    ∧ documentPreview source = Some (VList [VStr (preview_of citation)])
    ∧ metadata source = Some md
    ∧ md !! "source" = Some (default (VStr "") (citation !! "url"))
    ∧ md !! "author" = present citation "author"
    ∧ md !! "publishedDate" = present citation "publishedDate"
    ∧ (∀ k, is_Some (md !! k) → k ∈ ["source"; "author"; "publishedDate"])
    ∧ (∀ k, k ≠ "source" → md !! k ≠ Some VNone).

(** [sources] are the sources of [citations]: one per citation, at the
    same position. *)
Definition sources_of (env : Env) (citations sources : list dict) : Prop :=
  length sources = length citations
  ∧ ∀ i citation, citations !! i = Some citation →
      ∃ source, sources !! i = Some source ∧ source_of env i citation source.

(** ** Vocabulary of the further properties *)

(** A message that has a block in the summary of the conversation: one of
    the user (or without a role) or of the assistant. *)
Definition is_turn (m : dict) : bool :=
  eq_str (dict_get m "role" (VStr "user")) "user"
  || eq_str (dict_get m "role" (VStr "user")) "assistant".

(** The citation lists that the invocations of the answer search among
    [evs] returned, one after the other. *)
Definition answer_citations (evs : list event) : list value :=
  flat_map (λ ev, match ev with
                  | EvTool exa_answer _ _ citations => items_of citations
                  | _ => []
                  end) evs.

(** An invocation of the context search is logged with no citation. *)
Definition context_silent (ev : event) : Prop :=
  match ev with
  | EvTool exa_context _ _ citations => citations = VList []
  | _ => True
  end.

(** The state after the tool [t] was invoked with [query]. *)
Definition invoked (env : Env) (st : State) (t : tool) (query : value)
  : State :=
  {| st_messages := st_messages st;
     st_citations :=
       st_citations st ++ items_of (search env (st_log st) t query).2;
     st_log := st_log st ++ [EvTool t query (search env (st_log st) t query).1
                               (search env (st_log st) t query).2] |}.

(** The events [_emit_sources] leaves in a run of a pipe, the [except]
    clause of the pipe included: nothing, the emission of the sources, or
    the text of what the formatter raised. *)
Definition emission (env : Env) (valves : Valves) (citations : list value)
    (event_emitter : bool) : list event :=
  if negb (bool_decide (citations = [])) && EMIT_SOURCES valves
     && event_emitter then
    match _format_citations_as_sources env citations with
    | inl e => [EvYield ("Error: " +:+ str_exn env e)]
    | inr [] => []
    | inr sources => [EvEmit sources]
    end
  else [].

Definition is_emit (ev : event) : bool :=
  match ev with
  | EvEmit _ => true
  | _ => false
  end.

(** The first state of the loop in a run of [pipe] on [body_messages]. *)
Definition first_state (env : Env) (body_messages : option (list dict))
  : State :=
  {| st_messages := compose_messages env
                      (non_system (default [] body_messages));
     st_citations := []; st_log := [] |}.

(** An environment in which every call of the model fails with [e]. *)
Definition failing_env (e : exn) : Env := {|
  json_loads := example_loads;
  repr_other := λ _, "...";
  exc_text := λ _, "...";
  openrouter := λ _ _ _ _, inl e;
  exa := λ _ _ _, inl (TransportError "unreachable")
|}.

(** A run in which the model asks for one answer search, and the sources
    of the citation that search returns. *)
Definition example_run : Run :=
  pipe (example_env [request "call_1" "exa_answer_search" query_json])
    example_valves (Some [user_message "weather?"]) true.

Definition example_sources : list dict :=
  match _format_citations_as_sources (example_env [])
          [VDict (example_citation "https://x" "X")] with
  | inr sources => sources
  | inl _ => []
  end.

(** [messages[-1].get("content", "") if messages else ""] *)
Definition current_query (messages : list dict) : value :=
  match last messages with
  | Some m => dict_get m "content" (VStr "")
  | None => VStr ""
  end.

(** The text the agent pipe yields for the outcome of a kickoff. *)
Definition crew_text (env : Env) (output : result string) : string :=
  match output with
  | inr raw =>
      if whitespace_only raw
      then CrewAI.crew_fallback env
             (ValueError "Empty result from CrewAI execution")
      else raw
  | inl e => CrewAI.crew_fallback env e
  end.

(** The chunk is a server-sent event whose payload decodes to an object
    with the text [s] as the content of the delta of its first choice. *)
Definition carries (env : Env) (chunk s : string) : Prop :=
  startswith "data:" chunk = true
  ∧ find brace chunk ≠ (-1)%Z
  ∧ ∃ data choice more delta,
      json_loads env (slice_from (find brace chunk) chunk) = inr (VDict data)
      ∧ data !! "choices" = Some (VList (VDict choice :: more))
      ∧ choice !! "delta" = Some (VDict delta)
      ∧ delta !! "content" = Some (VStr s).

(** The chunk is one [test_pipe] passes over: it does not begin with
    [data:], it has no brace, or what begins at its first brace is not
    JSON. *)
Definition passed_over (env : Env) (chunk : string) : Prop :=
  startswith "data:" chunk = false
  ∨ find brace chunk = (-1)%Z
  ∨ ∃ message,
      json_loads env (slice_from (find brace chunk) chunk) = inl message.

(** The payload of a server-sent event with the content [Hi], that of
    one whose delta is null, and a decoder that agrees with [json.loads]
    on the two. *)
Definition sse_payload : string :=
  "{" +:+ dq +:+ "choices" +:+ dq +:+ ": [{" +:+ dq +:+ "delta" +:+ dq
  +:+ ": {" +:+ dq +:+ "content" +:+ dq +:+ ": " +:+ dq +:+ "Hi" +:+ dq
  +:+ "}}]}".

Definition null_payload : string :=
  "{" +:+ dq +:+ "choices" +:+ dq +:+ ": [{" +:+ dq +:+ "delta" +:+ dq
  +:+ ": null}]}".

Definition sse_env : Env := {|
  json_loads := λ s,
    if String.eqb s sse_payload
    then inr (VDict {[ "choices" :=
                         VList [VDict {[ "delta" :=
                                           VDict {[ "content" := VStr "Hi" ]}
                                      ]}] ]})
    else if String.eqb s null_payload
    then inr (VDict {[ "choices" := VList [VDict {[ "delta" := VNone ]}] ]})
    else inl "Expecting value: line 1 column 1 (char 0)";
  repr_other := λ _, "...";
  exc_text := λ _, "...";
  openrouter := λ _ _ _ _, inl (TransportError "unreachable");
  exa := λ _ _ _, inl (TransportError "unreachable")
|}.

(** A generator that yields the chunks and raises nothing. *)
Definition streaming (chunks : list string) (body_messages : option (list dict))
    (event_emitter : bool) : Run :=
  {| raised := None; trace := EvYield <$> chunks |}.

(** * Properties *)

(** ** Strings *)

Lemma lstrip_whitespace s : whitespace_only s = true → lstrip s = "".
Proof.
  induction s as [|c s IH]; simpl; [done|].
  destruct (is_space c); simpl; [exact IH | discriminate].
Qed.

Lemma app_String c s t : String c s +:+ t = String c (s +:+ t).
Proof. reflexivity. Qed.

Lemma app_nonempty s c t : s +:+ String c t ≠ "".
Proof. destruct s; discriminate. Qed.

Lemma string_app_assoc s t u : (s +:+ t) +:+ u = s +:+ (t +:+ u).
Proof.
  induction s as [|a s IH]; [done|]. rewrite !app_String. by f_equal.
Qed.

Lemma rev_app_app s1 s2 : String.rev_app s1 s2 = String.rev_app s1 "" +:+ s2.
Proof.
  revert s2. induction s1 as [|a s1 IH]; intros s2; [done|].
  cbn [String.rev_app]. rewrite (IH (String a s2)), (IH (String a "")).
  by rewrite string_app_assoc.
Qed.

Lemma rev_nonempty c t : String.rev (String c t) ≠ "".
Proof.
  unfold String.rev. cbn [String.rev_app]. rewrite rev_app_app.
  apply app_nonempty.
Qed.

Lemma lstrip_snoc r c : is_space c = false → lstrip (r +:+ String c "") ≠ "".
Proof.
  intros Hc. induction r as [|a r IH].
  - change ("" +:+ String c "") with (String c ""). simpl. by rewrite Hc.
  - rewrite app_String. simpl. by destruct (is_space a).
Qed.

Lemma rstrip_head c s : is_space c = false → rstrip (String c s) ≠ "".
Proof.
  intros Hc. unfold rstrip.
  unfold String.rev at 2. cbn [String.rev_app]. rewrite rev_app_app.
  pose proof (lstrip_snoc (String.rev_app s "") c Hc) as Hl.
  destruct (lstrip (String.rev_app s "" +:+ String c "")) as [|c' t];
    [done|]. apply rev_nonempty.
Qed.

Lemma lstrip_head s c t : lstrip s = String c t → is_space c = false.
Proof.
  induction s as [|a s IH]; simpl; [discriminate|].
  destruct (is_space a) eqn:Ha; [exact IH|]. congruence.
Qed.

Lemma lstrip_empty s : lstrip s = "" → whitespace_only s = true.
Proof.
  induction s as [|a s IH]; simpl; [done|].
  destruct (is_space a); simpl; [exact IH | discriminate].
Qed.

(** [strip] leaves nothing exactly of the strings that are empty or made of
    whitespace only. *)
Lemma strip_empty_iff s : strip s = "" ↔ whitespace_only s = true.
Proof.
  split.
  - intros Hs. destruct (lstrip s) as [|c t] eqn:Hl.
    + by apply lstrip_empty.
    + exfalso. unfold strip in Hs. rewrite Hl in Hs.
      by apply (rstrip_head c t (lstrip_head _ _ _ Hl)) in Hs.
  - intros Hs. unfold strip. by rewrite (lstrip_whitespace s Hs).
Qed.

Lemma is_blank_str s : is_blank (VStr s) = inr (whitespace_only s).
Proof.
  unfold is_blank. simpl. destruct s as [|c s]; [done|]. simpl.
  destruct (String.eqb (strip (String c s)) "") eqn:He.
  - apply String.eqb_eq in He. apply strip_empty_iff in He. simpl in He.
    by rewrite He.
  - apply String.eqb_neq in He.
    destruct (is_space c && whitespace_only s) eqn:Hw; [|done].
    exfalso. apply He. by apply strip_empty_iff.
Qed.

(** ** [pop_system_message] *)

Lemma pop_fold messages sys rem :
  fold_left pop_step messages (sys, rem)
  = (match sys with
     | Some _ => sys
     | None => List.find is_system messages
     end, rem ++ non_system messages).
Proof.
  revert sys rem. induction messages as [|m l IH]; intros sys rem; simpl.
  - rewrite app_nil_r. by destruct sys.
  - destruct (is_system m) eqn:Hm; simpl; rewrite IH.
    + by destruct sys.
    + rewrite <- app_assoc. by destruct sys.
Qed.

Lemma pop_system_message_eq messages :
  pop_system_message messages
  = (List.find is_system messages, non_system messages).
Proof.
  unfold pop_system_message. case_bool_decide as Hnil.
  - by subst.
  - by rewrite pop_fold.
Qed.

Lemma non_system_idemp messages :
  non_system (non_system messages) = non_system messages.
Proof.
  unfold non_system. induction messages as [|m l IH]; simpl; [done|].
  destruct (is_system m) eqn:Hm; simpl; [done|]. rewrite Hm. simpl.
  by f_equal.
Qed.

Lemma pop_system_message_remaining messages :
  (pop_system_message (non_system messages)).2
  = (pop_system_message messages).2.
Proof. by rewrite !pop_system_message_eq, non_system_idemp. Qed.

(** C9.  [pop_system_message] returns the first message of role [system]
    and the other messages with every [system] one removed, in their
    order; the system message is then dropped: a run of either pipe is the
    run on the history without its system messages, so nothing submitted to
    the model and nothing in the summary of the conversation comes from
    them. *)
Theorem system_messages_discarded (env : Env) (valves : Valves)
    (crew : string → result CrewAI.Kickoff) (messages : list dict)
    (event_emitter : bool) :
  pop_system_message messages
    = (List.find is_system messages,
       List.filter (λ m, negb (is_system m)) messages)
  ∧ Forall (λ m, is_system m = false) (non_system messages)
  ∧ pipe env valves (Some messages) event_emitter
    = pipe env valves (Some (non_system messages)) event_emitter
  ∧ CrewAI.pipe env crew valves (Some messages) event_emitter
    = CrewAI.pipe env crew valves (Some (non_system messages)) event_emitter.
Proof.
  split; [apply pop_system_message_eq|]. split.
  { apply Forall_forall. intros m Hm. apply list_elem_of_In in Hm.
    apply filter_In in Hm as [_ Hm]. by apply negb_true_iff. }
  pose proof (pop_system_message_remaining messages) as Hrem.
  split.
  - unfold pipe, pipe_body. simpl.
    destruct (pop_system_message (non_system messages)) as [s1 r1].
    destruct (pop_system_message messages) as [s2 r2]. simpl in Hrem.
    by subst.
  - unfold CrewAI.pipe, CrewAI.pipe_body. simpl.
    destruct (pop_system_message (non_system messages)) as [s1 r1].
    destruct (pop_system_message messages) as [s2 r2]. simpl in Hrem.
    by subst.
Qed.

(** ** INIT *)

(** C5.  When one of the two keys is missing (unset or empty), either pipe
    raises [PipeExceptionError] to its caller and does nothing else: no
    POST to the model, no tool invocation, nothing yielded, nothing
    emitted. *)
Theorem missing_key_aborts (env : Env) (valves : Valves)
    (crew : string → result CrewAI.Kickoff)
    (body_messages : option (list dict)) (event_emitter : bool) :
  key_set (EXA_API_KEY valves) = false
  ∨ key_set (OPENROUTER_API_KEY valves) = false →
  (∃ message,
     raised (pipe env valves body_messages event_emitter)
       = Some (PipeExceptionError message))
  ∧ trace (pipe env valves body_messages event_emitter) = []
  ∧ (∃ message,
       raised (CrewAI.pipe env crew valves body_messages event_emitter)
         = Some (PipeExceptionError message))
  ∧ trace (CrewAI.pipe env crew valves body_messages event_emitter) = [].
Proof.
  intros Hkey. unfold pipe, CrewAI.pipe.
  destruct (key_set (EXA_API_KEY valves)); simpl.
  - destruct Hkey as [Hkey|Hkey]; [discriminate|]. rewrite Hkey. simpl.
    eauto 10.
  - eauto 10.
Qed.

Lemma missing_key_aborts_witness :
  (∃ message,
     raised (pipe (example_env []) valves_without_exa_key
               (Some [user_message "hi"]) true)
       = Some (PipeExceptionError message))
  ∧ trace (pipe (example_env []) valves_without_exa_key
             (Some [user_message "hi"]) true) = []
  ∧ (∃ message,
       raised (CrewAI.pipe (example_env []) example_crew valves_without_exa_key
                 (Some [user_message "hi"]) true)
         = Some (PipeExceptionError message))
  ∧ trace (CrewAI.pipe (example_env []) example_crew valves_without_exa_key
             (Some [user_message "hi"]) true) = [].
Proof. apply missing_key_aborts. left. reflexivity. Defined.

(** ** The source formatter *)

Lemma build_metadata_lookup url author published_date k :
  build_metadata url author published_date !! k
  = if decide (k = "source") then Some url
    else if decide (k = "author")
         then (if truthy author then Some author else None)
    else if decide (k = "publishedDate")
         then (if truthy published_date then Some published_date else None)
    else None.
Proof.
  unfold build_metadata.
  destruct (truthy author), (truthy published_date);
    repeat case_decide; by simplify_map_eq.
Qed.

Lemma present_get citation k :
  (if truthy (dict_get citation k (VStr ""))
   then Some (dict_get citation k (VStr "")) else None)
  = present citation k.
Proof.
  unfold present, dict_get. by destruct (citation !! k) as [v|].
Qed.

Lemma present_not_null citation k : present citation k ≠ Some VNone.
Proof.
  unfold present. destruct (citation !! k) as [v|]; [|done].
  destruct (truthy v) eqn:Hv; [|done]. intros [= ->]. done.
Qed.

Lemma format_citation_ok env i citation :
  text_ok citation = true →
  ∃ source,
    format_citation env i citation = inr source
    ∧ source_of env i citation source.
Proof.
  intros Htext.
  assert ((if truthy (dict_get citation "text" (VStr ""))
           then slice_to 500 (dict_get citation "text" (VStr ""))
           else inr (VStr fallback_preview))
          = inr (VStr (preview_of citation))) as Hp.
  { unfold text_ok in Htext. unfold dict_get, preview_of.
    destruct (citation !! "text") as [[| | |[|c s]| |]|]; simpl in *;
      by try discriminate. }
  eexists. split; [unfold format_citation; by rewrite Hp|].
  exists (build_metadata (dict_get citation "url" (VStr ""))
            (dict_get citation "author" (VStr ""))
            (dict_get citation "publishedDate" (VStr ""))).
  unfold displayName, urls, documentPreview, metadata.
  split_and!.
  - by simplify_map_eq.
  - by simplify_map_eq.
  - by simplify_map_eq.
  - by simplify_map_eq.
  - by rewrite build_metadata_lookup.
  - rewrite build_metadata_lookup. simpl. apply present_get.
  - rewrite build_metadata_lookup. simpl. apply present_get.
  - intros k [v Hk]. rewrite build_metadata_lookup in Hk.
    repeat case_decide; subst; set_solver.
  - intros k Hk. rewrite build_metadata_lookup.
    repeat case_decide; try done; rewrite present_get;
      apply present_not_null.
Qed.

Lemma format_from_ok env citations :
  Forall (λ c, well_formed c = true) citations →
  ∀ i, ∃ sources,
    format_from env i citations = inr sources
    ∧ length sources = length citations
    ∧ ∀ j c, citations !! j = Some c →
        ∃ source, sources !! j = Some source
                  ∧ format_item env (i + j) c = inr source.
Proof.
  induction 1 as [|c l Hc _ IH]; intros i; simpl.
  - exists []. by split_and!.
  - destruct c as [| | | | |d]; try done. simpl in Hc.
    change (format_item env i (VDict d)) with (format_citation env i d).
    destruct (format_citation_ok env i d Hc) as (source & Hsrc & _).
    destruct (IH (S i)) as (sources & Hl & Hlen & Hall).
    rewrite Hsrc, Hl. exists (source :: sources). split_and!; [done|simpl; lia|].
    intros [|j] c' Hj; simpl in *.
    + simplify_eq. exists source. by rewrite Nat.add_0_r.
    + destruct (Hall j c' Hj) as (s' & ? & Hf). exists s'.
      by replace (i + S j) with (S i + j) by lia.
Qed.

(** ** The loop over the tool calls *)

Lemma tool_citations_app evs1 evs2 :
  tool_citations (evs1 ++ evs2) = tool_citations evs1 ++ tool_citations evs2.
Proof. apply flat_map_app. Qed.

Lemma for_each_app {A} (l1 l2 : list A) (body : A → M unit) st :
  for_each (l1 ++ l2) body st
  = bind (for_each l1 body) (λ _, for_each l2 body) st.
Proof.
  revert st. induction l1 as [|x l1 IH]; intros st; simpl; [done|].
  unfold bind in *. destruct (body x st) as [[e|[]] st1]; [done|].
  apply IH.
Qed.

(** What one tool branch does to the state. *)
Lemma run_tool_inv env valves t function_args st res st' :
  run_tool env valves t function_args st = (res, st') →
  ∃ evs,
    st_log st' = st_log st ++ evs
    ∧ Forall (λ ev, is_tool ev = true) evs
    ∧ st_citations st' = st_citations st ++ tool_citations evs
    ∧ st_messages st' = st_messages st.
Proof.
  unfold run_tool, extend_citations.
  destruct (key_set (EXA_API_KEY valves)); simpl.
  - unfold bind, lift. destruct (getitem function_args "query") as [e|q]; simpl.
    + intros [= <- <-]. exists []. by rewrite !app_nil_r.
    + destruct (iterate (search env (st_log st) t q).2) as [e|items] eqn:Hit;
        intros [= <- <-];
        exists [EvTool t q (search env (st_log st) t q).1
                  (search env (st_log st) t q).2];
        (split_and!; [done|by apply Forall_singleton| |done]);
        simpl; unfold items_of; rewrite Hit; by rewrite !app_nil_r.
  - unfold bind, lift. simpl. intros [= <- <-]. exists []. simpl.
    by rewrite !app_nil_r.
Qed.

(** What the body of the loop does to the state: it invokes at most a
    tool, never the model, adds the citations of that invocation, and
    appends the reply to the request when it does not raise, nothing
    otherwise. *)
Lemma handle_tool_call_inv env valves item st res st' :
  handle_tool_call env valves item st = (res, st') →
  ∃ evs,
    st_log st' = st_log st ++ evs
    ∧ Forall (λ ev, is_tool ev = true) evs
    ∧ st_citations st' = st_citations st ++ tool_citations evs
    ∧ match res with
      | inr _ => ∃ reply,
          st_messages st' = st_messages st ++ [reply] ∧ replies_to item reply
      | inl _ => st_messages st' = st_messages st
      end.
Proof.
  assert (∀ e, (inl e, st) = (res, st') →
            ∃ evs : list event,
              st_log st' = st_log st ++ evs
              ∧ Forall (λ ev, is_tool ev = true) evs
              ∧ st_citations st' = st_citations st ++ tool_citations evs
              ∧ match res with
                | inr _ => ∃ reply,
                    st_messages st' = st_messages st ++ [reply]
                    ∧ replies_to item reply
                | inl _ => st_messages st' = st_messages st
                end) as Hsame.
  { intros e [= <- <-]. exists []. by rewrite !app_nil_r. }
  unfold handle_tool_call, bind, lift.
  destruct (getitem item "function") as [e|fn]; [apply Hsame|].
  destruct (getitem fn "name") as [e|function_name]; [apply Hsame|].
  destruct (getitem fn "arguments") as [e|raw]; [apply Hsame|].
  destruct (py_json_loads env raw) as [e|function_args]; [apply Hsame|].
  clear Hsame.
  set (branch := dispatch env valves function_name function_args).
  assert (∀ r st1, branch st = (r, st1) →
            ∃ evs,
              st_log st1 = st_log st ++ evs
              ∧ Forall (λ ev, is_tool ev = true) evs
              ∧ st_citations st1 = st_citations st ++ tool_citations evs
              ∧ st_messages st1 = st_messages st) as Hbranch.
  { unfold branch, dispatch.
    destruct (eq_str function_name "exa_answer_search");
      [intros r st1; apply run_tool_inv|].
    destruct (eq_str function_name "exa_context_search");
      [intros r st1; apply run_tool_inv|].
    intros r st1 [= <- <-]. exists []. by rewrite !app_nil_r. }
  destruct (branch st) as [[e|result] st1] eqn:Hb;
    destruct (Hbranch _ _ eq_refl) as (evs & Hlog & Htool & Hcit & Hmsg).
  - intros [= <- <-]. by exists evs.
  - destruct (getitem item "id") as [e|id] eqn:Hid; simpl.
    + intros [= <- <-]. by exists evs.
    + unfold append_message. intros [= <- <-]. simpl. exists evs.
      split_and!; try done. rewrite Hmsg. eexists. split; [done|].
      by exists id, result.
Qed.

(** The loop never calls the model; it adds the citations of its tool
    invocations in order; it appends one reply per request, in order, up
    to the request that raises, if any. *)
Lemma for_each_inv env valves items st res st' :
  for_each items (handle_tool_call env valves) st = (res, st') →
  ∃ evs replies,
    st_log st' = st_log st ++ evs
    ∧ Forall (λ ev, is_tool ev = true) evs
    ∧ st_citations st' = st_citations st ++ tool_citations evs
    ∧ st_messages st' = st_messages st ++ replies
    ∧ match res with
      | inr _ => Forall2 replies_to items replies
      | inl _ => ∃ n, n < length items
                      ∧ Forall2 replies_to (take n items) replies
      end.
Proof.
  revert st. induction items as [|item items IH]; intros st; simpl.
  - intros [= <- <-]. exists [], []. rewrite !app_nil_r.
    by split_and!.
  - unfold bind.
    destruct (handle_tool_call env valves item st) as [[e|[]] st1] eqn:Hh;
      destruct (handle_tool_call_inv _ _ _ _ _ _ Hh)
        as (evs1 & Hlog1 & Htool1 & Hcit1 & Hmsg1).
    + intros [= <- <-]. exists evs1, []. rewrite app_nil_r.
      split_and!; try done. exists 0. split; [simpl; lia|constructor].
    + intros Hrest. destruct Hmsg1 as (reply & Hmsg1 & Hreply).
      destruct (IH _ Hrest) as (evs2 & replies & Hlog2 & Htool2 & Hcit2 & Hmsg2 & Hres).
      exists (evs1 ++ evs2), (reply :: replies).
      rewrite Hlog2, Hlog1, Hcit2, Hcit1, Hmsg2, Hmsg1, tool_citations_app.
      rewrite <- !app_assoc. split_and!; try done.
      { by apply Forall_app. }
      destruct res as [e|[]].
      * destruct Hres as (n & Hn & Hres). exists (S n).
        split; [simpl; lia|]. simpl. by constructor.
      * by constructor.
Qed.

Lemma request_parts_Some item id name raw :
  request_parts item = Some (id, name, raw) →
  ∃ d f, item = VDict d ∧ d !! "id" = Some id
         ∧ d !! "function" = Some (VDict f)
         ∧ f !! "name" = Some name ∧ f !! "arguments" = Some (VStr raw).
Proof.
  unfold request_parts. destruct item as [| | | | |d]; try done.
  destruct (d !! "id") as [id'|] eqn:Hid; [|done].
  destruct (d !! "function") as [[| | | | |f]|] eqn:Hf; try done.
  destruct (f !! "name") as [name'|] eqn:Hn; [|done].
  destruct (f !! "arguments") as [[| | |raw'| |]|] eqn:Ha; try done.
  intros [= -> -> ->]. by exists d, f.
Qed.

(** The body of the loop on a well-formed request. *)
Lemma handle_request env valves item id name raw st :
  request_parts item = Some (id, name, raw) →
  handle_tool_call env valves item st
  = match json_loads env raw with
    | inl message => (inl (JSONDecodeError message), st)
    | inr function_args =>
        match dispatch env valves name function_args st with
        | (inl e, st1) => (inl e, st1)
        | (inr result, st1) => (inr (), with_reply st1 (tool_message id result))
        end
    end.
Proof.
  intros (d & f & -> & Hid & Hf & Hn & Ha)%request_parts_Some.
  unfold handle_tool_call, bind, lift. simpl. rewrite Hf. simpl.
  rewrite Hn, Ha. simpl. destruct (json_loads env raw) as [m|args]; [done|].
  destruct (dispatch env valves name args st) as [[e|result] st1]; [done|].
  by rewrite Hid.
Qed.

Lemma dispatch_refusal env valves name function_args st :
  declared name = false ∨ key_set (EXA_API_KEY valves) = false →
  dispatch env valves name function_args st
  = (inr (VStr (refusal env name)), st).
Proof.
  unfold dispatch, refusal, declared, run_tool, bind, extend_citations, lift,
    ret.
  intros [Hd|Hk].
  - apply orb_false_iff in Hd as [-> ->]. done.
  - rewrite Hk. simpl.
    destruct (eq_str name "exa_answer_search"); simpl;
      [rewrite app_nil_r; by destruct st|].
    destruct (eq_str name "exa_context_search"); simpl; [|done].
    rewrite app_nil_r; by destruct st.
Qed.

Lemma dispatch_query_error env valves name function_args e st :
  declared name = true → key_set (EXA_API_KEY valves) = true →
  getitem function_args "query" = inl e →
  dispatch env valves name function_args st = (inl e, st).
Proof.
  unfold dispatch, declared, run_tool, bind, lift. intros Hd -> Hq. simpl.
  rewrite Hq.
  destruct (eq_str name "exa_answer_search"); [done|].
  by destruct (eq_str name "exa_context_search").
Qed.

Lemma forallb_listed_snoc log ev :
  forallb listed (log ++ [ev]) = forallb listed log && listed ev.
Proof. rewrite forallb_app. simpl. by rewrite andb_true_r. Qed.

(** One declared tool, with a query: the branch returns a result unless
    the citations of the invocation cannot be iterated. *)
Lemma run_tool_listed env valves t function_args q st r st1 :
  getitem function_args "query" = inr q →
  run_tool env valves t function_args st = (r, st1) →
  forallb listed (st_log st1) = true →
  ∃ result, r = inr result.
Proof.
  unfold run_tool, bind, lift, invoke, extend_citations, ret.
  intros Hq. rewrite Hq.
  destruct (key_set (EXA_API_KEY valves)); simpl;
    [|intros [= <- <-]; by eexists].
  destruct (iterate (search env (st_log st) t q).2) as [e|items] eqn:Hit;
    intros [= <- <-]; [|by eexists].
  simpl. rewrite forallb_listed_snoc. simpl. rewrite Hit.
  by rewrite andb_false_r.
Qed.

Lemma dispatch_query_ok env valves name function_args q st r st1 :
  getitem function_args "query" = inr q →
  dispatch env valves name function_args st = (r, st1) →
  forallb listed (st_log st1) = true →
  ∃ result, r = inr result.
Proof.
  unfold dispatch. intros Hq.
  destruct (eq_str name "exa_answer_search");
    [by apply (run_tool_listed _ _ _ _ q)|].
  destruct (eq_str name "exa_context_search");
    [by apply (run_tool_listed _ _ _ _ q)|].
  intros [= <- <-]. by eexists.
Qed.

(** A request whose arguments do not decode makes the body of the loop
    raise, and leaves the state as it was. *)
Lemma handle_decode_error env valves item e st :
  is_Some (request_parts item) →
  decode_error env valves item = Some e →
  handle_tool_call env valves item st = (inl e, st).
Proof.
  intros [[[id name] raw] Hparts]. unfold decode_error. rewrite Hparts.
  rewrite (handle_request _ _ _ _ _ _ _ Hparts).
  destruct (json_loads env raw) as [m|args]; [by intros [= <-]|].
  destruct (declared name && key_set (EXA_API_KEY valves)) eqn:Hdk; [|done].
  apply andb_true_iff in Hdk as [Hd Hk].
  destruct (getitem args "query") as [e'|q] eqn:Hq; [|done].
  intros [= <-]. by rewrite (dispatch_query_error _ _ _ _ e').
Qed.

(** A request whose arguments decode gets its reply, unless the citations
    of its tool cannot be iterated. *)
Lemma handle_decodes env valves item st res st1 :
  decodes env valves item = true →
  handle_tool_call env valves item st = (res, st1) →
  forallb listed (st_log st1) = true →
  res = inr ().
Proof.
  unfold decodes, decode_error.
  destruct (request_parts item) as [[[id name] raw]|] eqn:Hparts; [|done].
  rewrite (handle_request _ _ _ _ _ _ _ Hparts).
  destruct (json_loads env raw) as [m|args]; [done|].
  destruct (declared name && key_set (EXA_API_KEY valves)) eqn:Hdk.
  - destruct (getitem args "query") as [e'|q] eqn:Hq; [done|]. intros _.
    destruct (dispatch env valves name args st) as [r st2] eqn:Hd.
    destruct r as [e|result]; intros [= <- <-]; [|done].
    intros Hlisted.
    by destruct (dispatch_query_ok _ _ _ _ _ _ _ _ Hq Hd Hlisted).
  - intros _. apply andb_false_iff in Hdk.
    rewrite dispatch_refusal by done. by intros [= <- <-].
Qed.

Lemma for_each_decodes env valves items st res st1 :
  Forall (λ item, decodes env valves item = true) items →
  for_each items (handle_tool_call env valves) st = (res, st1) →
  forallb listed (st_log st1) = true →
  res = inr ().
Proof.
  intros Hall. revert st. induction Hall as [|item items Hitem _ IH];
    intros st; simpl; [by intros [= <- <-]|].
  unfold bind.
  destruct (handle_tool_call env valves item st) as [[e|[]] st2] eqn:Hh.
  - intros [= <- <-] Hlisted.
    by pose proof (handle_decodes _ _ _ _ _ _ Hitem Hh Hlisted).
  - apply IH.
Qed.

(** ** The whole loop *)

(** The loop, path by path. *)
Lemma call_unfold env valves st :
  let model := OPENROUTER_MODEL valves in
  let reply1 := openrouter env (st_log st) model (st_messages st) true in
  let st1 := logged st (EvChat model (st_messages st) true reply1) in
  _call_openrouter_with_tools env valves st
  = match reply1 with
    | inl e => (inr (VStr (error_text env e)), st1)
    | inr message =>
        let tool_calls := dict_get message "tool_calls" (VList []) in
        if negb (truthy tool_calls) then
          (inr (dict_get message "content" (VStr "")), st1)
        else
          match iterate tool_calls with
          | inl e => (inr (VStr (error_text env e)), with_reply st1 message)
          | inr items =>
              match for_each items (handle_tool_call env valves)
                      (with_reply st1 message) with
              | (inl e, st3) => (inr (VStr (error_text env e)), st3)
              | (inr _, st3) =>
                  let reply2 := openrouter env (st_log st3) model
                                  (st_messages st3) false in
                  (inr (finish env (st_citations st3) reply2),
                   logged st3 (EvChat model (st_messages st3) false reply2))
              end
          end
    end.
Proof.
  unfold _call_openrouter_with_tools, try_except, call_body, bind at 1,
    post_chat. simpl.
  destruct (openrouter env (st_log st) (OPENROUTER_MODEL valves)
              (st_messages st) true) as [e|message]; [done|].
  destruct (truthy (dict_get message "tool_calls" (VList []))); simpl; [|done].
  unfold bind, append_message, lift. simpl.
  destruct (iterate (dict_get message "tool_calls" (VList [])))
    as [e|items]; [done|].
  fold (logged st (EvChat (OPENROUTER_MODEL valves) (st_messages st) true
                     (inr message))).
  match goal with |- context [for_each items ?f ?s] =>
    change s with (with_reply (logged st (EvChat (OPENROUTER_MODEL valves)
                     (st_messages st) true (inr message))) message);
    destruct (for_each items f (with_reply (logged st (EvChat
                (OPENROUTER_MODEL valves) (st_messages st) true
                (inr message))) message)) as [[e|[]] st3]
  end; [done|].
  unfold finish, get_citations, ret.
  destruct (openrouter env (st_log st3) (OPENROUTER_MODEL valves)
              (st_messages st3) false) as [e|final]; [done|].
  destruct (is_blank (dict_get final "content" (VStr ""))) as [e|[]]; simpl;
    [done| |done].
  by destruct (negb (bool_decide (st_citations st3 = []))).
Qed.

(** The loop never raises, and every call of it is one of these runs. *)
Lemma call_runs env valves st :
  ∃ text st',
    _call_openrouter_with_tools env valves st = (inr text, st')
    ∧ loop_run env valves st text st'.
Proof.
  rewrite call_unfold. simpl.
  destruct (openrouter env (st_log st) (OPENROUTER_MODEL valves)
              (st_messages st) true) as [e|message] eqn:Hreply.
  { eexists _, _. split; [done|]. by apply first_call_fails. }
  destruct (truthy (dict_get message "tool_calls" (VList []))) eqn:Htc; simpl.
  2: { eexists _, _. split; [done|]. by apply done_without_tools. }
  set (st1 := logged st (EvChat (OPENROUTER_MODEL valves) (st_messages st)
                           true (inr message))).
  destruct (iterate (dict_get message "tool_calls" (VList [])))
    as [e|items] eqn:Hitems.
  { eexists _, _. split; [done|].
    apply (tool_phase_fails env valves st message [] []);
      simpl; rewrite ?app_nil_r; done. }
  destruct (for_each items (handle_tool_call env valves)
              (with_reply st1 message)) as [res st3] eqn:Hloop.
  destruct (for_each_inv _ _ _ _ _ _ Hloop)
    as (evs & replies & Hlog & Htool & Hcit & Hmsg & Hres).
  simpl in Hlog, Hcit, Hmsg. rewrite <- app_assoc in Hlog, Hmsg.
  destruct res as [e|[]]; eexists _, _; (split; [done|]).
  - by apply (tool_phase_fails env valves st message evs replies).
  - by apply (done_after_tools env valves st message items evs replies).
Qed.

(** ** P1: one reply per request *)

(** C1, as amended.  When the first reply carries well-formed tool-call
    requests, the arguments of every request decode and the citations
    that every tool invocation of the run returns can be iterated, the
    loop appends, before the second call, exactly one [tool] message per
    request, each with the id of its request, in the order of the
    requests. *)
Theorem reply_correlation (env : Env) (valves : Valves) (st : State)
    (message : dict) (items : list value) :
  openrouter env (st_log st) (OPENROUTER_MODEL valves) (st_messages st) true
    = inr message →
  dict_get message "tool_calls" (VList []) = VList items →
  items ≠ [] →
  Forall (λ item, decodes env valves item = true) items →
  forallb listed (st_log (_call_openrouter_with_tools env valves st).2)
    = true →
  reply_contract env valves st message items.
Proof.
  intros Hreply Htc Hne Hall. unfold reply_contract.
  rewrite call_unfold. simpl. rewrite Hreply, Htc. simpl.
  rewrite bool_decide_false by done. simpl.
  set (st1 := with_reply _ message).
  destruct (for_each items (handle_tool_call env valves) st1)
    as [res st3] eqn:Hloop.
  destruct res as [e|[]]; simpl; intros Hlisted.
  { by pose proof (for_each_decodes _ _ _ _ _ _ Hall Hloop Hlisted). }
  destruct (for_each_inv _ _ _ _ _ _ Hloop)
    as (evs & replies & _ & _ & _ & Hmsg & Hres).
  exists replies, (openrouter env (st_log st3) (OPENROUTER_MODEL valves)
                     (st_messages st3) false).
  split_and!; [|done|by rewrite last_snoc].
  rewrite Hmsg. simpl. by rewrite <- app_assoc.
Qed.

Lemma reply_correlation_witness :
  reply_contract (example_env [request "call_1" "exa_answer_search" query_json;
                               request "call_2" "translate" "{}"])
    example_valves
    {| st_messages := [user_message "current weather in Lisbon"];
       st_citations := []; st_log := [] |}
    (assistant_requests [request "call_1" "exa_answer_search" query_json;
                         request "call_2" "translate" "{}"])
    [request "call_1" "exa_answer_search" query_json;
     request "call_2" "translate" "{}"].
Proof.
  apply reply_correlation;
    [reflexivity|reflexivity|discriminate| |by vm_compute].
  repeat constructor.
Defined.

(** The claim as it is written fails twice over.  A request for a
    declared tool whose arguments are not JSON gets no reply and no second
    call is made; and neither does a request whose arguments decode when
    the reply of Exa has [null] for its citations, which
    [all_citations.extend] cannot iterate. *)
Lemma reply_correlation_counterexample :
  (openrouter (example_env [request "call_1" "exa_answer_search" "oops"]) []
     (OPENROUTER_MODEL example_valves) [user_message "weather?"] true
     = inr (assistant_requests [request "call_1" "exa_answer_search" "oops"])
   ∧ is_Some (request_parts (request "call_1" "exa_answer_search" "oops"))
   ∧ ¬ reply_contract
         (example_env [request "call_1" "exa_answer_search" "oops"])
         example_valves
         {| st_messages := [user_message "weather?"];
            st_citations := []; st_log := [] |}
         (assistant_requests [request "call_1" "exa_answer_search" "oops"])
         [request "call_1" "exa_answer_search" "oops"])
  ∧ (openrouter
       (replying_env [request "call_1" "exa_answer_search" query_json]
          null_citations) []
       (OPENROUTER_MODEL example_valves) [user_message "weather?"] true
     = inr (assistant_requests
              [request "call_1" "exa_answer_search" query_json])
     ∧ decodes
         (replying_env [request "call_1" "exa_answer_search" query_json]
            null_citations)
         example_valves (request "call_1" "exa_answer_search" query_json)
       = true
     ∧ ¬ reply_contract
           (replying_env [request "call_1" "exa_answer_search" query_json]
              null_citations)
           example_valves
           {| st_messages := [user_message "weather?"];
              st_citations := []; st_log := [] |}
           (assistant_requests
              [request "call_1" "exa_answer_search" query_json])
           [request "call_1" "exa_answer_search" query_json]).
Proof.
  split.
  - split; [reflexivity|]. split; [by eexists|].
    intros (replies & reply2 & _ & _ & Hlast).
    vm_compute in Hlast. discriminate Hlast.
  - split; [reflexivity|]. split; [reflexivity|].
    intros (replies & reply2 & _ & _ & Hlast).
    vm_compute in Hlast. discriminate Hlast.
Qed.

(** In every run, the second call is made on messages that hold one
    reply per request, in order: only an exception on the way keeps a
    request without its reply. *)
Lemma second_call_after_all_replies env valves st messages reply2 :
  last (st_log (_call_openrouter_with_tools env valves st).2)
    = Some (EvChat (OPENROUTER_MODEL valves) messages false reply2) →
  ∃ message items replies,
    openrouter env (st_log st) (OPENROUTER_MODEL valves) (st_messages st) true
      = inr message
    ∧ iterate (dict_get message "tool_calls" (VList [])) = inr items
    ∧ messages = st_messages st ++ [message] ++ replies
    ∧ Forall2 replies_to items replies.
Proof.
  destruct (call_runs env valves st) as (text & st' & -> & Hrun). simpl.
  inversion Hrun as
    [e Hreply|message Hreply Htc|message evs replies e st3 Hreply Htc Hlog
       Htool Hcit Hmsg|message items evs replies st3 r2 Hreply Htc Hitems
       Hlog Htool Hcit Hmsg Hreplies Hreply2]; subst; simpl.
  - by rewrite last_snoc.
  - by rewrite last_snoc.
  - rewrite Hlog.
    change (st_log st ++ EvChat (OPENROUTER_MODEL valves) (st_messages st) true
                           (inr message) :: evs)
      with (st_log st ++ [EvChat (OPENROUTER_MODEL valves) (st_messages st)
                            true (inr message)] ++ evs).
    rewrite app_assoc. destruct (decide (evs = [])) as [->|Hne].
    + rewrite app_nil_r, last_snoc. by intros [=].
    + destruct (exists_last Hne) as (evs' & ev & ->).
      rewrite app_assoc, last_snoc. intros [= ->].
      apply Forall_app in Htool as [_ Htool].
      by apply Forall_cons in Htool as [Htool _].
  - rewrite last_snoc. intros [= <- _]. by exists message, items, replies.
Qed.

(** ** Requests the loop cannot serve *)

(** C4, as amended.  A request whose raw arguments are valid JSON and
    whose tool is not a declared one, or whose tool needs the Exa key when
    there is none, is not fatal: it is answered with an error text, as a
    result would be, without citations, and the loop goes on. *)
Theorem unserved_request_not_fatal (env : Env) (valves : Valves) (st : State)
    (item id name : value) (raw : string) (function_args : value) :
  request_parts item = Some (id, name, raw) →
  declared name = false ∨ key_set (EXA_API_KEY valves) = false →
  json_loads env raw = inr function_args →
  answered_with_error env valves st item id name.
Proof.
  intros Hparts Hwhy Hjson.
  assert (handle_tool_call env valves item st
          = (inr (), with_reply st (tool_message id (VStr (refusal env name)))))
    as Hstep.
  { rewrite (handle_request _ _ _ _ _ _ _ Hparts), Hjson.
    by rewrite dispatch_refusal. }
  split; [done|]. intros rest. simpl. unfold bind. by rewrite Hstep.
Qed.

Lemma unserved_request_not_fatal_witness :
  answered_with_error (example_env []) example_valves init_state
    (request "call_2" "translate" "{}") (VStr "call_2") (VStr "translate").
Proof.
  apply (unserved_request_not_fatal _ _ _ _ _ _ "{}" (VDict ∅));
    [reflexivity|left; reflexivity|reflexivity].
Defined.

(** Without the condition on the arguments C4 fails: a request for an
    unknown tool whose arguments are not JSON makes the body of the loop
    raise. *)
Lemma unserved_request_counterexample :
  request_parts (request "call_2" "translate" "oops")
    = Some (VStr "call_2", VStr "translate", "oops")
  ∧ declared (VStr "translate") = false
  ∧ ¬ answered_with_error (example_env []) example_valves init_state
        (request "call_2" "translate" "oops") (VStr "call_2") (VStr "translate").
Proof.
  split; [reflexivity|]. split; [reflexivity|].
  intros [Hstep _]. vm_compute in Hstep. discriminate Hstep.
Qed.

(** ** Arguments that do not decode *)

Lemma decode_error_text env valves item e :
  decode_error env valves item = Some e →
  error_text env e = "Error: " +:+ str_exn env e.
Proof.
  unfold decode_error.
  destruct (request_parts item) as [[[id name] raw]|]; [|done].
  destruct (json_loads env raw) as [m|args]; [by intros [= <-]|].
  destruct (declared name && key_set (EXA_API_KEY valves)); [|done].
  destruct args; simpl; try by intros [= <-].
  destruct (d !! "query"); [done|]. by intros [= <-].
Qed.

(** C10.  When the first reply carries the requests [pre ++ bad :: post],
    the arguments of the requests [pre] decode, the citations their tools
    return can be iterated, so that the loop reaches [bad], and the
    arguments of [bad] do not decode (they are not JSON, or [bad] names a
    declared tool, there is an Exa key, as in every run of [pipe], and the
    decoded value has no ["query"]), the exception leaves the loop: the
    replies appended are those to [pre] and no other, the first call is the
    only call of the model, the text returned is [Error: ] and the text of
    the exception, and the citations returned are those of the tools invoked
    before. *)
Theorem decode_failure_is_fatal (env : Env) (valves : Valves) (st : State)
    (message : dict) (pre post : list value) (bad : value) (e : exn) :
  openrouter env (st_log st) (OPENROUTER_MODEL valves) (st_messages st) true
    = inr message →
  dict_get message "tool_calls" (VList []) = VList (pre ++ bad :: post) →
  Forall (λ item, decodes env valves item = true) pre →
  is_Some (request_parts bad) →
  decode_error env valves bad = Some e →
  forallb listed (st_log (_call_openrouter_with_tools env valves st).2)
    = true →
  ∃ st' evs replies,
    _call_openrouter_with_tools env valves st
      = (inr (VStr ("Error: " +:+ str_exn env e)), st')
    ∧ st_messages st' = st_messages st ++ [message] ++ replies
    ∧ Forall2 replies_to pre replies
    ∧ st_log st' = st_log st ++ EvChat (OPENROUTER_MODEL valves)
                                  (st_messages st) true (inr message) :: evs
    ∧ Forall (λ ev, is_tool ev = true) evs
    ∧ st_citations st' = st_citations st ++ tool_citations evs.
Proof.
  intros Hreply Htc Hpre Hparts Hbad.
  rewrite call_unfold. simpl. rewrite Hreply, Htc. simpl.
  rewrite bool_decide_false by (by destruct pre). simpl.
  set (st1 := with_reply _ message).
  rewrite for_each_app. unfold bind at 1 2.
  destruct (for_each pre (handle_tool_call env valves) st1)
    as [res st2] eqn:Hloop.
  destruct res as [e'|[]]; simpl.
  { intros Hlisted.
    by pose proof (for_each_decodes _ _ _ _ _ _ Hpre Hloop Hlisted). }
  unfold bind. rewrite (handle_decode_error _ _ _ e) by done. intros _.
  destruct (for_each_inv _ _ _ _ _ _ Hloop)
    as (evs & replies & Hlog & Htool & Hcit & Hmsg & Hres).
  exists st2, evs, replies.
  rewrite (decode_error_text _ _ _ _ Hbad). split_and!; try done.
  - rewrite Hmsg. simpl. by rewrite <- app_assoc.
  - rewrite Hlog. simpl. by rewrite <- app_assoc.
Qed.

Lemma decode_failure_is_fatal_witness :
  ∃ st' evs replies,
    _call_openrouter_with_tools
      (example_env [request "call_1" "exa_answer_search" query_json;
                    request "call_2" "exa_context_search" "{}";
                    request "call_3" "exa_answer_search" query_json])
      example_valves
      {| st_messages := [user_message "weather?"];
         st_citations := []; st_log := [] |}
      = (inr (VStr ("Error: " +:+ "'query'")), st')
    ∧ st_messages st'
      = [user_message "weather?"]
        ++ [assistant_requests
              [request "call_1" "exa_answer_search" query_json;
               request "call_2" "exa_context_search" "{}";
               request "call_3" "exa_answer_search" query_json]]
        ++ replies
    ∧ Forall2 replies_to [request "call_1" "exa_answer_search" query_json]
        replies
    ∧ st_log st'
      = [] ++ EvChat (OPENROUTER_MODEL example_valves)
                [user_message "weather?"] true
                (inr (assistant_requests
                        [request "call_1" "exa_answer_search" query_json;
                         request "call_2" "exa_context_search" "{}";
                         request "call_3" "exa_answer_search" query_json]))
              :: evs
    ∧ Forall (λ ev, is_tool ev = true) evs
    ∧ st_citations st' = [] ++ tool_citations evs.
Proof.
  apply (decode_failure_is_fatal
           (example_env [request "call_1" "exa_answer_search" query_json;
                         request "call_2" "exa_context_search" "{}";
                         request "call_3" "exa_answer_search" query_json])
           example_valves
           {| st_messages := [user_message "weather?"];
              st_citations := []; st_log := [] |}
           _ [request "call_1" "exa_answer_search" query_json]
           [request "call_3" "exa_answer_search" query_json]
           (request "call_2" "exa_context_search" "{}") (KeyError "query")).
  - reflexivity.
  - reflexivity.
  - repeat constructor.
  - by eexists.
  - reflexivity.
  - by vm_compute.
Defined.

(** ** From the result of the loop to the caller *)

Lemma final_text_not_blank s citations :
  whitespace_only (final_text s citations) = false.
Proof.
  unfold final_text. destruct (whitespace_only s) eqn:Hs; [|done].
  by case_bool_decide.
Qed.

Lemma emit_sources_run env valves citations event_emitter st :
  ∃ post st',
    try_except (_emit_sources env valves citations event_emitter)
      (pipe_handler env) st = (inr (), st')
    ∧ st_log st' = st_log st ++ post
    ∧ Forall (delivered env citations) post.
Proof.
  unfold try_except, _emit_sources.
  destruct (negb (bool_decide (citations = [])) && EMIT_SOURCES valves
            && event_emitter).
  2: { exists [], st. by rewrite app_nil_r. }
  unfold bind, lift.
  destruct (_format_citations_as_sources env citations) as [e|sources] eqn:Hf.
  { eexists [_], _. split; [done|]. split; [done|]. by apply Forall_singleton. }
  destruct (negb (bool_decide (sources = []))).
  - eexists [_], _. split; [done|]. split; [done|]. by apply Forall_singleton.
  - exists [], st. by rewrite app_nil_r.
Qed.

(** The delivery always yields a first text, which is a real answer; what
    follows is an emission of sources or, when formatting them raised, a
    second text. *)
Lemma deliver_run env valves event_emitter result_text citations st :
  ∃ text post st',
    try_except (deliver env valves event_emitter result_text citations)
      (pipe_handler env) st = (inr (), st')
    ∧ st_log st' = st_log st ++ EvYield text :: post
    ∧ whitespace_only text = false
    ∧ Forall (delivered env citations) post
    ∧ (∀ s, result_text = VStr s → text = final_text s citations).
Proof.
  assert (∀ e,
            try_except (deliver env valves event_emitter result_text citations)
              (pipe_handler env) st = pipe_handler env e st →
            (∀ s, result_text ≠ VStr s) →
            ∃ text post st',
              try_except (deliver env valves event_emitter result_text citations)
                (pipe_handler env) st = (inr (), st')
              ∧ st_log st' = st_log st ++ EvYield text :: post
              ∧ whitespace_only text = false
              ∧ Forall (delivered env citations) post
              ∧ (∀ s, result_text = VStr s → text = final_text s citations))
    as Herr.
  { intros e Heq Hno. rewrite Heq.
    eexists ("Error: " +:+ str_exn env e), [], _.
    split_and!; [reflexivity|done|done|constructor|].
    intros s Hs. by destruct (Hno s). }
  assert (∀ s,
            ∃ post st',
              try_except
                (bind (record (EvYield s))
                   (λ _, if negb (bool_decide (citations = []))
                         then _emit_sources env valves citations event_emitter
                         else ret ()))
                (pipe_handler env) st = (inr (), st')
              ∧ st_log st' = st_log st ++ EvYield s :: post
              ∧ Forall (delivered env citations) post) as Hyield.
  { intros s. unfold try_except, bind, record.
    set (st1 := {| st_messages := st_messages st;
                   st_citations := st_citations st;
                   st_log := st_log st ++ [EvYield s] |}).
    destruct (negb (bool_decide (citations = []))).
    - destruct (emit_sources_run env valves citations event_emitter st1)
        as (post & st' & Hrun & Hlog & Hpost).
      unfold try_except in Hrun. exists post.
      destruct (_emit_sources env valves citations event_emitter st1)
        as [[e|[]] st2]; simpl in *.
      + exists st'. split_and!; try done. by rewrite Hlog, <- app_assoc.
      + simplify_eq. exists st'. split_and!; try done.
        by rewrite Hlog, <- app_assoc.
    - exists [], st1. by split_and!. }
  destruct result_text as [| b | n | s | l | d].
  - by apply (Herr (TypeError "len" VNone)).
  - by apply (Herr (TypeError "len" (VBool b))).
  - by apply (Herr (TypeError "len" (VInt n))).
  - clear Herr. unfold deliver. unfold bind at 1 2 3, lift. simpl py_len.
    simpl slice_to. rewrite is_blank_str.
    destruct (Hyield (final_text s citations))
      as (post & st' & Hrun & Hlog & Hpost).
    exists (final_text s citations), post, st'. split_and!; try done.
    + rewrite <- Hrun. unfold final_text, try_except, bind, lift.
      destruct (whitespace_only s); [|done].
      by destruct (bool_decide (citations = [])).
    + apply final_text_not_blank.
    + by intros s' [= <-].
  - destruct l as [|x l].
    + clear Herr. unfold deliver. unfold bind at 1 2 3, lift. simpl.
      destruct (Hyield (final_text "" citations))
        as (post & st' & Hrun & Hlog & Hpost).
      exists (final_text "" citations), post, st'.
      split_and!; try done.
      * rewrite <- Hrun. unfold final_text, try_except, bind, lift. simpl.
        by destruct (bool_decide (citations = [])).
      * apply final_text_not_blank.
    + by apply (Herr (AttributeError (VList (x :: l)) "strip")).
  - by apply (Herr (TypeError "slice" (VDict d))).
Qed.

(** The events of a run of the loop: the first call, the tool
    invocations, and then at most the second call, which is the last
    thing the loop does and whose reply decides the text through
    [finish]. *)
Lemma loop_run_log env valves st text st' :
  loop_run env valves st text st' →
  ∃ reply1 evs tail,
    st_log st' = st_log st ++ EvChat (OPENROUTER_MODEL valves) (st_messages st)
                                true reply1 :: evs ++ tail
    ∧ Forall (λ ev, is_tool ev = true) evs
    ∧ st_citations st' = st_citations st ++ tool_citations evs
    ∧ (tail = []
       ∨ ∃ reply2,
           tail = [EvChat (OPENROUTER_MODEL valves) (st_messages st') false
                     reply2]
           ∧ text = finish env (st_citations st') reply2).
Proof.
  intros Hrun. inversion Hrun as
    [e Hreply|message Hreply Htc|message evs replies e st3 Hreply Htc Hlog
       Htool Hcit Hmsg|message items evs replies st3 reply2 Hreply Htc Hitems
       Hlog Htool Hcit Hmsg Hreplies Hreply2]; subst.
  - exists (inl e), [], []. simpl. rewrite app_nil_r. by split_and!; [..|left].
  - exists (inr message), [], []. simpl. rewrite app_nil_r.
    by split_and!; [..|left].
  - exists (inr message), evs, []. rewrite app_nil_r.
    by split_and!; [..|left].
  - exists (inr message), evs,
      [EvChat (OPENROUTER_MODEL valves) (st_messages st3) false
         (openrouter env (st_log st3) (OPENROUTER_MODEL valves)
            (st_messages st3) false)].
    simpl. rewrite Hlog, <- app_assoc. split_and!; try done.
    right. by eexists.
Qed.

(** A run of [pipe] with both keys: a run of the loop on the composed
    messages and no citations, then the delivery. *)
Lemma pipe_run env valves body_messages event_emitter :
  key_set (EXA_API_KEY valves) = true →
  key_set (OPENROUTER_API_KEY valves) = true →
  ∃ result_text st' text post,
    loop_run env valves
      {| st_messages := compose_messages env
                          (non_system (default [] body_messages));
         st_citations := []; st_log := [] |} result_text st'
    ∧ raised (pipe env valves body_messages event_emitter) = None
    ∧ trace (pipe env valves body_messages event_emitter)
      = st_log st' ++ EvYield text :: post
    ∧ whitespace_only text = false
    ∧ Forall (delivered env (st_citations st')) post
    ∧ (∀ s, result_text = VStr s → text = final_text s (st_citations st')).
Proof.
  intros Hexa Hor. unfold pipe. rewrite Hexa, Hor. simpl.
  unfold pipe_body. rewrite pop_system_message_eq.
  set (st0 := {| st_messages := compose_messages env
                                  (non_system (default [] body_messages));
                 st_citations := []; st_log := [] |}).
  destruct (call_runs env valves st0) as (result_text & st' & Hcall & Hrun).
  destruct (deliver_run env valves event_emitter result_text
              (st_citations st') st')
    as (text & post & st'' & Hdeliver & Hlog & Htext & Hpost & Hfinal).
  exists result_text, st', text, post.
  assert (try_except
            (bind (start (compose_messages env
                            (non_system (default [] body_messages))))
               (λ _, bind (_call_openrouter_with_tools env valves)
                       (λ result_text,
                          bind get_citations
                            (λ citations,
                               deliver env valves event_emitter result_text
                                 citations))))
            (pipe_handler env) init_state = (inr (), st'')) as ->.
  { rewrite <- Hdeliver. unfold try_except, bind at 1 2 3, start. simpl.
    fold st0. rewrite Hcall. done. }
  by split_and!.
Qed.

(** The last call of the model in a list of events is found in one way
    only. *)
Lemma last_chat_unique pre1 x1 post1 pre2 x2 post2 :
  pre1 ++ x1 :: post1 = pre2 ++ x2 :: post2 →
  is_chat x1 = true → is_chat x2 = true →
  Forall (λ ev, is_chat ev = false) post1 →
  Forall (λ ev, is_chat ev = false) post2 →
  pre1 = pre2 ∧ x1 = x2 ∧ post1 = post2.
Proof.
  intros Heq H1 H2 Hp1 Hp2. revert pre2 Heq.
  induction pre1 as [|y pre1 IH]; intros [|z pre2] Heq; simplify_eq/=.
  - done.
  - apply Forall_app in Hp1 as [_ Hp1]. apply Forall_cons in Hp1 as [Hx _].
    congruence.
  - apply Forall_app in Hp2 as [_ Hp2]. apply Forall_cons in Hp2 as [Hx _].
    congruence.
  - destruct (IH pre2) as (-> & -> & ->); done.
Qed.

Lemma delivered_not_chat env citations post :
  Forall (delivered env citations) post →
  Forall (λ ev, is_chat ev = false) post.
Proof. intros H. eapply Forall_impl; [exact H|]. by intros []. Qed.

Lemma tool_not_chat evs :
  Forall (λ ev, is_tool ev = true) evs → Forall (λ ev, is_chat ev = false) evs.
Proof. intros H. eapply Forall_impl; [exact H|]. by intros []. Qed.

(** ** P3: the final text *)

Lemma substitute_not_blank citations :
  whitespace_only (substitute citations) = false.
Proof. unfold substitute. by case_bool_decide. Qed.

Lemma finish_blank env citations message s :
  dict_get message "content" (VStr "") = VStr s →
  whitespace_only s = true →
  finish env citations (inr message) = VStr (substitute citations).
Proof.
  intros Hc Hs. unfold finish, substitute. rewrite Hc, is_blank_str, Hs.
  by case_bool_decide.
Qed.

(** C3.  The claim asks that an empty text of the model be replaced by
    the apology when no citation was accumulated.  A first reply without
    tool calls whose content is [null] is empty by the test of [pipe]
    itself ([not result_text]), and no tool was called; the text of the run
    is not the apology but [Error: ] and the text of the [TypeError] that
    [len(result_text)] raises in the log line before that test. *)
Lemma null_content_not_replaced :
  openrouter (scripted_env null_reply VNone) []
    (OPENROUTER_MODEL example_valves) [user_message "hi"] true
    = inr null_reply
  ∧ truthy (dict_get null_reply "tool_calls" (VList [])) = false
  ∧ truthy (dict_get null_reply "content" (VStr "")) = false
  ∧ tool_citations
      (trace (pipe (scripted_env null_reply VNone) example_valves
                (Some [user_message "hi"]) true)) = []
  ∧ yields (pipe (scripted_env null_reply VNone) example_valves
              (Some [user_message "hi"]) true)
    = ["Error: "
       +:+ str_exn (scripted_env null_reply VNone) (TypeError "len" VNone)]
  ∧ yields (pipe (scripted_env null_reply VNone) example_valves
              (Some [user_message "hi"]) true)
    ≠ [substitute []].
Proof. split_and!; by vm_compute. Qed.

(** ** At most two calls of the model *)

Lemma model_calls_app evs1 evs2 :
  model_calls (evs1 ++ evs2) = model_calls evs1 + model_calls evs2.
Proof. unfold model_calls. by rewrite List.filter_app, length_app. Qed.

Lemma model_calls_cons ev evs :
  model_calls (ev :: evs) = (if is_chat ev then 1 else 0) + model_calls evs.
Proof. unfold model_calls. simpl. by destruct (is_chat ev). Qed.

Lemma model_calls_none evs :
  Forall (λ ev, is_chat ev = false) evs → model_calls evs = 0.
Proof.
  unfold model_calls. induction 1 as [|ev evs Hev _ IH]; simpl; [done|].
  by rewrite Hev.
Qed.

(** The reply to the second call counts through its text only: tool-call
    requests in it change nothing. *)
Lemma finish_ignores_tool_calls env citations message tool_calls :
  finish env citations (inr (<["tool_calls" := tool_calls]> message))
  = finish env citations (inr message).
Proof.
  unfold finish, dict_get. by rewrite lookup_insert_ne.
Qed.

(** C8.  A run of [pipe] calls the model at most twice.  The loop calls it
    once with the catalog, then invokes tools, and then at most once more:
    that second call is without the catalog, on the whole list of messages
    as the loop leaves it, nothing follows it, and its reply decides the
    text through [finish], which reads the text of the reply and ignores
    tool-call requests in it. *)
Theorem at_most_two_model_calls (env : Env) (valves : Valves)
    (body_messages : option (list dict)) (event_emitter : bool)
    (st : State) :
  model_calls (trace (pipe env valves body_messages event_emitter)) ≤ 2
  ∧ (∃ text st' reply1 evs tail,
       _call_openrouter_with_tools env valves st = (inr text, st')
       ∧ st_log st' = st_log st ++ EvChat (OPENROUTER_MODEL valves)
                                     (st_messages st) true reply1 :: evs ++ tail
       ∧ Forall (λ ev, is_tool ev = true) evs
       ∧ (tail = []
          ∨ ∃ reply2,
              tail = [EvChat (OPENROUTER_MODEL valves) (st_messages st') false
                        reply2]
              ∧ text = finish env (st_citations st') reply2))
  ∧ (∀ citations message tool_calls,
       finish env citations (inr (<["tool_calls" := tool_calls]> message))
       = finish env citations (inr message)).
Proof.
  split_and!.
  - destruct (key_set (EXA_API_KEY valves)) eqn:Hexa;
      [|unfold pipe; rewrite Hexa; simpl; unfold model_calls; simpl; lia].
    destruct (key_set (OPENROUTER_API_KEY valves)) eqn:Hor;
      [|unfold pipe; rewrite Hexa, Hor; simpl; unfold model_calls; simpl; lia].
    destruct (pipe_run env valves body_messages event_emitter Hexa Hor)
      as (result_text & st' & text & post & Hrun & _ & -> & _ & Hpost & _).
    destruct (loop_run_log _ _ _ _ _ Hrun)
      as (reply1 & evs & tail & -> & Htool & _ & Htail).
    rewrite !model_calls_app, model_calls_cons, model_calls_app.
    rewrite (model_calls_none (EvYield text :: post))
      by (constructor; [done|by eapply delivered_not_chat]).
    rewrite (model_calls_none evs) by by apply tool_not_chat.
    destruct Htail as [->|(reply2 & -> & _)]; unfold model_calls; simpl; lia.
  - destruct (call_runs env valves st) as (text & st' & Hcall & Hrun).
    destruct (loop_run_log _ _ _ _ _ Hrun)
      as (reply1 & evs & tail & Hlog & Htool & _ & Htail).
    by exists text, st', reply1, evs, tail.
  - apply finish_ignores_tool_calls.
Qed.

(** ** P2: the citations *)

Lemma answer_last_fold invs tools :
  CrewAI.answer_last (fold_left CrewAI.arun invs tools)
  = match last (omap answer_of invs) with
    | Some citations => Some citations
    | None => CrewAI.answer_last tools
    end.
Proof.
  revert tools. induction invs as [|i invs IH]; intros tools; [done|].
  cbn [fold_left]. rewrite IH.
  change (omap answer_of (i :: invs))
    with (match answer_of i with
          | Some y => y :: omap answer_of invs
          | None => omap answer_of invs
          end).
  destruct i as [[] citations|t]; simpl; try done.
  rewrite last_cons. by destruct (last (omap answer_of invs)).
Qed.

Lemma context_last_fold invs tools :
  default [] (CrewAI.context_last tools) = [] →
  default [] (CrewAI.context_last (fold_left CrewAI.arun invs tools)) = [].
Proof.
  revert tools. induction invs as [|i invs IH]; intros tools Ht; [done|].
  cbn [fold_left]. apply IH. by destruct i as [[] citations|t].
Qed.

Lemma collect_last_answer invs :
  CrewAI.collect_citations (CrewAI.after_kickoff invs) = last_answer invs.
Proof.
  unfold CrewAI.collect_citations, CrewAI.after_kickoff, last_answer.
  rewrite answer_last_fold, context_last_fold by done.
  simpl. by destruct (last (omap answer_of invs)) as [[|c l]|].
Qed.

Lemma tool_citations_none evs :
  Forall (λ ev, is_tool ev = false) evs → tool_citations evs = [].
Proof.
  unfold tool_citations. induction 1 as [|ev evs Hev _ IH]; simpl; [done|].
  rewrite IH. by destruct ev.
Qed.

Lemma delivered_not_tool env citations post :
  Forall (delivered env citations) post →
  Forall (λ ev, is_tool ev = false) post.
Proof. intros H. eapply Forall_impl; [exact H|]. by intros []. Qed.

(** What a run of the direct pipe emits are the sources of the citations
    of its tool invocations. *)
Lemma pipe_emits env valves body_messages event_emitter sources :
  EvEmit sources ∈ trace (pipe env valves body_messages event_emitter) →
  _format_citations_as_sources env
    (tool_citations (trace (pipe env valves body_messages event_emitter)))
  = inr sources.
Proof.
  destruct (key_set (EXA_API_KEY valves)) eqn:Hexa;
    [|unfold pipe; rewrite Hexa; simpl; by intros ?%elem_of_nil].
  destruct (key_set (OPENROUTER_API_KEY valves)) eqn:Hor;
    [|unfold pipe; rewrite Hexa, Hor; simpl; by intros ?%elem_of_nil].
  destruct (pipe_run env valves body_messages event_emitter Hexa Hor)
    as (result_text & st' & text & post & Hrun & _ & -> & _ & Hpost & _).
  destruct (loop_run_log _ _ _ _ _ Hrun)
    as (reply1 & evs & tail & Hlog & Htool & Hcit & Htail).
  simpl in Hlog, Hcit.
  assert (tool_citations (st_log st' ++ EvYield text :: post)
          = st_citations st') as ->.
  { rewrite Hlog, Hcit, tool_citations_app.
    change (tool_citations (EvYield text :: post)) with (tool_citations post).
    rewrite (tool_citations_none post) by by eapply delivered_not_tool.
    change (tool_citations (EvChat (OPENROUTER_MODEL valves)
              (compose_messages env (non_system (default [] body_messages)))
              true reply1 :: evs ++ tail))
      with (tool_citations (evs ++ tail)).
    rewrite tool_citations_app, app_nil_r.
    destruct Htail as [->|(reply2 & -> & _)]; simpl; by rewrite app_nil_r. }
  rewrite Hlog. intros Hin. apply elem_of_app in Hin as [Hin|Hin].
  - apply elem_of_cons in Hin as [?|Hin]; [done|].
    apply elem_of_app in Hin as [Hin|Hin].
    + eapply Forall_forall in Htool; [|exact Hin]. done.
    + destruct Htail as [->|(reply2 & -> & _)]; [by apply elem_of_nil in Hin|].
      by apply list_elem_of_singleton in Hin.
  - apply elem_of_cons in Hin as [?|Hin]; [done|].
    eapply Forall_forall in Hpost; [|exact Hin]. done.
Qed.

(** C2, as amended.  In the direct pipe the citations the loop returns
    are those it was given followed by the citation lists of its tool
    invocations, in the order of the invocations, duplicates kept, and the
    sources a run emits are those of the citation lists of its tool
    invocations, one after the other; the CrewAI pipe keeps the citations
    of the last invocation of the answer tool that got a reply, and no
    other. *)
Theorem citations_in_dispatch_order (env : Env) (valves : Valves) (st : State)
    (body_messages : option (list dict)) (event_emitter : bool)
    (invs : list CrewAI.invocation) :
  (∃ text st' evs,
     _call_openrouter_with_tools env valves st = (inr text, st')
     ∧ st_log st' = st_log st ++ evs
     ∧ st_citations st' = st_citations st ++ tool_citations evs)
  ∧ (∀ sources,
       EvEmit sources ∈ trace (pipe env valves body_messages event_emitter) →
       _format_citations_as_sources env
         (tool_citations (trace (pipe env valves body_messages event_emitter)))
       = inr sources)
  ∧ CrewAI.collect_citations (CrewAI.after_kickoff invs) = last_answer invs.
Proof.
  split_and!; [|apply pipe_emits|apply collect_last_answer].
  destruct (call_runs env valves st) as (text & st' & Hcall & Hrun).
  destruct (loop_run_log _ _ _ _ _ Hrun)
    as (reply1 & evs & tail & Hlog & Htool & Hcit & Htail).
  exists text, st', (EvChat (OPENROUTER_MODEL valves) (st_messages st) true
                       reply1 :: evs ++ tail).
  split_and!; [done..|]. rewrite Hcit. simpl. rewrite tool_citations_app.
  destruct Htail as [->|(reply2 & -> & _)]; simpl; by rewrite app_nil_r.
Qed.

(** In the CrewAI pipe C2 fails: two invocations of the answer tool that
    return one citation each leave the second citation only. *)
Lemma citations_counterexample :
  CrewAI.collect_citations
    (CrewAI.after_kickoff
       [CrewAI.Replied exa_answer [example_citation "https://a" "A"];
        CrewAI.Replied exa_answer [example_citation "https://b" "B"]])
  ≠ flat_map returned
      [CrewAI.Replied exa_answer [example_citation "https://a" "A"];
       CrewAI.Replied exa_answer [example_citation "https://b" "B"]].
Proof. vm_compute. discriminate. Qed.

(** ** The composed messages *)

Lemma string_app_nil_r s : s +:+ "" = s.
Proof. induction s as [|c s IH]; [done|]. rewrite app_String. by f_equal. Qed.

Lemma build_context_fold env messages context :
  fold_left
    (λ context msg,
       let role := dict_get msg "role" (VStr "user") in
       let content := dict_get msg "content" (VStr "") in
       if eq_str role "user" then
         context +:+ ("User: " +:+ py_str env content +:+ nl +:+ nl)
       else if eq_str role "assistant" then
         context +:+ ("Assistant: " +:+ py_str env content +:+ nl +:+ nl)
       else context)
    messages context
  = context +:+ foldr (λ m rest, summary_block env m +:+ rest) "" messages.
Proof.
  revert context. induction messages as [|m l IH]; intros context; simpl.
  - by rewrite string_app_nil_r.
  - rewrite IH. unfold summary_block.
    destruct (eq_str (dict_get m "role" (VStr "user")) "user");
      [by rewrite string_app_assoc|].
    destruct (eq_str (dict_get m "role" (VStr "user")) "assistant");
      [by rewrite string_app_assoc|]. done.
Qed.

Lemma build_context_summary env messages :
  _build_conversation_context env messages = summary env messages.
Proof.
  unfold _build_conversation_context, summary.
  by rewrite build_context_fold, !string_app_assoc.
Qed.

Lemma compose_submitted env prior current :
  compose_messages env (prior ++ [current]) = submitted env prior current.
Proof.
  unfold compose_messages, submitted. rewrite length_app. simpl.
  replace (length prior + 1 - 1) with (length prior) by lia.
  rewrite take_app_length, drop_app_length, build_context_summary.
  destruct prior as [|m l]; [done|]. simpl length.
  replace (1 <? S (length l) + 1)%nat with true
    by (symmetry; apply Nat.ltb_lt; lia).
  done.
Qed.

(** C6.  With both keys, the first call of the model is the first thing
    the pipe does, and it submits [submitted]: when the history without
    its system messages is the current message only, that message as it
    is; when there are prior messages, exactly the synthetic system
    message, which is the blocks [User: ...] and [Assistant: ...] of the
    prior messages in their order followed by the guidance on the tools,
    and the current message; no prior message is forwarded. *)
Theorem first_call_messages (env : Env) (valves : Valves)
    (messages : list dict) (event_emitter : bool)
    (prior : list dict) (current : dict) :
  key_set (EXA_API_KEY valves) = true →
  key_set (OPENROUTER_API_KEY valves) = true →
  non_system messages = prior ++ [current] →
  ∃ reply rest,
    trace (pipe env valves (Some messages) event_emitter)
    = EvChat (OPENROUTER_MODEL valves) (submitted env prior current) true reply
      :: rest.
Proof.
  intros Hexa Hor Hm.
  destruct (pipe_run env valves (Some messages) event_emitter Hexa Hor)
    as (result_text & st' & text & post & Hrun & _ & -> & _).
  destruct (loop_run_log _ _ _ _ _ Hrun)
    as (reply1 & evs & tail & -> & _).
  simpl. rewrite Hm, compose_submitted. by eexists _, _.
Qed.

Lemma first_call_messages_witness :
  ∃ reply rest,
    trace (pipe (example_env []) example_valves
             (Some [system_message "Be brief."; user_message "hi";
                    assistant_requests []; user_message "and now?"])
             false)
    = EvChat (OPENROUTER_MODEL example_valves)
        (submitted (example_env [])
           [user_message "hi"; assistant_requests []]
           (user_message "and now?")) true reply
      :: rest.
Proof. apply first_call_messages; reflexivity. Defined.

(** ** P4: the formatter *)

(** C7.  On citations of the data model the formatter returns, and what
    it returns is fixed by the citations: the source at position [i]
    (from 0) has the name [[i+1] title], the title being [Source i+1] when
    the citation has none; its urls are the url of the citation alone; its
    preview is the first 500 characters of the text, or the fallback when
    there is no text; its metadata has the url under [source], [author]
    and [publishedDate] when the citation has them, and no other key and no
    null under them. *)
Theorem formatter_spec (env : Env) (citations : list dict) :
  Forall (λ citation, text_ok citation = true) citations →
  ∃ sources,
    _format_citations_as_sources env (VDict <$> citations) = inr sources
    ∧ sources_of env citations sources
    ∧ ∀ sources',
        _format_citations_as_sources env (VDict <$> citations)
          = inr sources' →
        sources' = sources.
Proof.
  intros Hok. unfold _format_citations_as_sources.
  assert (Forall (λ c, well_formed c = true) (VDict <$> citations)) as Hok'.
  { by apply Forall_fmap. }
  destruct (format_from_ok env _ Hok' 0) as (sources & Hf & Hlen & Hall).
  rewrite length_fmap in Hlen.
  exists sources. split; [done|].
  split; [|intros sources' Hs; rewrite Hf in Hs; by injection Hs].
  split; [done|]. intros i citation Hi.
  destruct (Hall i (VDict citation)) as (source & Hs & Hfc).
  { by rewrite list_lookup_fmap, Hi. }
  exists source. split; [done|].
  assert (text_ok citation = true) as Hc.
  { eapply Forall_forall in Hok; [exact Hok|]. by eapply list_elem_of_lookup_2. }
  destruct (format_citation_ok env i citation Hc) as (source' & Hfc' & Hof).
  simpl in Hfc. rewrite Hfc in Hfc'. by injection Hfc' as <-.
Qed.

Lemma formatter_spec_witness :
  ∃ sources,
    _format_citations_as_sources (example_env [])
      (VDict <$>
       [example_citation "https://x" "X";
        <["text" := VStr "Coq is a proof assistant."]>
          (<["author" := VStr "Inria"]> {[ "url" := VStr "https://rocq-prover.org" ]})])
      = inr sources
    ∧ sources_of (example_env [])
        [example_citation "https://x" "X";
         <["text" := VStr "Coq is a proof assistant."]>
           (<["author" := VStr "Inria"]> {[ "url" := VStr "https://rocq-prover.org" ]})]
        sources
    ∧ ∀ sources',
        _format_citations_as_sources (example_env [])
          (VDict <$>
           [example_citation "https://x" "X";
            <["text" := VStr "Coq is a proof assistant."]>
              (<["author" := VStr "Inria"]> {[ "url" := VStr "https://rocq-prover.org" ]})])
          = inr sources' →
        sources' = sources.
Proof. apply formatter_spec. repeat constructor. Defined.

(** ** The scenarios of the specification *)

(** A: the model answers in plain text: the text is yielded as it is and
    nothing is emitted. *)
Example scenario_plain_text :
  yields (pipe (scripted_env (<["role" := VStr "assistant"]>
                              {[ "content" := VStr "Lisbon is in Portugal." ]})
                  VNone)
            example_valves (Some [user_message "where is Lisbon?"]) true)
  = ["Lisbon is in Portugal."]
  ∧ emitted_names
      (pipe (scripted_env (<["role" := VStr "assistant"]>
                           {[ "content" := VStr "Lisbon is in Portugal." ]})
               VNone)
         example_valves (Some [user_message "where is Lisbon?"]) true)
    = [].
Proof. by vm_compute. Qed.

(** B: one tool call, one citation, then the answer of the second call. *)
Example scenario_one_tool_call :
  yields (pipe (example_env [request "call_1" "exa_answer_search" query_json])
            example_valves (Some [user_message "current weather in Lisbon"])
            true)
  = ["It's sunny in Lisbon."]
  ∧ emitted_names
      (pipe (example_env [request "call_1" "exa_answer_search" query_json])
         example_valves (Some [user_message "current weather in Lisbon"])
         true)
    = [Some (VStr "[1] X")].
Proof. by vm_compute. Qed.

(** D: the second call returns the empty string and no citation was
    collected: the text is the apology. *)
Example scenario_empty_answer :
  yields (pipe (scripted_env (assistant_requests
                                [request "call_1" "translate" "{}"])
                  (VStr ""))
            example_valves (Some [user_message "current weather in Lisbon"])
            true)
  = [apology].
Proof. by vm_compute. Qed.

(** A request whose arguments are not JSON ends the run with the text of
    the error, after the citations of the request before it. *)
Example scenario_bad_arguments :
  yields (pipe (example_env [request "call_1" "exa_answer_search" query_json;
                             request "call_2" "exa_answer_search" "oops"])
            example_valves (Some [user_message "current weather in Lisbon"])
            true)
  = ["Error: Expecting value: line 1 column 1 (char 0)"]
  ∧ emitted_names
      (pipe (example_env [request "call_1" "exa_answer_search" query_json;
                          request "call_2" "exa_answer_search" "oops"])
         example_valves (Some [user_message "current weather in Lisbon"])
         true)
    = [Some (VStr "[1] X")].
Proof. by vm_compute. Qed.

(** * Further properties *)

(** ** [pop_system_message] and its fallback *)

Lemma filter_id_iff {A} (f : A → bool) (l : list A) :
  List.filter f l = l ↔ Forall (λ x, f x = true) l.
Proof.
  split.
  - intros Hl. apply Forall_forall. intros x Hx. rewrite <- Hl in Hx.
    apply list_elem_of_In, filter_In in Hx. by destruct Hx.
  - induction 1 as [|x l Hx _ IH]; simpl; [done|]. by rewrite Hx, IH.
Qed.

Lemma non_system_id_iff messages :
  non_system messages = messages
  ↔ Forall (λ m, is_system m = false) messages.
Proof.
  unfold non_system. rewrite filter_id_iff. apply Forall_proper; [|done].
  intros m. by destruct (is_system m).
Qed.

Lemma find_system_none messages :
  Forall (λ m, is_system m = false) messages →
  List.find is_system messages = None.
Proof. induction 1 as [|m l Hm _ IH]; simpl; [done|]. by rewrite Hm. Qed.

(** X1.  The fallback that the two pipes define for [pop_system_message]
    returns what the function of [open_webui/utils/misc.py] returns exactly
    on the histories that have no system message after their first
    message: on any other history it leaves system messages among the
    remaining messages, or misses the system message. *)
Theorem fallback_agrees_iff (messages : list dict) :
  pop_system_message_fallback messages = pop_system_message messages
  ↔ Forall (λ m, is_system m = false) (tail messages).
Proof.
  rewrite pop_system_message_eq. destruct messages as [|m rest]; simpl.
  { split; [constructor|done]. }
  unfold non_system. simpl. destruct (is_system m) eqn:Hm; simpl.
  - rewrite <- non_system_id_iff. unfold non_system.
    split; [intros [= Heq]; by symmetry|by intros ->].
  - split.
    + intros [= _ Heq]. by apply non_system_id_iff.
    + intros Hrest. rewrite (find_system_none _ Hrest).
      apply non_system_id_iff in Hrest. unfold non_system in Hrest.
      by rewrite Hrest.
Qed.

Lemma non_system_length messages :
  length (non_system messages) + length (List.filter is_system messages)
  = length messages.
Proof.
  unfold non_system. induction messages as [|m l IH]; simpl; [done|].
  destruct (is_system m); simpl; lia.
Qed.

(** X2.  [pop_system_message] splits the history: the remaining messages
    and the system messages are as many as the messages; it returns no
    system message exactly when it removed nothing; and popping the
    remaining messages again finds no system message and removes
    nothing. *)
Theorem pop_system_message_splits (messages : list dict) :
  length (pop_system_message messages).2
    + length (List.filter is_system messages) = length messages
  ∧ ((pop_system_message messages).1 = None
     ↔ (pop_system_message messages).2 = messages)
  ∧ pop_system_message (pop_system_message messages).2
    = (None, (pop_system_message messages).2).
Proof.
  rewrite !pop_system_message_eq. simpl. split_and!.
  - apply non_system_length.
  - rewrite non_system_id_iff. split.
    + intros Hnone. apply Forall_forall. intros m Hm.
      apply list_elem_of_In in Hm.
      by apply (find_none _ _ Hnone) in Hm.
    + apply find_system_none.
  - rewrite non_system_idemp. f_equal. apply find_system_none.
    apply non_system_id_iff, non_system_idemp.
Qed.

(** ** The composer *)

Lemma summary_block_other env m : is_turn m = false → summary_block env m = "".
Proof.
  unfold is_turn, summary_block. intros [-> ->]%orb_false_iff. done.
Qed.

Lemma blocks_filter env messages :
  foldr (λ m rest, summary_block env m +:+ rest) "" (List.filter is_turn messages)
  = foldr (λ m rest, summary_block env m +:+ rest) "" messages.
Proof.
  induction messages as [|m l IH]; simpl; [done|].
  destruct (is_turn m) eqn:Hm; simpl; [by rewrite IH|].
  by rewrite IH, (summary_block_other env m Hm).
Qed.

(** X3.  The summary of the conversation is made of the messages of the
    user (a message without a role counts as one) and of the assistant
    only: messages of any other role (tool, system, function) leave no
    trace in it, and the summary of a history continues the summary of any
    of its beginnings. *)
Theorem context_ignores_other_roles (env : Env) (messages more : list dict) :
  _build_conversation_context env messages
    = _build_conversation_context env (List.filter is_turn messages)
  ∧ _build_conversation_context env (messages ++ more)
    = _build_conversation_context env messages
      +:+ foldr (λ m rest, summary_block env m +:+ rest) "" more.
Proof.
  rewrite !build_context_summary. unfold summary. split.
  - by rewrite blocks_filter.
  - rewrite foldr_app, !string_app_assoc. do 4 f_equal.
    induction messages as [|m l IH]; simpl; [done|].
    by rewrite IH, string_app_assoc.
Qed.

(** X4.  Composition sends at most two messages to the model: the
    history without system messages as it is when it has at most one
    message, and otherwise a system message followed by the last message of
    the history, which is always kept. *)
Theorem compose_bounds (env : Env) (messages : list dict) :
  length (compose_messages env messages) = length messages `min` 2
  ∧ last (compose_messages env messages) = last messages
  ∧ (2 ≤ length messages →
     ∃ m current,
       compose_messages env messages = [m; current]
       ∧ is_system m = true ∧ last messages = Some current).
Proof.
  destruct (decide (messages = [])) as [->|Hne]; [by split_and!; [..|simpl; lia]|].
  destruct (exists_last Hne) as (prior & current & ->).
  rewrite compose_submitted, last_snoc, length_app. simpl.
  destruct prior as [|p prior]; simpl.
  - split_and!; [done..|lia].
  - split_and!; [lia|done|]. intros _. by eexists _, _.
Qed.

(** ** One request of a declared tool *)

Lemma dispatch_declared env valves t function_args query st :
  key_set (EXA_API_KEY valves) = true →
  getitem function_args "query" = inr query →
  dispatch env valves (VStr (tool_name t)) function_args st
  = (match iterate (search env (st_log st) t query).2 with
     | inr _ => inr (search env (st_log st) t query).1
     | inl e => inl e
     end, invoked env st t query).
Proof.
  intros Hkey Hq.
  unfold dispatch, run_tool, bind, lift, invoke, extend_citations, ret,
    invoked, items_of.
  destruct t; simpl; rewrite Hkey, Hq; simpl;
    destruct (iterate _) as [e|items]; simpl; by rewrite ?app_nil_r.
Qed.

(** X5.  With the Exa key, a request that names a declared tool and whose
    arguments decode to an object with a [query] invokes that tool, and no
    other, once, with that query.  When the citations the tool returns can
    be iterated, their items are added after the citations accumulated so
    far and the reply appended carries the id of the request and, as its
    content, what the tool returned as its answer.  When they cannot ([null]
    in the reply of Exa), [all_citations.extend] raises: nothing is added,
    no reply is appended and the exception leaves the loop. *)
Theorem declared_request_served (env : Env) (valves : Valves) (st : State)
    (item id : value) (raw : string) (function_args query : value)
    (t : tool) :
  request_parts item = Some (id, VStr (tool_name t), raw) →
  json_loads env raw = inr function_args →
  getitem function_args "query" = inr query →
  key_set (EXA_API_KEY valves) = true →
  handle_tool_call env valves item st
    = match iterate (search env (st_log st) t query).2 with
      | inr _ =>
          (inr (),
           with_reply (invoked env st t query)
             (tool_message id (search env (st_log st) t query).1))
      | inl e => (inl e, invoked env st t query)
      end
  ∧ ∀ rest e,
      iterate (search env (st_log st) t query).2 = inl e →
      for_each (item :: rest) (handle_tool_call env valves) st
      = (inl e, invoked env st t query).
Proof.
  intros Hparts Hjson Hq Hkey.
  assert (handle_tool_call env valves item st
          = match iterate (search env (st_log st) t query).2 with
            | inr _ =>
                (inr (),
                 with_reply (invoked env st t query)
                   (tool_message id (search env (st_log st) t query).1))
            | inl e => (inl e, invoked env st t query)
            end) as Hstep.
  { rewrite (handle_request _ _ _ _ _ _ _ Hparts), Hjson.
    rewrite (dispatch_declared _ _ _ _ query) by done.
    by destruct (iterate (search env (st_log st) t query).2). }
  split; [done|]. intros rest e He. simpl. unfold bind.
  by rewrite Hstep, He.
Qed.

(** An answer search that returns one citation, from a state that holds
    one already: the new citation comes second. *)
Lemma declared_request_served_witness :
  handle_tool_call (example_env []) example_valves
    (request "call_1" "exa_answer_search" query_json)
    {| st_messages := [];
       st_citations := [VDict (example_citation "https://a" "A")];
       st_log := [] |}
    = (inr (),
       {| st_messages := [tool_message (VStr "call_1") (VStr "It is sunny.")];
          st_citations := [VDict (example_citation "https://a" "A");
                           VDict (example_citation "https://x" "X")];
          st_log := [EvTool exa_answer (VStr "rocq") (VStr "It is sunny.")
                       (VList [VDict (example_citation "https://x" "X")])] |})
  ∧ ∀ rest e,
      iterate (search (example_env []) [] exa_answer (VStr "rocq")).2 = inl e →
      for_each (request "call_1" "exa_answer_search" query_json :: rest)
        (handle_tool_call (example_env []) example_valves)
        {| st_messages := [];
           st_citations := [VDict (example_citation "https://a" "A")];
           st_log := [] |}
      = (inl e,
         invoked (example_env [])
           {| st_messages := [];
              st_citations := [VDict (example_citation "https://a" "A")];
              st_log := [] |} exa_answer (VStr "rocq")).
Proof.
  exact (declared_request_served (example_env []) example_valves
           {| st_messages := [];
              st_citations := [VDict (example_citation "https://a" "A")];
              st_log := [] |}
           (request "call_1" "exa_answer_search" query_json) (VStr "call_1")
           query_json (VDict {[ "query" := VStr "rocq" ]}) (VStr "rocq")
           exa_answer eq_refl eq_refl eq_refl eq_refl).
Defined.

(** X6.  A request without an [id] whose tool is a declared one is served
    before it fails: the tool is invoked and its citations are
    accumulated, then building the reply raises [KeyError] on [id], so no
    reply is appended and the exception leaves the loop.  (When the
    citations cannot be iterated the loop is left earlier, by the
    exception of [all_citations.extend].) *)
Theorem request_without_id (env : Env) (valves : Valves) (st : State)
    (d f : dict) (raw : string) (function_args query : value) (t : tool) :
  d !! "id" = None →
  d !! "function" = Some (VDict f) →
  f !! "name" = Some (VStr (tool_name t)) →
  f !! "arguments" = Some (VStr raw) →
  json_loads env raw = inr function_args →
  getitem function_args "query" = inr query →
  key_set (EXA_API_KEY valves) = true →
  handle_tool_call env valves (VDict d) st
    = (inl (match iterate (search env (st_log st) t query).2 with
            | inr _ => KeyError "id"
            | inl e => e
            end), invoked env st t query)
  ∧ ∀ rest,
      for_each (VDict d :: rest) (handle_tool_call env valves) st
      = (inl (match iterate (search env (st_log st) t query).2 with
              | inr _ => KeyError "id"
              | inl e => e
              end), invoked env st t query).
Proof.
  intros Hid Hf Hname Hraw Hjson Hq Hkey.
  assert (handle_tool_call env valves (VDict d) st
          = (inl (match iterate (search env (st_log st) t query).2 with
                  | inr _ => KeyError "id"
                  | inl e => e
                  end), invoked env st t query)) as Hstep.
  { unfold handle_tool_call, bind at 1 2 3 4 5, lift. simpl.
    rewrite Hf. simpl. rewrite Hname, Hraw. simpl. rewrite Hjson.
    unfold bind at 1. rewrite (dispatch_declared _ _ _ _ query) by done.
    destruct (iterate (search env (st_log st) t query).2); [done|].
    unfold bind. simpl. by rewrite Hid. }
  split; [done|]. intros rest. simpl. unfold bind. by rewrite Hstep.
Qed.

Lemma request_without_id_witness :
  handle_tool_call (example_env []) example_valves
    (VDict {[ "function" :=
                VDict (<["name" := VStr "exa_answer_search"]>
                       {[ "arguments" := VStr query_json ]}) ]}) init_state
    = (inl (KeyError "id"),
       invoked (example_env []) init_state exa_answer (VStr "rocq"))
  ∧ ∀ rest,
      for_each (VDict {[ "function" :=
                           VDict (<["name" := VStr "exa_answer_search"]>
                                  {[ "arguments" := VStr query_json ]}) ]}
                :: rest)
        (handle_tool_call (example_env []) example_valves) init_state
      = (inl (KeyError "id"),
         invoked (example_env []) init_state exa_answer (VStr "rocq")).
Proof.
  exact (request_without_id (example_env []) example_valves init_state
           {[ "function" :=
                VDict (<["name" := VStr "exa_answer_search"]>
                       {[ "arguments" := VStr query_json ]}) ]}
           (<["name" := VStr "exa_answer_search"]>
            {[ "arguments" := VStr query_json ]})
           query_json (VDict {[ "query" := VStr "rocq" ]}) (VStr "rocq")
           exa_answer eq_refl eq_refl eq_refl eq_refl eq_refl eq_refl eq_refl).
Defined.

(** ** What the loop keeps *)

Local Ltac no_event :=
  exists []; simpl; split; [by rewrite app_nil_r|constructor].

Lemma search_failed_no_citation env e : (search_failed env e).2 = VList [].
Proof. by destruct e. Qed.

Lemma context_search_no_citation env log query :
  (exa_context_search env log query).2 = VList [].
Proof.
  unfold exa_context_search.
  destruct (exa env log exa_context query) as [e|data];
    [apply search_failed_no_citation|].
  destruct (py_get data "response" (VStr "No context provided.")) as [e|r];
    [apply search_failed_no_citation|].
  destruct (py_get data "resultsCount" (VInt 0)) as [e|n];
    [apply search_failed_no_citation|done].
Qed.

Lemma run_tool_silent env valves t function_args st res st' :
  run_tool env valves t function_args st = (res, st') →
  ∃ evs, st_log st' = st_log st ++ evs ∧ Forall context_silent evs.
Proof.
  unfold run_tool, extend_citations.
  destruct (key_set (EXA_API_KEY valves)); simpl.
  - unfold bind, lift. destruct (getitem function_args "query") as [e|q]; simpl.
    + intros [= <- <-]. no_event.
    + destruct (iterate (search env (st_log st) t q).2) as [e|items];
        intros [= <- <-]; (eexists [_]; split; [done|]);
        apply Forall_singleton; destruct t; simpl; trivial;
        apply context_search_no_citation.
  - unfold bind, lift. simpl. intros [= <- <-]. no_event.
Qed.

Lemma handle_tool_call_silent env valves item st res st' :
  handle_tool_call env valves item st = (res, st') →
  ∃ evs, st_log st' = st_log st ++ evs ∧ Forall context_silent evs.
Proof.
  assert (∀ e, (inl e, st) = (res, st') →
            ∃ evs, st_log st' = st_log st ++ evs ∧ Forall context_silent evs)
    as Hsame.
  { intros e [= <- <-]. no_event. }
  unfold handle_tool_call, bind, lift.
  destruct (getitem item "function") as [e|fn]; [apply Hsame|].
  destruct (getitem fn "name") as [e|function_name]; [apply Hsame|].
  destruct (getitem fn "arguments") as [e|raw]; [apply Hsame|].
  destruct (py_json_loads env raw) as [e|function_args]; [apply Hsame|].
  clear Hsame.
  destruct (dispatch env valves function_name function_args st)
    as [r st1] eqn:Hd.
  assert (∃ evs, st_log st1 = st_log st ++ evs ∧ Forall context_silent evs)
    as (evs & Hlog & Hevs).
  { revert Hd. unfold dispatch.
    destruct (eq_str function_name "exa_answer_search");
      [apply run_tool_silent|].
    destruct (eq_str function_name "exa_context_search");
      [apply run_tool_silent|].
    intros [= <- <-]. no_event. }
  destruct r as [e|result]; [intros [= <- <-]; by exists evs|].
  destruct (getitem item "id") as [e|id]; simpl;
    intros [= <- <-]; by exists evs.
Qed.

Lemma for_each_silent env valves items st res st' :
  for_each items (handle_tool_call env valves) st = (res, st') →
  ∃ evs, st_log st' = st_log st ++ evs ∧ Forall context_silent evs.
Proof.
  revert st. induction items as [|item items IH]; intros st; simpl.
  - intros [= <- <-]. no_event.
  - unfold bind.
    destruct (handle_tool_call env valves item st) as [[e|[]] st1] eqn:Hh;
      destruct (handle_tool_call_silent _ _ _ _ _ _ Hh) as (evs1 & Hlog1 & H1).
    + intros [= <- <-]. by exists evs1.
    + intros Hrest. destruct (IH _ Hrest) as (evs2 & Hlog2 & H2).
      exists (evs1 ++ evs2). rewrite Hlog2, Hlog1, <- app_assoc.
      split; [done|]. by apply Forall_app.
Qed.

Lemma call_silent env valves st :
  ∃ evs,
    st_log (_call_openrouter_with_tools env valves st).2 = st_log st ++ evs
    ∧ Forall context_silent evs.
Proof.
  rewrite call_unfold. simpl.
  destruct (openrouter env (st_log st) (OPENROUTER_MODEL valves)
              (st_messages st) true) as [e|message].
  { eexists [_]. split; [done|]. by apply Forall_singleton. }
  destruct (truthy (dict_get message "tool_calls" (VList []))); simpl.
  2: { eexists [_]. split; [done|]. by apply Forall_singleton. }
  destruct (iterate (dict_get message "tool_calls" (VList []))) as [e|items].
  { eexists [_]. split; [done|]. by apply Forall_singleton. }
  destruct (for_each items (handle_tool_call env valves) _)
    as [res st3] eqn:Hloop.
  destruct (for_each_silent _ _ _ _ _ _ Hloop) as (evs & Hlog & Hevs).
  simpl in Hlog.
  destruct res as [e|[]]; simpl.
  - eexists (_ :: evs). rewrite Hlog, <- app_assoc. split; [done|].
    by constructor.
  - eexists (_ :: evs ++ [_]). rewrite Hlog, <- !app_assoc. split; [done|].
    constructor; [done|]. apply Forall_app. split; [done|].
    by apply Forall_singleton.
Qed.

Lemma answer_citations_silent evs :
  Forall context_silent evs → tool_citations evs = answer_citations evs.
Proof.
  unfold tool_citations, answer_citations.
  induction 1 as [|ev evs Hev _ IH]; simpl; [done|]. rewrite IH.
  destruct ev as [| [] | |]; simpl in *; by subst.
Qed.

(** X7.  The citations of a run come from the answer search only: the
    context search returns no citation on any of its paths, so the
    citations the loop returns are those it was given followed by the
    citation lists of its invocations of the answer search, in order. *)
Theorem citations_from_answer_search (env : Env) (valves : Valves)
    (st : State) :
  ∃ text st' evs,
    _call_openrouter_with_tools env valves st = (inr text, st')
    ∧ st_log st' = st_log st ++ evs
    ∧ Forall context_silent evs
    ∧ st_citations st' = st_citations st ++ answer_citations evs.
Proof.
  destruct (call_runs env valves st) as (text & st' & Hcall & Hrun).
  destruct (loop_run_log _ _ _ _ _ Hrun)
    as (reply1 & evs & tail & Hlog & Htool & Hcit & Htail).
  destruct (call_silent env valves st) as (evs' & Hlog' & Hsilent).
  rewrite Hcall in Hlog'. simpl in Hlog'. rewrite Hlog in Hlog'.
  apply app_inv_head in Hlog'. subst evs'.
  exists text, st', (EvChat (OPENROUTER_MODEL valves) (st_messages st) true
                       reply1 :: evs ++ tail).
  split_and!; [done..|].
  rewrite <- (answer_citations_silent _ Hsilent), Hcit. f_equal.
  change (tool_citations (EvChat (OPENROUTER_MODEL valves) (st_messages st)
            true reply1 :: evs ++ tail)) with (tool_citations (evs ++ tail)).
  rewrite tool_citations_app.
  destruct Htail as [->|(reply2 & -> & _)]; simpl; by rewrite app_nil_r.
Qed.

(** X8.  The loop only appends: the messages, the citations and the
    events it leaves begin with those it was given, unchanged. *)
Theorem loop_appends_only (env : Env) (valves : Valves) (st : State) :
  st_messages st `prefix_of`
    st_messages (_call_openrouter_with_tools env valves st).2
  ∧ st_citations st `prefix_of`
      st_citations (_call_openrouter_with_tools env valves st).2
  ∧ st_log st `prefix_of`
      st_log (_call_openrouter_with_tools env valves st).2.
Proof.
  destruct (call_runs env valves st) as (text & st' & -> & Hrun). simpl.
  inversion Hrun as
    [e Hreply|message Hreply Htc|message evs replies e st3 Hreply Htc Hlog
       Htool Hcit Hmsg|message items evs replies st3 r2 Hreply Htc Hitems
       Hlog Htool Hcit Hmsg Hreplies Hreply2]; subst; simpl.
  - split_and!; [done..|by eexists].
  - split_and!; [done..|by eexists].
  - rewrite Hmsg, Hcit, Hlog. split_and!; by eexists.
  - rewrite Hmsg, Hcit, Hlog, <- app_assoc. split_and!; by eexists.
Qed.

(** ** The events of a run of [pipe] *)

Lemma format_from_length env citations :
  ∀ i sources,
    format_from env i citations = inr sources →
    length sources = length citations.
Proof.
  induction citations as [|c citations IH]; intros i sources; simpl.
  - by intros [= <-].
  - destruct (format_item env i c) as [e|source]; [done|].
    destruct (format_from env (S i) citations) as [e|rest] eqn:Hrest; [done|].
    intros [= <-]. simpl. f_equal. by eapply IH.
Qed.

Lemma emit_events env valves citations event_emitter st :
  ∃ st',
    try_except (_emit_sources env valves citations event_emitter)
      (pipe_handler env) st = (inr (), st')
    ∧ st_log st' = st_log st ++ emission env valves citations event_emitter.
Proof.
  unfold try_except, _emit_sources, emission.
  destruct (negb (bool_decide (citations = [])) && EMIT_SOURCES valves
            && event_emitter).
  2: { exists st. by rewrite app_nil_r. }
  unfold bind, lift.
  destruct (_format_citations_as_sources env citations) as [e|[|s sources]].
  - by eexists.
  - exists st. by rewrite app_nil_r.
  - by eexists.
Qed.

Lemma emission_nil env valves event_emitter :
  emission env valves [] event_emitter = [].
Proof. done. Qed.

Lemma emission_cases env valves citations event_emitter :
  emission env valves citations event_emitter = []
  ∨ (∃ text, emission env valves citations event_emitter = [EvYield text])
  ∨ ∃ sources,
      emission env valves citations event_emitter = [EvEmit sources]
      ∧ EMIT_SOURCES valves = true ∧ event_emitter = true
      ∧ sources ≠ []
      ∧ _format_citations_as_sources env citations = inr sources.
Proof.
  unfold emission.
  destruct (bool_decide (citations = [])); simpl; [by left|].
  destruct (EMIT_SOURCES valves); simpl; [|by left].
  destruct event_emitter; simpl; [|by left].
  destruct (_format_citations_as_sources env citations) as [e|[|s sources]].
  - right; left. by eexists.
  - by left.
  - right; right. by eexists.
Qed.

Lemma deliver_events env valves event_emitter result_text citations st :
  ∃ text post st',
    try_except (deliver env valves event_emitter result_text citations)
      (pipe_handler env) st = (inr (), st')
    ∧ st_log st' = st_log st ++ EvYield text :: post
    ∧ (post = [] ∨ post = emission env valves citations event_emitter)
    ∧ (∀ s, result_text = VStr s →
         text = final_text s citations
         ∧ post = emission env valves citations event_emitter)
    ∧ (∀ e, py_len result_text = inl e →
         text = "Error: " +:+ str_exn env e ∧ post = []).
Proof.
  assert (∀ e,
            try_except (deliver env valves event_emitter result_text citations)
              (pipe_handler env) st = pipe_handler env e st →
            (∀ s, result_text ≠ VStr s) →
            (∀ e', py_len result_text = inl e' → e' = e) →
            ∃ text post st',
              try_except (deliver env valves event_emitter result_text citations)
                (pipe_handler env) st = (inr (), st')
              ∧ st_log st' = st_log st ++ EvYield text :: post
              ∧ (post = [] ∨ post = emission env valves citations event_emitter)
              ∧ (∀ s, result_text = VStr s →
                   text = final_text s citations
                   ∧ post = emission env valves citations event_emitter)
              ∧ (∀ e, py_len result_text = inl e →
                   text = "Error: " +:+ str_exn env e ∧ post = []))
    as Herr.
  { intros e Heq Hno Hlen. rewrite Heq.
    eexists ("Error: " +:+ str_exn env e), [], _.
    split_and!; [reflexivity|done|by left| |].
    - intros s Hs. by destruct (Hno s).
    - intros e' He'. by rewrite (Hlen e' He'). }
  assert (∀ s,
            ∃ st',
              try_except
                (bind (record (EvYield s))
                   (λ _, if negb (bool_decide (citations = []))
                         then _emit_sources env valves citations event_emitter
                         else ret ()))
                (pipe_handler env) st = (inr (), st')
              ∧ st_log st'
                = st_log st
                  ++ EvYield s :: emission env valves citations event_emitter)
    as Hyield.
  { intros s. unfold try_except, bind, record.
    set (st1 := {| st_messages := st_messages st;
                   st_citations := st_citations st;
                   st_log := st_log st ++ [EvYield s] |}).
    destruct (bool_decide (citations = [])) eqn:Hnil; simpl.
    - apply bool_decide_eq_true in Hnil as ->. exists st1.
      by rewrite emission_nil.
    - destruct (emit_events env valves citations event_emitter st1)
        as (st' & Hrun & Hlog).
      unfold try_except in Hrun.
      destruct (_emit_sources env valves citations event_emitter st1)
        as [[e|[]] st2]; simpl in *.
      + exists st'. split; [done|]. by rewrite Hlog, <- app_assoc.
      + simplify_eq. exists st'. split; [done|].
        by rewrite Hlog, <- app_assoc. }
  destruct result_text as [| b | n | s | l | d].
  - apply (Herr (TypeError "len" VNone)); [done|done|]. by intros e' [= <-].
  - apply (Herr (TypeError "len" (VBool b))); [done|done|].
    by intros e' [= <-].
  - apply (Herr (TypeError "len" (VInt n))); [done|done|].
    by intros e' [= <-].
  - clear Herr. unfold deliver. unfold bind at 1 2 3, lift. simpl py_len.
    simpl slice_to. rewrite is_blank_str.
    destruct (Hyield (final_text s citations)) as (st' & Hrun & Hlog).
    exists (final_text s citations),
      (emission env valves citations event_emitter), st'.
    split_and!; try done.
    + rewrite <- Hrun. unfold final_text, try_except, bind, lift.
      destruct (whitespace_only s); [|done].
      by destruct (bool_decide (citations = [])).
    + by right.
    + by intros s' [= <-].
  - destruct l as [|x l].
    + clear Herr. unfold deliver. unfold bind at 1 2 3, lift. simpl.
      destruct (Hyield (final_text "" citations)) as (st' & Hrun & Hlog).
      exists (final_text "" citations),
        (emission env valves citations event_emitter), st'.
      split_and!; try done.
      * rewrite <- Hrun. unfold final_text, try_except, bind, lift. simpl.
        by destruct (bool_decide (citations = [])).
      * by right.
    + by apply (Herr (AttributeError (VList (x :: l)) "strip")).
  - by apply (Herr (TypeError "slice" (VDict d))).
Qed.

Lemma loop_log_events env valves st text st' :
  loop_run env valves st text st' →
  ∃ evs,
    st_log st' = st_log st ++ evs
    ∧ Forall (λ ev, is_chat ev = true ∨ is_tool ev = true) evs
    ∧ st_citations st' = st_citations st ++ tool_citations evs.
Proof.
  intros Hrun.
  destruct (loop_run_log _ _ _ _ _ Hrun)
    as (reply1 & evs & tail & Hlog & Htool & Hcit & Htail).
  exists (EvChat (OPENROUTER_MODEL valves) (st_messages st) true reply1
          :: evs ++ tail).
  split; [done|]. split.
  - constructor; [by left|]. apply Forall_app. split.
    + eapply Forall_impl; [exact Htool|]. by right.
    + destruct Htail as [->|(reply2 & -> & _)]; [constructor|].
      apply Forall_singleton. by left.
  - rewrite Hcit. f_equal.
    change (tool_citations (EvChat (OPENROUTER_MODEL valves) (st_messages st)
              true reply1 :: evs ++ tail))
      with (tool_citations (evs ++ tail)).
    rewrite tool_citations_app.
    destruct Htail as [->|(reply2 & -> & _)]; simpl; by rewrite app_nil_r.
Qed.

Lemma emission_no_tool env valves citations event_emitter :
  tool_citations (emission env valves citations event_emitter) = [].
Proof.
  destruct (emission_cases env valves citations event_emitter)
    as [->|[(text & ->)|(sources & -> & _)]]; done.
Qed.

(** A run of [pipe] with both keys: the events of the loop, the text, and
    what the emitter leaves. *)
Lemma pipe_trace env valves body_messages event_emitter :
  key_set (EXA_API_KEY valves) = true →
  key_set (OPENROUTER_API_KEY valves) = true →
  ∃ result_text st' text post,
    loop_run env valves (first_state env body_messages) result_text st'
    ∧ raised (pipe env valves body_messages event_emitter) = None
    ∧ trace (pipe env valves body_messages event_emitter)
      = st_log st' ++ EvYield text :: post
    ∧ Forall (λ ev, is_chat ev = true ∨ is_tool ev = true) (st_log st')
    ∧ tool_citations (trace (pipe env valves body_messages event_emitter))
      = st_citations st'
    ∧ (post = []
       ∨ post = emission env valves (st_citations st') event_emitter)
    ∧ (∀ s, result_text = VStr s →
         text = final_text s (st_citations st')
         ∧ post = emission env valves (st_citations st') event_emitter)
    ∧ (∀ e, py_len result_text = inl e →
         text = "Error: " +:+ str_exn env e ∧ post = []).
Proof.
  intros Hexa Hor. unfold pipe. rewrite Hexa, Hor. simpl.
  unfold pipe_body. rewrite pop_system_message_eq.
  destruct (call_runs env valves (first_state env body_messages))
    as (result_text & st' & Hcall & Hrun).
  destruct (deliver_events env valves event_emitter result_text
              (st_citations st') st')
    as (text & post & st'' & Hdeliver & Hlog & Hpost & Hstr & Hlen).
  exists result_text, st', text, post.
  assert (try_except
            (bind (start (compose_messages env
                            (non_system (default [] body_messages))))
               (λ _, bind (_call_openrouter_with_tools env valves)
                       (λ result_text,
                          bind get_citations
                            (λ citations,
                               deliver env valves event_emitter result_text
                                 citations))))
            (pipe_handler env) init_state = (inr (), st'')) as ->.
  { rewrite <- Hdeliver. unfold try_except, bind at 1 2 3, start. simpl.
    fold (first_state env body_messages). rewrite Hcall. done. }
  destruct (loop_log_events _ _ _ _ _ Hrun) as (evs & Hevs & Hkinds & Hcit).
  simpl in Hevs, Hcit. simpl.
  split_and!; try done.
  - by rewrite Hevs.
  - rewrite Hlog, tool_citations_app, Hevs, Hcit.
    change (tool_citations (EvYield text :: post)) with (tool_citations post).
    destruct Hpost as [->| ->]; [|rewrite emission_no_tool];
      simpl; by rewrite app_nil_r.
Qed.

Lemma pipe_emission env valves body_messages event_emitter sources :
  EvEmit sources ∈ trace (pipe env valves body_messages event_emitter) →
  ∃ pre text,
    trace (pipe env valves body_messages event_emitter)
    = pre ++ [EvYield text; EvEmit sources]
    ∧ Forall (λ ev, is_chat ev = true ∨ is_tool ev = true) pre
    ∧ EMIT_SOURCES valves = true ∧ event_emitter = true
    ∧ sources ≠ []
    ∧ _format_citations_as_sources env
        (tool_citations (trace (pipe env valves body_messages event_emitter)))
      = inr sources.
Proof.
  destruct (key_set (EXA_API_KEY valves)) eqn:Hexa;
    [|unfold pipe; rewrite Hexa; simpl; by intros ?%elem_of_nil].
  destruct (key_set (OPENROUTER_API_KEY valves)) eqn:Hor;
    [|unfold pipe; rewrite Hexa, Hor; simpl; by intros ?%elem_of_nil].
  destruct (pipe_trace env valves body_messages event_emitter Hexa Hor)
    as (result_text & st' & text & post & Hrun & _ & Htrace & Hkinds & Hcit
        & Hpost & _).
  rewrite Hcit, Htrace. intros Hin.
  apply elem_of_app in Hin as [Hin|Hin].
  { eapply Forall_forall in Hkinds; [|exact Hin]. by destruct Hkinds. }
  apply elem_of_cons in Hin as [?|Hin]; [done|].
  destruct Hpost as [->| ->]; [by apply elem_of_nil in Hin|].
  destruct (emission_cases env valves (st_citations st') event_emitter)
    as [Hem|[(text' & Hem)|(sources' & Hem & Hflag & Hemitter & Hne & Hfmt)]];
    rewrite Hem in Hin |- *.
  - by apply elem_of_nil in Hin.
  - by apply list_elem_of_singleton in Hin.
  - apply list_elem_of_singleton in Hin as [= ->].
    exists (st_log st'), text. by split_and!.
Qed.

Lemma loop_first_failure env valves st text st' e :
  openrouter env (st_log st) (OPENROUTER_MODEL valves) (st_messages st) true
    = inl e →
  loop_run env valves st text st' →
  text = VStr (error_text env e)
  ∧ st' = logged st (EvChat (OPENROUTER_MODEL valves) (st_messages st) true
                       (inl e)).
Proof.
  intros Hfail Hrun.
  inversion Hrun as
    [e' Hreply|message Hreply Htc|message evs replies e' st3 Hreply Htc Hlog
       Htool Hcit Hmsg|message items evs replies st3 r2 Hreply Htc Hitems
       Hlog Htool Hcit Hmsg Hreplies Hreply2]; subst;
    rewrite Hfail in Hreply; try done.
  by injection Hreply as <-.
Qed.

Lemma error_text_kept env e :
  final_text (error_text env e) [] = error_text env e.
Proof. by destruct e. Qed.

(** X9.  With both keys, when the first call of the model fails, the run
    is that call followed by one text, the error text of the failure:
    nothing is raised to the caller, no tool is invoked and nothing is
    emitted. *)
Theorem first_call_failure (env : Env) (valves : Valves)
    (body_messages : option (list dict)) (event_emitter : bool) (e : exn) :
  key_set (EXA_API_KEY valves) = true →
  key_set (OPENROUTER_API_KEY valves) = true →
  openrouter env [] (OPENROUTER_MODEL valves)
    (compose_messages env (non_system (default [] body_messages))) true
    = inl e →
  raised (pipe env valves body_messages event_emitter) = None
  ∧ trace (pipe env valves body_messages event_emitter)
    = [EvChat (OPENROUTER_MODEL valves)
         (compose_messages env (non_system (default [] body_messages))) true
         (inl e);
       EvYield (error_text env e)].
Proof.
  intros Hexa Hor Hfail.
  destruct (pipe_trace env valves body_messages event_emitter Hexa Hor)
    as (result_text & st' & text & post & Hrun & Hraised & -> & _ & _ & _
        & Hstr & _).
  split; [done|].
  destruct (loop_first_failure env valves (first_state env body_messages)
              _ _ e Hfail Hrun) as [-> ->].
  destruct (Hstr _ eq_refl) as [-> ->]. simpl.
  by rewrite error_text_kept.
Qed.

Lemma first_call_failure_witness :
  raised (pipe (failing_env (HTTPStatusError 429 "busy")) example_valves
            (Some [user_message "weather?"]) true) = None
  ∧ trace (pipe (failing_env (HTTPStatusError 429 "busy")) example_valves
             (Some [user_message "weather?"]) true)
    = [EvChat (OPENROUTER_MODEL example_valves)
         (compose_messages (failing_env (HTTPStatusError 429 "busy"))
            (non_system (default [] (Some [user_message "weather?"])))) true
         (inl (HTTPStatusError 429 "busy"));
       EvYield (error_text (failing_env (HTTPStatusError 429 "busy"))
                  (HTTPStatusError 429 "busy"))].
Proof.
  exact (first_call_failure (failing_env (HTTPStatusError 429 "busy"))
           example_valves (Some [user_message "weather?"]) true
           (HTTPStatusError 429 "busy") eq_refl eq_refl eq_refl).
Defined.

(** X10.  With both keys, when the first reply of the model asks for no
    tool and its content is a string, the run is that call followed by one
    text: the content itself or, when it is empty or made of whitespace,
    the apology.  There is no second call and nothing is emitted. *)
Theorem plain_answer (env : Env) (valves : Valves)
    (body_messages : option (list dict)) (event_emitter : bool)
    (message : dict) (s : string) :
  key_set (EXA_API_KEY valves) = true →
  key_set (OPENROUTER_API_KEY valves) = true →
  openrouter env [] (OPENROUTER_MODEL valves)
    (compose_messages env (non_system (default [] body_messages))) true
    = inr message →
  truthy (dict_get message "tool_calls" (VList [])) = false →
  dict_get message "content" (VStr "") = VStr s →
  raised (pipe env valves body_messages event_emitter) = None
  ∧ trace (pipe env valves body_messages event_emitter)
    = [EvChat (OPENROUTER_MODEL valves)
         (compose_messages env (non_system (default [] body_messages))) true
         (inr message);
       EvYield (if whitespace_only s then apology else s)].
Proof.
  intros Hexa Hor Hfirst Hno Hcontent.
  destruct (pipe_trace env valves body_messages event_emitter Hexa Hor)
    as (result_text & st' & text & post & Hrun & Hraised & -> & _ & _ & _
        & Hstr & _).
  split; [done|].
  inversion Hrun as
    [e' Hreply|message' Hreply Htc|message' evs replies e' st3 Hreply Htc Hlog
       Htool Hcit Hmsg|message' items evs replies st3 r2 Hreply Htc Hitems
       Hlog Htool Hcit Hmsg Hreplies Hreply2]; subst; simpl in *;
    rewrite Hfirst in Hreply; try done;
    injection Hreply as <-; try (rewrite Hno in Htc; done).
  destruct (Hstr _ Hcontent) as [-> ->]. simpl.
  unfold final_text. by destruct (whitespace_only s).
Qed.

Lemma plain_answer_witness :
  raised (pipe (scripted_env {[ "content" := VStr "Hello." ]} VNone)
            example_valves (Some [user_message "hi"]) false) = None
  ∧ trace (pipe (scripted_env {[ "content" := VStr "Hello." ]} VNone)
             example_valves (Some [user_message "hi"]) false)
    = [EvChat (OPENROUTER_MODEL example_valves)
         (compose_messages (scripted_env {[ "content" := VStr "Hello." ]} VNone)
            (non_system (default [] (Some [user_message "hi"])))) true
         (inr {[ "content" := VStr "Hello." ]});
       EvYield (if whitespace_only "Hello." then apology else "Hello.")].
Proof.
  exact (plain_answer (scripted_env {[ "content" := VStr "Hello." ]} VNone)
           example_valves (Some [user_message "hi"]) false
           {[ "content" := VStr "Hello." ]} "Hello."
           eq_refl eq_refl eq_refl eq_refl eq_refl).
Defined.

(** X11.  With both keys, when the first reply of the model asks for no
    tool and its content has no length (it is null, a boolean or a
    number), the text of the run is not the apology: taking the length of
    the content for the log raises, and the run is the call followed by
    the text of that exception. *)
Theorem content_without_length (env : Env) (valves : Valves)
    (body_messages : option (list dict)) (event_emitter : bool)
    (message : dict) (e : exn) :
  key_set (EXA_API_KEY valves) = true →
  key_set (OPENROUTER_API_KEY valves) = true →
  openrouter env [] (OPENROUTER_MODEL valves)
    (compose_messages env (non_system (default [] body_messages))) true
    = inr message →
  truthy (dict_get message "tool_calls" (VList [])) = false →
  py_len (dict_get message "content" (VStr "")) = inl e →
  raised (pipe env valves body_messages event_emitter) = None
  ∧ trace (pipe env valves body_messages event_emitter)
    = [EvChat (OPENROUTER_MODEL valves)
         (compose_messages env (non_system (default [] body_messages))) true
         (inr message);
       EvYield ("Error: " +:+ str_exn env e)]
  ∧ e = TypeError "len" (dict_get message "content" (VStr "")).
Proof.
  intros Hexa Hor Hfirst Hno Hcontent.
  destruct (pipe_trace env valves body_messages event_emitter Hexa Hor)
    as (result_text & st' & text & post & Hrun & Hraised & -> & _ & _ & _
        & _ & Hlen).
  split; [done|].
  inversion Hrun as
    [e' Hreply|message' Hreply Htc|message' evs replies e' st3 Hreply Htc Hlog
       Htool Hcit Hmsg|message' items evs replies st3 r2 Hreply Htc Hitems
       Hlog Htool Hcit Hmsg Hreplies Hreply2]; subst; simpl in *;
    rewrite Hfirst in Hreply; try done;
    injection Hreply as <-; try (rewrite Hno in Htc; done).
  destruct (Hlen _ Hcontent) as [-> ->]. split; [done|].
  clear -Hcontent.
  destruct (dict_get message "content" (VStr "")); by simplify_eq/=.
Qed.

Lemma content_without_length_witness :
  raised (pipe (scripted_env {[ "content" := VNone ]} VNone)
            example_valves (Some [user_message "hi"]) false) = None
  ∧ trace (pipe (scripted_env {[ "content" := VNone ]} VNone)
             example_valves (Some [user_message "hi"]) false)
    = [EvChat (OPENROUTER_MODEL example_valves)
         (compose_messages (scripted_env {[ "content" := VNone ]} VNone)
            (non_system (default [] (Some [user_message "hi"])))) true
         (inr {[ "content" := VNone ]});
       EvYield ("Error: "
                +:+ str_exn (scripted_env {[ "content" := VNone ]} VNone)
                      (TypeError "len" VNone))]
  ∧ TypeError "len" VNone
    = TypeError "len" (dict_get {[ "content" := VNone ]} "content" (VStr "")).
Proof.
  exact (content_without_length (scripted_env {[ "content" := VNone ]} VNone)
           example_valves (Some [user_message "hi"]) false
           {[ "content" := VNone ]} (TypeError "len" VNone)
           eq_refl eq_refl eq_refl eq_refl eq_refl).
Defined.

(** X12.  In every run of [pipe] the sources are emitted at most once, as
    the last event of the run and right after the text: before that text
    the run has only calls of the model and tool invocations. *)
Theorem emission_is_last (env : Env) (valves : Valves)
    (body_messages : option (list dict)) (event_emitter : bool)
    (sources : list dict) :
  EvEmit sources ∈ trace (pipe env valves body_messages event_emitter) →
  ∃ pre text,
    trace (pipe env valves body_messages event_emitter)
    = pre ++ [EvYield text; EvEmit sources]
    ∧ Forall (λ ev, is_chat ev = true ∨ is_tool ev = true) pre
    ∧ length (List.filter is_emit
                (trace (pipe env valves body_messages event_emitter))) = 1.
Proof.
  intros Hin.
  destruct (pipe_emission _ _ _ _ _ Hin)
    as (pre & text & Htrace & Hpre & _).
  exists pre, text. split_and!; [done..|].
  rewrite Htrace, List.filter_app, length_app. simpl.
  assert (List.filter is_emit pre = []) as ->; [|done].
  clear Htrace. induction Hpre as [|ev pre Hev _ IH]; simpl; [done|].
  rewrite IH. by destruct ev, Hev.
Qed.

(** X13.  Sources are emitted only when the valve [EMIT_SOURCES] is on
    and an emitter was given; the emitted list is never empty and has one
    source per citation of the run's tool invocations. *)
Theorem emission_gated (env : Env) (valves : Valves)
    (body_messages : option (list dict)) (event_emitter : bool)
    (sources : list dict) :
  EvEmit sources ∈ trace (pipe env valves body_messages event_emitter) →
  EMIT_SOURCES valves = true
  ∧ event_emitter = true
  ∧ sources ≠ []
  ∧ length sources
    = length (tool_citations
                (trace (pipe env valves body_messages event_emitter))).
Proof.
  intros Hin.
  destruct (pipe_emission _ _ _ _ _ Hin)
    as (pre & text & _ & _ & Hflag & Hemitter & Hne & Hfmt).
  split_and!; [done..|]. by eapply format_from_length.
Qed.

Lemma emission_is_last_witness :
  ∃ pre text,
    trace example_run = pre ++ [EvYield text; EvEmit example_sources]
    ∧ Forall (λ ev, is_chat ev = true ∨ is_tool ev = true) pre
    ∧ length (List.filter is_emit (trace example_run)) = 1.
Proof.
  apply (emission_is_last
           (example_env [request "call_1" "exa_answer_search" query_json])
           example_valves (Some [user_message "weather?"]) true
           example_sources).
  apply (list_elem_of_lookup_2 _ 4). by vm_compute.
Defined.

Lemma emission_gated_witness :
  EMIT_SOURCES example_valves = true
  ∧ true = true
  ∧ example_sources ≠ []
  ∧ length example_sources = length (tool_citations (trace example_run)).
Proof.
  apply (emission_gated
           (example_env [request "call_1" "exa_answer_search" query_json])
           example_valves (Some [user_message "weather?"]) true
           example_sources).
  apply (list_elem_of_lookup_2 _ 4). by vm_compute.
Defined.

Lemma finish_str env citations reply :
  ∃ s, finish env citations reply = VStr s.
Proof.
  unfold finish. destruct reply as [e|final_message]; [by eexists|].
  destruct (is_blank (dict_get final_message "content" (VStr "")))
    as [e|[]] eqn:Hblank; [by eexists| |].
  - destruct (negb (bool_decide (citations = []))); by eexists.
  - revert Hblank. unfold is_blank.
    destruct (dict_get final_message "content" (VStr ""))
      as [|b|n|s|l|d]; simpl.
    + done.
    + by destruct b.
    + by destruct (negb (n =? 0)%Z).
    + intros _. by exists s.
    + by destruct (negb (bool_decide (l = []))).
    + by destruct (negb (bool_decide (d = ∅))).
Qed.

(** X14.  With both keys, the valve [EMIT_SOURCES] on and an emitter, a
    run whose tool invocations returned citations of the data model ends
    with the emission of one source per citation, right after its text,
    whatever the model replied: a tool phase that was cut short or a
    second call that failed does not lose the sources collected so far. *)
Theorem sources_survive_failures (env : Env) (valves : Valves)
    (body_messages : option (list dict)) :
  key_set (EXA_API_KEY valves) = true →
  key_set (OPENROUTER_API_KEY valves) = true →
  EMIT_SOURCES valves = true →
  tool_citations (trace (pipe env valves body_messages true)) ≠ [] →
  Forall (λ c, well_formed c = true)
    (tool_citations (trace (pipe env valves body_messages true))) →
  ∃ pre text sources,
    trace (pipe env valves body_messages true)
    = pre ++ [EvYield text; EvEmit sources]
    ∧ whitespace_only text = false
    ∧ length sources
      = length (tool_citations (trace (pipe env valves body_messages true))).
Proof.
  intros Hexa Hor Hflag.
  destruct (pipe_trace env valves body_messages true Hexa Hor)
    as (result_text & st' & text & post & Hrun & _ & -> & _ & -> & _
        & Hstr & _).
  intros Hne Hok.
  assert (∃ s, result_text = VStr s) as [s ->].
  { inversion Hrun as
      [e' Hreply|message' Hreply Htc|message' evs replies e' st3 Hreply Htc
         Hlog Htool Hcit Hmsg|message' items evs replies st3 r2 Hreply Htc
         Hitems Hlog Htool Hcit Hmsg Hreplies Hreply2]; subst; simpl in *;
      [done|done|by eexists|apply finish_str]. }
  destruct (Hstr _ eq_refl) as [-> ->].
  destruct (format_from_ok env _ Hok 0) as (sources & Hfmt & Hlen & _).
  exists (st_log st'), (final_text s (st_citations st')), sources.
  split_and!; [|apply final_text_not_blank|done].
  do 2 f_equal. unfold emission.
  rewrite bool_decide_eq_false_2 by done. rewrite Hflag. simpl.
  unfold _format_citations_as_sources. rewrite Hfmt.
  destruct sources as [|source sources]; [|done].
  destruct (st_citations st'); done.
Qed.

Lemma sources_survive_failures_witness :
  ∃ pre text sources,
    trace (pipe (example_env [request "call_1" "exa_answer_search" query_json;
                              request "call_2" "exa_answer_search" "oops"])
             example_valves (Some [user_message "weather?"]) true)
    = pre ++ [EvYield text; EvEmit sources]
    ∧ whitespace_only text = false
    ∧ length sources
      = length (tool_citations
                  (trace (pipe (example_env
                                  [request "call_1" "exa_answer_search"
                                     query_json;
                                   request "call_2" "exa_answer_search"
                                     "oops"])
                            example_valves (Some [user_message "weather?"])
                            true))).
Proof.
  apply (sources_survive_failures
           (example_env [request "call_1" "exa_answer_search" query_json;
                         request "call_2" "exa_answer_search" "oops"])
           example_valves (Some [user_message "weather?"]));
    [reflexivity|reflexivity|reflexivity|by vm_compute|].
  apply Forall_forall. intros c Hc. vm_compute in Hc.
  apply list_elem_of_singleton in Hc as ->. reflexivity.
Defined.

(** ** The agent pipe *)

Lemma crew_text_eq env output :
  match output with
  | inr raw =>
      if negb (truthy (VStr raw)) || String.eqb (strip raw) ""
      then CrewAI.crew_fallback env
             (ValueError "Empty result from CrewAI execution")
      else raw
  | inl e => CrewAI.crew_fallback env e
  end = crew_text env output.
Proof.
  unfold crew_text. destruct output as [e|raw]; [done|].
  destruct (whitespace_only raw) eqn:Hw.
  - apply strip_empty_iff in Hw. rewrite Hw. simpl. by rewrite orb_true_r.
  - assert (strip raw ≠ "") as Hs.
    { intros Hs%strip_empty_iff. congruence. }
    apply String.eqb_neq in Hs. rewrite Hs, orb_false_r.
    by destruct raw.
Qed.

Lemma crew_body_run env crew valves body_messages event_emitter :
  ∃ st',
    try_except (CrewAI.pipe_body env crew valves body_messages event_emitter)
      (pipe_handler env) init_state = (inr (), st')
    ∧ ((∃ e,
          slice_to 100 (current_query (non_system (default [] body_messages)))
            = inl e
          ∧ st_log st' = [EvYield ("Error: " +:+ str_exn env e)])
       ∨ (∃ description e,
            crew description = inl e
            ∧ st_log st' = [EvYield ("Error: " +:+ str_exn env e)])
       ∨ (∃ description k,
            crew description = inr k
            ∧ st_log st'
              = EvYield (crew_text env (CrewAI.output k))
                :: emission env valves (VDict <$> last_answer (CrewAI.invocations k))
                     event_emitter)).
Proof.
  unfold CrewAI.pipe_body. rewrite pop_system_message_eq.
  fold (current_query (non_system (default [] body_messages))).
  unfold try_except, bind at 1, lift.
  destruct (slice_to 100 (current_query (non_system (default [] body_messages))))
    as [e|preview].
  { eexists. split; [done|]. left. by exists e. }
  unfold bind at 1.
  match goal with |- context [crew ?d] => set (description := d) end.
  destruct (crew description) as [e|k] eqn:Hcrew.
  { eexists. split; [done|]. right; left. by exists description, e. }
  rewrite collect_last_answer, crew_text_eq.
  unfold bind, record.
  set (st1 := {| st_messages := st_messages init_state;
                 st_citations := st_citations init_state;
                 st_log := st_log init_state
                           ++ [EvYield (crew_text env (CrewAI.output k))] |}).
  destruct (bool_decide (last_answer (CrewAI.invocations k) = [])) eqn:Hnil;
    simpl.
  - apply bool_decide_eq_true in Hnil. exists st1. split; [done|].
    right; right. exists description, k. split; [done|].
    by rewrite Hnil, emission_nil.
  - destruct (emit_events env valves
                (VDict <$> last_answer (CrewAI.invocations k))
                event_emitter st1) as (st' & Hrun & Hlog).
    unfold try_except in Hrun.
    destruct (_emit_sources env valves
                (VDict <$> last_answer (CrewAI.invocations k))
                event_emitter st1) as [[e|[]] st2]; simpl in *.
    + exists st'. split; [done|]. right; right. exists description, k.
      split; [done|]. by rewrite Hlog.
    + simplify_eq. eexists. split; [done|]. right; right.
      exists description, k. split; [done|]. by rewrite Hlog.
Qed.

Lemma crew_trace env crew valves body_messages event_emitter :
  key_set (EXA_API_KEY valves) = true →
  key_set (OPENROUTER_API_KEY valves) = true →
  raised (CrewAI.pipe env crew valves body_messages event_emitter) = None
  ∧ ((∃ e,
        slice_to 100 (current_query (non_system (default [] body_messages)))
          = inl e
        ∧ trace (CrewAI.pipe env crew valves body_messages event_emitter)
          = [EvYield ("Error: " +:+ str_exn env e)])
     ∨ (∃ description e,
          crew description = inl e
          ∧ trace (CrewAI.pipe env crew valves body_messages event_emitter)
            = [EvYield ("Error: " +:+ str_exn env e)])
     ∨ (∃ description k,
          crew description = inr k
          ∧ trace (CrewAI.pipe env crew valves body_messages event_emitter)
            = EvYield (crew_text env (CrewAI.output k))
              :: emission env valves (VDict <$> last_answer (CrewAI.invocations k))
                   event_emitter)).
Proof.
  intros Hexa Hor. unfold CrewAI.pipe. rewrite Hexa, Hor. simpl.
  destruct (crew_body_run env crew valves body_messages event_emitter)
    as (st' & Hrun & Hcases).
  unfold pipe_handler in Hrun. by rewrite Hrun.
Qed.

Lemma crew_text_not_blank env output :
  whitespace_only (crew_text env output) = false.
Proof.
  unfold crew_text. destruct output as [e|raw]; [done|].
  by destruct (whitespace_only raw) eqn:Hw.
Qed.

(** X15.  With both keys, a run of the agent pipe raises nothing and
    begins with a text; at most one event follows it, and no text of the
    run is empty or made of whitespace only. *)
Theorem crew_pipe_answers (env : Env) (crew : string → result CrewAI.Kickoff)
    (valves : Valves) (body_messages : option (list dict))
    (event_emitter : bool) :
  key_set (EXA_API_KEY valves) = true →
  key_set (OPENROUTER_API_KEY valves) = true →
  raised (CrewAI.pipe env crew valves body_messages event_emitter) = None
  ∧ (∃ text post,
       trace (CrewAI.pipe env crew valves body_messages event_emitter)
       = EvYield text :: post
       ∧ length post ≤ 1)
  ∧ ∀ text,
      EvYield text
        ∈ trace (CrewAI.pipe env crew valves body_messages event_emitter) →
      whitespace_only text = false.
Proof.
  intros Hexa Hor.
  destruct (crew_trace env crew valves body_messages event_emitter Hexa Hor)
    as (Hraised & [(e & _ & ->)|[(d & e & _ & ->)|(d & k & _ & ->)]]).
  - split; [done|]. split; [eexists _, []; split; [done|simpl; lia]|].
    by intros text [= ->]%list_elem_of_singleton.
  - split; [done|]. split; [eexists _, []; split; [done|simpl; lia]|].
    by intros text [= ->]%list_elem_of_singleton.
  - split; [done|].
    destruct (emission_cases env valves
                (VDict <$> last_answer (CrewAI.invocations k))
                event_emitter) as [->|[(text' & Hem)|(sources & -> & _)]].
    + split; [eexists _, []; split; [done|simpl; lia]|].
      intros text [= ->]%list_elem_of_singleton. apply crew_text_not_blank.
    + pose proof Hem as Hem'. revert Hem'. unfold emission at 1.
      destruct (negb (bool_decide
                        (VDict <$> last_answer (CrewAI.invocations k) = []))
                && EMIT_SOURCES valves && event_emitter); [|done].
      destruct (_format_citations_as_sources env
                  (VDict <$> last_answer (CrewAI.invocations k)))
        as [e|[|s l]];
        [|done|done].
      intros [= <-]. rewrite Hem.
      split; [eexists _, [_]; split; [done|simpl; lia]|].
      intros text [[= ->]|[= ->]%list_elem_of_singleton]%elem_of_cons;
        [apply crew_text_not_blank|done].
    + split; [eexists _, [_]; split; [done|simpl; lia]|].
      intros text [[= ->]|?%list_elem_of_singleton]%elem_of_cons;
        [apply crew_text_not_blank|done].
Qed.

Lemma crew_pipe_answers_witness :
  raised (CrewAI.pipe (example_env []) example_crew example_valves
            (Some [user_message "weather?"]) true) = None
  ∧ (∃ text post,
       trace (CrewAI.pipe (example_env []) example_crew example_valves
                (Some [user_message "weather?"]) true)
       = EvYield text :: post
       ∧ length post ≤ 1)
  ∧ ∀ text,
      EvYield text
        ∈ trace (CrewAI.pipe (example_env []) example_crew example_valves
                   (Some [user_message "weather?"]) true) →
      whitespace_only text = false.
Proof.
  exact (crew_pipe_answers (example_env []) example_crew example_valves
           (Some [user_message "weather?"]) true eq_refl eq_refl).
Defined.

(** X16.  In the agent pipe, an exception raised while the tools, the
    model, the agent or the crew are built is not turned into the apology
    of a failed kickoff: with both keys and a current query that can be
    sliced, when building the crew raises, the run is one text, [Error: ]
    followed by the text of the exception, and nothing is emitted. *)
Theorem crew_construction_failure (env : Env)
    (crew : string → result CrewAI.Kickoff) (valves : Valves)
    (body_messages : option (list dict)) (event_emitter : bool)
    (preview : value) (e : exn) :
  key_set (EXA_API_KEY valves) = true →
  key_set (OPENROUTER_API_KEY valves) = true →
  slice_to 100 (current_query (non_system (default [] body_messages)))
    = inr preview →
  (∀ description, crew description = inl e) →
  trace (CrewAI.pipe env crew valves body_messages event_emitter)
  = [EvYield ("Error: " +:+ str_exn env e)].
Proof.
  intros Hexa Hor Hslice Hcrew.
  destruct (crew_trace env crew valves body_messages event_emitter Hexa Hor)
    as (_ & [(e' & He' & _)|[(d & e' & Hd & ->)|(d & k & Hd & _)]]).
  - congruence.
  - rewrite Hcrew in Hd. by injection Hd as ->.
  - by rewrite Hcrew in Hd.
Qed.

Lemma crew_construction_failure_witness :
  trace (CrewAI.pipe (example_env [])
           (λ _, inl (ValueError "no such model")) example_valves
           (Some [user_message "weather?"]) true)
  = [EvYield ("Error: " +:+ str_exn (example_env [])
                              (ValueError "no such model"))].
Proof.
  exact (crew_construction_failure (example_env [])
           (λ _, inl (ValueError "no such model")) example_valves
           (Some [user_message "weather?"]) true (VStr "weather?")
           (ValueError "no such model") eq_refl eq_refl eq_refl
           (λ _, eq_refl)).
Defined.



(** ** The harness *)

Lemma handle_passed_over env response_content chunk :
  passed_over env chunk →
  handle_chunk env response_content chunk = inr response_content.
Proof.
  unfold handle_chunk. intros [->|[->|(message & ->)]]; [done| |].
  - by destruct (startswith "data:" chunk).
  - destruct (startswith "data:" chunk); [|done].
    by destruct (negb (find brace chunk =? -1)%Z).
Qed.

Lemma handle_carries env response_content chunk s :
  carries env chunk s →
  handle_chunk env response_content chunk = inr (response_content +:+ s).
Proof.
  intros (Hprefix & Hbrace & data & choice & more & delta & Hdata & Hchoices
          & Hdelta & Hcontent).
  unfold handle_chunk. rewrite Hprefix.
  apply Z.eqb_neq in Hbrace. rewrite Hbrace. simpl. rewrite Hdata.
  unfold add_content. simpl. rewrite Hchoices. simpl.
  unfold dict_get. rewrite Hdelta. simpl.
  unfold dict_get. rewrite Hcontent. simpl.
  destruct s as [|c s]; simpl; [|done].
  by rewrite string_app_nil_r.
Qed.

(** X18.  The harness keeps nothing of a run that raises nothing and
    whose texts are not server-sent events: a text that does not begin
    with [data:], that has no brace or whose payload is not JSON adds
    nothing to the response, so [test_pipe] returns the empty string. *)
Theorem plain_text_not_kept (env : Env)
    (pipe_instance : option (list dict) → bool → Run)
    (messages : list dict) :
  raised (pipe_instance (Some messages) true) = None →
  (∀ text, EvYield text ∈ trace (pipe_instance (Some messages) true) →
           passed_over env text) →
  test_pipe env pipe_instance messages = "".
Proof.
  intros Hraised Hall. unfold test_pipe. rewrite Hraised.
  assert (∀ response_content,
            consume env response_content
              (trace (pipe_instance (Some messages) true))
            = inr response_content) as ->; [|done].
  induction (trace (pipe_instance (Some messages) true)) as [|ev evs IH];
    intros response_content; simpl; [done|].
  assert (∀ r, consume env r evs = inr r) as Hrest.
  { apply IH. intros text Hin. apply Hall. by right. }
  destruct ev as [| | chunk |]; try apply Hrest.
  rewrite handle_passed_over by (apply Hall; left). simpl. apply Hrest.
Qed.

Lemma plain_text_not_kept_witness :
  test_pipe sse_env (streaming ["It is sunny."; "data: [DONE]"])
    [user_message "weather?"] = "".
Proof.
  apply (plain_text_not_kept sse_env
           (streaming ["It is sunny."; "data: [DONE]"])
           [user_message "weather?"]); [reflexivity|].
  intros text Hin. vm_compute in Hin.
  apply elem_of_cons in Hin as [[= ->]|Hin]; [by left|].
  apply list_elem_of_singleton in Hin as [= ->]. right; left. reflexivity.
Defined.

(** X19.  Without the Exa key, a turn of the harness with either pipe
    records the refusal as the reply of the assistant: the exception the
    pipe raises on the first request of a chunk becomes the response
    [Error: EXA_API_KEY not provided in the valves.]. *)
Theorem missing_key_recorded (env : Env) (valves : Valves)
    (crew : string → result CrewAI.Kickoff) (messages : list dict)
    (message : string) :
  key_set (EXA_API_KEY valves) = false →
  turn env (pipe env valves) messages message
    = messages
      ++ [<["role" := VStr "user"]> {[ "content" := VStr message ]};
          <["role" := VStr "assistant"]>
          {[ "content" :=
               VStr "Error: EXA_API_KEY not provided in the valves." ]}]
  ∧ turn env (CrewAI.pipe env crew valves) messages message
    = turn env (pipe env valves) messages message.
Proof.
  intros Hkey. unfold turn, test_pipe, pipe, CrewAI.pipe. rewrite Hkey. simpl.
  split; [|done]. by rewrite <- app_assoc.
Qed.

Lemma missing_key_recorded_witness :
  turn (example_env []) (pipe (example_env []) valves_without_exa_key) []
    "weather?"
    = []
      ++ [<["role" := VStr "user"]> {[ "content" := VStr "weather?" ]};
          <["role" := VStr "assistant"]>
          {[ "content" :=
               VStr "Error: EXA_API_KEY not provided in the valves." ]}]
  ∧ turn (example_env [])
      (CrewAI.pipe (example_env []) example_crew valves_without_exa_key) []
      "weather?"
    = turn (example_env []) (pipe (example_env []) valves_without_exa_key) []
        "weather?".
Proof.
  exact (missing_key_recorded (example_env []) valves_without_exa_key
           example_crew [] "weather?" eq_refl).
Defined.

(** X20.  With both keys, when the model cannot be reached, a turn of the
    harness with the direct pipe records the message of the user and
    nothing else: the pipe yields the error as a plain text, which the
    harness does not take for a chunk, so the response is empty and no
    reply of the assistant is added. *)
Theorem failure_not_recorded (env : Env) (valves : Valves)
    (messages : list dict) (message : string) (e : exn) :
  key_set (EXA_API_KEY valves) = true →
  key_set (OPENROUTER_API_KEY valves) = true →
  (∀ log model submitted with_tools,
     openrouter env log model submitted with_tools = inl e) →
  test_pipe env (pipe env valves)
    (messages ++ [<["role" := VStr "user"]> {[ "content" := VStr message ]}])
    = ""
  ∧ turn env (pipe env valves) messages message
    = messages ++ [<["role" := VStr "user"]> {[ "content" := VStr message ]}].
Proof.
  intros Hexa Hor Hfail.
  assert (test_pipe env (pipe env valves)
            (messages
             ++ [<["role" := VStr "user"]> {[ "content" := VStr message ]}])
          = "") as Hresponse.
  { unfold test_pipe.
    destruct (pipe_trace env valves
                (Some (messages ++ [<["role" := VStr "user"]>
                                    {[ "content" := VStr message ]}]))
                true Hexa Hor)
      as (result_text & st' & text & post & Hrun & -> & -> & _ & _ & _
          & Hstr & _).
    destruct (loop_first_failure env valves
                (first_state env
                   (Some (messages ++ [<["role" := VStr "user"]>
                                       {[ "content" := VStr message ]}])))
                _ _ e (Hfail _ _ _ _) Hrun) as [-> ->].
    destruct (Hstr _ eq_refl) as [-> ->]. rewrite error_text_kept. simpl.
    unfold handle_chunk. by destruct e. }
  split; [done|]. unfold turn. by rewrite Hresponse.
Qed.

Lemma failure_not_recorded_witness :
  test_pipe (failing_env (TransportError "timeout"))
    (pipe (failing_env (TransportError "timeout")) example_valves)
    ([] ++ [<["role" := VStr "user"]> {[ "content" := VStr "weather?" ]}])
    = ""
  ∧ turn (failing_env (TransportError "timeout"))
      (pipe (failing_env (TransportError "timeout")) example_valves) []
      "weather?"
    = [] ++ [<["role" := VStr "user"]> {[ "content" := VStr "weather?" ]}].
Proof.
  exact (failure_not_recorded (failing_env (TransportError "timeout"))
           example_valves [] "weather?" (TransportError "timeout")
           eq_refl eq_refl (λ _ _ _ _, eq_refl)).
Defined.

Lemma consume_carries env chunks contents :
  Forall2 (carries env) chunks contents →
  ∀ response_content,
    consume env response_content (EvYield <$> chunks)
    = inr (response_content +:+ foldr String.append "" contents).
Proof.
  induction 1 as [|chunk s chunks contents Hc _ IH]; intros r; simpl.
  - by rewrite string_app_nil_r.
  - rewrite (handle_carries _ _ _ _ Hc). simpl.
    by rewrite IH, string_app_assoc.
Qed.

(** X21.  The harness decodes a stream of server-sent events in order:
    for a generator that raises nothing and yields chunks each of which
    carries a content, [test_pipe] returns the contents concatenated in the
    order of the chunks. *)
Theorem stream_decoded (env : Env)
    (pipe_instance : option (list dict) → bool → Run)
    (messages : list dict) (chunks contents : list string) :
  raised (pipe_instance (Some messages) true) = None →
  trace (pipe_instance (Some messages) true) = EvYield <$> chunks →
  Forall2 (carries env) chunks contents →
  test_pipe env pipe_instance messages = foldr String.append "" contents.
Proof.
  intros Hraised Htrace Hchunks. unfold test_pipe.
  by rewrite Hraised, Htrace, (consume_carries _ _ _ Hchunks).
Qed.

Lemma stream_decoded_witness :
  test_pipe sse_env
    (streaming ["data: " +:+ sse_payload; "data: " +:+ sse_payload])
    [user_message "hi"]
  = foldr String.append "" ["Hi"; "Hi"].
Proof.
  apply (stream_decoded sse_env
           (streaming ["data: " +:+ sse_payload; "data: " +:+ sse_payload])
           [user_message "hi"]
           ["data: " +:+ sse_payload; "data: " +:+ sse_payload]
           ["Hi"; "Hi"]); [reflexivity|reflexivity|].
  assert (carries sse_env ("data: " +:+ sse_payload) "Hi") as Hc.
  { split; [reflexivity|]. split; [by vm_compute|].
    eexists _, _, [], _. split_and!; reflexivity. }
  constructor; [exact Hc|]. constructor; [exact Hc|]. constructor.
Defined.

(** X22.  The default of [.get("delta", {})] does not cover a delta that
    is present and null: a chunk whose first choice has such a delta makes
    [test_pipe] give up the stream, and its response is the text of the
    [AttributeError], whatever the chunks before it carried and whatever
    follows. *)
Theorem null_delta_aborts (env : Env)
    (pipe_instance : option (list dict) → bool → Run)
    (messages : list dict) (chunks : list string) (contents : list string)
    (chunk : string) (post : list event) (data choice : dict)
    (more : list value) :
  trace (pipe_instance (Some messages) true)
    = (EvYield <$> chunks) ++ EvYield chunk :: post →
  Forall2 (carries env) chunks contents →
  startswith "data:" chunk = true →
  find brace chunk ≠ (-1)%Z →
  json_loads env (slice_from (find brace chunk) chunk) = inr (VDict data) →
  data !! "choices" = Some (VList (VDict choice :: more)) →
  choice !! "delta" = Some VNone →
  test_pipe env pipe_instance messages
  = "Error: " +:+ str_exn env (AttributeError VNone "get").
Proof.
  intros Htrace Hchunks Hprefix Hbrace Hdata Hchoices Hdelta.
  unfold test_pipe. rewrite Htrace.
  assert (∀ pre r,
            consume env r ((EvYield <$> pre) ++ EvYield chunk :: post)
            = and_then (consume env r (EvYield <$> pre))
                (λ r, consume env r (EvYield chunk :: post))) as ->.
  { induction pre as [|c pre IH]; intros r; simpl; [done|].
    destruct (handle_chunk env r c) as [m|r']; simpl; [done|apply IH]. }
  rewrite (consume_carries _ _ _ Hchunks). simpl.
  unfold handle_chunk. rewrite Hprefix.
  apply Z.eqb_neq in Hbrace. rewrite Hbrace. simpl. rewrite Hdata.
  unfold add_content. simpl. rewrite Hchoices. simpl.
  unfold dict_get. rewrite Hdelta. done.
Qed.

Lemma null_delta_aborts_witness :
  test_pipe sse_env
    (streaming ["data: " +:+ sse_payload; "data: " +:+ null_payload;
                "data: " +:+ sse_payload])
    [user_message "hi"]
  = "Error: " +:+ str_exn sse_env (AttributeError VNone "get").
Proof.
  apply (null_delta_aborts sse_env
           (streaming ["data: " +:+ sse_payload; "data: " +:+ null_payload;
                       "data: " +:+ sse_payload])
           [user_message "hi"] ["data: " +:+ sse_payload] ["Hi"]
           ("data: " +:+ null_payload) [EvYield ("data: " +:+ sse_payload)]
           {[ "choices" := VList [VDict {[ "delta" := VNone ]}] ]}
           {[ "delta" := VNone ]} []);
    [reflexivity| |reflexivity|by vm_compute|reflexivity|reflexivity
    |reflexivity].
  constructor; [|constructor].
  split; [reflexivity|]. split; [by vm_compute|].
  eexists _, _, [], _. split_and!; reflexivity.
Defined.

(** ** The final text *)

Lemma finish_empty env citations message :
  empty_text (dict_get message "content" (VStr "")) →
  finish env citations (inr message) = VStr (substitute citations).
Proof.
  intros [Hf|(s & Hc & Hs)]; [|by eapply finish_blank].
  unfold finish, substitute, is_blank. rewrite Hf. simpl.
  by case_bool_decide.
Qed.

(** X23.  In a run of [pipe] with both keys, whatever the model and the
    tools reply, nothing is raised, a text is yielded before anything is
    delivered and no text yielded is empty or whitespace-only.  A second
    reply whose content is empty by the test of the code (null, false,
    zero, an empty list or object, or a string of whitespace) is replaced
    by the summary with the number of citations when there are citations,
    and by the apology otherwise; a first reply without tool calls whose
    content is an empty or whitespace-only string is replaced by the
    apology. *)
Theorem final_text_never_blank (env : Env) (valves : Valves)
    (body_messages : option (list dict)) (event_emitter : bool) :
  key_set (EXA_API_KEY valves) = true →
  key_set (OPENROUTER_API_KEY valves) = true →
  answers (pipe env valves body_messages event_emitter).
Proof.
  intros Hexa Hor. unfold answers.
  destruct (pipe_run env valves body_messages event_emitter Hexa Hor)
    as (result_text & st' & text & post & Hrun & Hraised & Htrace & Htext
        & Hpost & Hfinal).
  destruct (loop_run_log _ _ _ _ _ Hrun)
    as (reply1 & evs & tail & Hlog & Htool & Hcit & Htail).
  simpl in Hlog, Hcit.
  pose proof (delivered_not_chat _ _ _ Hpost) as Hpost'.
  split; [done|]. split.
  { exists (st_log st'), text, post. split; [done|]. rewrite Hlog.
    constructor; [by left|]. apply Forall_app. split.
    - eapply Forall_impl; [exact Htool|]. by right.
    - destruct Htail as [->|(reply2 & -> & _)]; [constructor|].
      apply Forall_singleton. by left. }
  split.
  { intros t Ht. rewrite Htrace, Hlog in Ht. rewrite !elem_of_app in Ht.
    destruct Ht as [Ht|Ht].
    - apply elem_of_cons in Ht as [Ht|Ht]; [done|].
      apply elem_of_app in Ht as [Ht|Ht].
      + eapply Forall_forall in Htool; [|exact Ht]. done.
      + destruct Htail as [->|(reply2 & -> & _)]; [by apply elem_of_nil in Ht|].
        by apply list_elem_of_singleton in Ht.
    - apply elem_of_cons in Ht as [[= ->]|Ht]; [done|].
      eapply Forall_forall in Hpost; [|exact Ht]. done. }
  clear Hlog Htool Hcit Htail. split.
  - intros pre model messages message post' Hdec Hnochat Hempty.
    rewrite Htrace in Hdec.
    inversion Hrun as
      [e Hreply|message1 Hreply Htc|message1 evs1 replies e st3 Hreply Htc
         Hlog3 Htool3 Hcit3 Hmsg3|message1 items evs1 replies st3 reply2
         Hreply Htc Hitems Hlog3 Htool3 Hcit3 Hmsg3 Hreplies Hreply2];
      subst; simpl in *.
    + destruct (last_chat_unique [] _ (EvYield text :: post) _ _ _ Hdec)
        as (_ & [=] & _); try done. by constructor.
    + destruct (last_chat_unique [] _ (EvYield text :: post) _ _ _ Hdec)
        as (_ & [=] & _); try done. by constructor.
    + rewrite Hlog3 in Hdec. simpl in Hdec.
      destruct (last_chat_unique [] _ (evs1 ++ EvYield text :: post) _ _ _
                  Hdec) as (_ & [=] & _); try done.
      apply Forall_app. split; [by apply tool_not_chat|by constructor].
    + rewrite <- app_assoc in Hdec. simpl in Hdec.
      destruct (last_chat_unique (st_log st3) _ (EvYield text :: post) _ _ _
                  Hdec) as (<- & [= <- <- Hr] & <-); try done;
        [by constructor|].
      rewrite Hr in Hfinal. rewrite (finish_empty _ _ _ Hempty) in Hfinal.
      rewrite (Hfinal _ eq_refl). unfold final_text.
      rewrite substitute_not_blank, Hcit3, Hlog3. simpl. by eexists.
  - intros pre model messages message post' s Hdec Hnochat Hno Hc Hs.
    rewrite Htrace in Hdec.
    inversion Hrun as
      [e Hreply|message1 Hreply Htc|message1 evs1 replies e st3 Hreply Htc
         Hlog3 Htool3 Hcit3 Hmsg3|message1 items evs1 replies st3 reply2
         Hreply Htc Hitems Hlog3 Htool3 Hcit3 Hmsg3 Hreplies Hreply2];
      subst; simpl in *.
    + destruct (last_chat_unique [] _ (EvYield text :: post) _ _ _ Hdec)
        as (_ & [=] & _); try done. by constructor.
    + destruct (last_chat_unique [] _ (EvYield text :: post) _ _ _ Hdec)
        as (<- & [= <- <- <-] & <-); try done; [by constructor|].
      rewrite (Hfinal s Hc). unfold final_text. rewrite Hs. simpl.
      by eexists.
    + rewrite Hlog3 in Hdec. simpl in Hdec.
      destruct (last_chat_unique [] _ (evs1 ++ EvYield text :: post) _ _ _
                  Hdec) as (<- & [= <- <- <-] & <-); try done.
      * apply Forall_app. split; [by apply tool_not_chat|by constructor].
      * by rewrite Hno in Htc.
    + rewrite <- app_assoc in Hdec. simpl in Hdec.
      destruct (last_chat_unique (st_log st3) _ (EvYield text :: post) _ _ _
                  Hdec) as (_ & [=] & _); try done. by constructor.
Qed.

(** The model asks for one answer search, which returns one citation,
    and its second reply has [null] for content. *)
Lemma final_text_never_blank_witness :
  answers (pipe (scripted_env
                   (assistant_requests
                      [request "call_1" "exa_answer_search" query_json])
                   VNone)
             example_valves (Some [user_message "current weather in Lisbon"])
             true).
Proof. apply final_text_never_blank; reflexivity. Defined.

(** In that run the text is the summary with the number of citations; it
    is the apology when the request is one the loop cannot serve, and also
    when the first reply asks for no tool and is the empty string. *)
Example scenario_null_answer :
  yields (pipe (scripted_env
                  (assistant_requests
                     [request "call_1" "exa_answer_search" query_json])
                  VNone)
            example_valves (Some [user_message "current weather in Lisbon"])
            true)
  = [loop_summary 1]
  ∧ yields (pipe (scripted_env
                    (assistant_requests [request "call_1" "translate" "{}"])
                    VNone)
              example_valves (Some [user_message "current weather in Lisbon"])
              true)
    = [apology]
  ∧ yields (pipe (scripted_env
                    (<["role" := VStr "assistant"]> {[ "content" := VStr "" ]})
                    VNone)
              example_valves (Some [user_message "current weather in Lisbon"])
              true)
    = [apology].
Proof. by vm_compute. Qed.
